(** * Nirava intake agent: data collection core

    A shallow embedding of [agents/intake_agent.py] and of the session
    records of [models/session.py], followed by the properties that the
    design document states about them.

    Conventions of the embedding.
    - A Python [str] is a Rocq [string] of ASCII characters, on which the
      character classes follow Python.  Beyond ASCII Python knows further
      digits, spaces and cased letters; such texts are outside the
      embedding.
    - A Python [float] is an exact rational, or the infinity that [float()]
      and float addition produce on overflow; the rounding of finite values
      to binary64 is not modelled.  The concrete evaluations below use small
      integers and halves, where binary64 is exact, or a number far above
      the overflow bound.
    - A Python [int] is a [Z].
    - A dict read by key is a [gmap string _]; a dict walked in insertion
      order is a list of pairs.
    - An expression that can raise has a type [res _]; a block that mutates
      the session and can raise returns the session it leaves and a [res].
    - [_build_prompt] only builds the text sent to the extraction service;
      the service is a parameter of a turn, so the prompt is not modelled. *)

From Stdlib Require Import ZArith QArith Qround Bool List Ascii String Lia Lqa.
From Stdlib Require Import DecimalString DecimalPos.
From Stdlib Require Qcanon.
From stdpp Require Import base option list gmap strings.

Local Open Scope string_scope.
Local Open Scope bool_scope.

(** ** Python string operations *)

Module PyStr.

Definition code (c : ascii) : N := N_of_ascii c.

(** [str.isspace] on one ASCII character: TAB..CR, FS..US and space. *)
Definition is_space (c : ascii) : bool :=
  ((9 <=? code c) && (code c <=? 13) || (28 <=? code c) && (code c <=? 32))%N.

(** [str.isdigit] on one ASCII character. *)
Definition is_digit (c : ascii) : bool :=
  ((48 <=? code c) && (code c <=? 57))%N.

Definition lower_char (c : ascii) : ascii :=
  if ((65 <=? code c) && (code c <=? 90))%N then ascii_of_N (code c + 32) else c.

Definition upper_char (c : ascii) : ascii :=
  if ((97 <=? code c) && (code c <=? 122))%N then ascii_of_N (code c - 32) else c.

Fixpoint map_chars (f : ascii -> ascii) (s : string) : string :=
  match s with
  | EmptyString => EmptyString
  | String c s' => String (f c) (map_chars f s')
  end.

(** [s.lower()] and [s.upper()] *)
Definition lower (s : string) : string := map_chars lower_char s.
Definition upper (s : string) : string := map_chars upper_char s.

Fixpoint lstrip (s : string) : string :=
  match s with
  | EmptyString => EmptyString
  | String c s' => if is_space c then lstrip s' else s
  end.

Fixpoint rstrip (s : string) : string :=
  match s with
  | EmptyString => EmptyString
  | String c s' =>
      match rstrip s' with
      | EmptyString => if is_space c then EmptyString else String c EmptyString
      | r => String c r
      end
  end.

(** [s.strip()] *)
Definition strip (s : string) : string := rstrip (lstrip s).

(** [s.startswith(p)] *)
Definition startswith (p s : string) : bool := String.prefix p s.

(** [sub in s] *)
Fixpoint contains (sub s : string) : bool :=
  startswith sub s ||
  match s with
  | EmptyString => false
  | String _ s' => contains sub s'
  end.

(** [s.split(sep)] for a non-empty separator: a left-to-right scan for
    non-overlapping occurrences.  [skip] counts the characters of an
    occurrence that remain to be consumed. *)
Fixpoint split_go (sep : string) (skip : nat) (s : string) : list string :=
  match s with
  | EmptyString => [EmptyString]
  | String c s' =>
      match skip with
      | S k => split_go sep k s'
      | O =>
          if startswith sep s
          then EmptyString :: split_go sep (String.length sep - 1) s'
          else match split_go sep 0 s' with
               | p :: ps => String c p :: ps
               | [] => [String c EmptyString]
               end
      end
  end.

Definition split (sep s : string) : list string := split_go sep 0 s.

(** [s.split(sep)[0]] *)
Definition split_head (sep s : string) : string :=
  match split sep s with
  | p :: _ => p
  | [] => EmptyString
  end.

(** [s.replace(".", "")] *)
Fixpoint remove_dots (s : string) : string :=
  match s with
  | EmptyString => EmptyString
  | String c s' =>
      if Ascii.eqb c "." then remove_dots s' else String c (remove_dots s')
  end.

Fixpoint all_chars (p : ascii -> bool) (s : string) : bool :=
  match s with
  | EmptyString => true
  | String c s' => p c && all_chars p s'
  end.

(** [s.isdigit()]: at least one character, all of them digits. *)
Definition isdigit (s : string) : bool :=
  match s with
  | EmptyString => false
  | _ => all_chars is_digit s
  end.

(** [sep.join(l)] *)
Fixpoint join (sep : string) (l : list string) : string :=
  match l with
  | [] => EmptyString
  | [x] => x
  | x :: rest => x ++ sep ++ join sep rest
  end.

(** [x in l] for a list of strings *)
Definition mem (x : string) (l : list string) : bool :=
  existsb (String.eqb x) l.

End PyStr.

(** ** Exceptions

    The two exception classes that the numeric code can raise.  A [res A]
    is the outcome of a Python expression: a value or a raised exception. *)

Inductive exn : Type := ValueError | OverflowError.

Inductive res (A : Type) : Type :=
| Ret (a : A)
| Raise (e : exn).
Arguments Ret {A} a.
Arguments Raise {A} e.

Definition bind {A B : Type} (m : res A) (k : A -> res B) : res B :=
  match m with
  | Ret a => k a
  | Raise e => Raise e
  end.

Notation "'let*' x ':=' m 'in' k" := (bind m (fun x => k))
  (at level 10, x name, m at level 100, k at level 200).

(** [try: body except classes: handler] *)
Definition try_except {A : Type} (catches : exn -> bool) (body handler : res A) : res A :=
  match body with
  | Ret a => Ret a
  | Raise e => if catches e then handler else Raise e
  end.

Fixpoint mapM {A B : Type} (f : A -> res B) (l : list A) : res (list B) :=
  match l with
  | [] => Ret []
  | x :: xs => let* y := f x in let* ys := mapM f xs in Ret (y :: ys)
  end.

(** ** Python numbers *)

Module PyNum.
Import PyStr.

(** A float: a finite value or the infinity produced by overflow. *)
Inductive pyfloat : Type := Fin (q : Q) | Inf.

(** Decimal values at or above this bound convert to infinity (the
    midpoint between the largest binary64 value and 2^1024). *)
Definition FLOAT_OVERFLOW : Q := inject_Z (2 ^ 1024 - 2 ^ 970).

Definition fnorm (q : Q) : pyfloat :=
  if Qle_bool FLOAT_OVERFLOW q then Inf else Fin (Qred q).

Definition fadd (a b : pyfloat) : pyfloat :=
  match a, b with
  | Fin x, Fin y => fnorm (x + y)
  | _, _ => Inf
  end.

(** [sum(nums)] *)
Definition fsum (l : list pyfloat) : pyfloat := fold_left fadd l (Fin 0).

(** [x / n] for a positive list length [n] *)
Definition fdiv_len (a : pyfloat) (n : nat) : pyfloat :=
  match a with
  | Fin x => Fin (Qred (x / inject_Z (Z.of_nat n)))
  | Inf => Inf
  end.

(** [lo <= val <= hi] with integer bounds *)
Definition fin_range (lo hi : Z) (a : pyfloat) : bool :=
  match a with
  | Fin x => Qle_bool (inject_Z lo) x && Qle_bool x (inject_Z hi)
  | Inf => false
  end.

(** [round(x)] with one argument: nearest integer, ties to the even one. *)
Definition round_half_even (x : Q) : Z :=
  let f := Qfloor x in
  let r := (x - inject_Z f)%Q in
  match (r ?= 1 # 2)%Q with
  | Lt => f
  | Gt => (f + 1)%Z
  | Eq => if Z.even f then f else (f + 1)%Z
  end.

(** [int(round(x))]; [round] of an infinity raises [OverflowError]. *)
Definition py_round (a : pyfloat) : res Z :=
  match a with
  | Fin x => Ret (round_half_even x)
  | Inf => Raise OverflowError
  end.

Definition digit_val (c : ascii) : Z := Z.of_N (code c - 48).

Fixpoint digits_value (acc : Z) (s : string) : Z :=
  match s with
  | EmptyString => acc
  | String c s' => digits_value (10 * acc + digit_val c) s'
  end.

(** The longest prefix of digits, and what follows it. *)
Fixpoint span_digits (s : string) : string * string :=
  match s with
  | EmptyString => (EmptyString, EmptyString)
  | String c s' =>
      if is_digit c
      then let (d, r) := span_digits s' in (String c d, r)
      else (EmptyString, s)
  end.

(** The value of the decimal numeral [ip.fp]. *)
Definition decimal_value (ip fp : string) : Q :=
  (inject_Z (digits_value 0 (ip ++ fp)) / inject_Z (10 ^ Z.of_nat (String.length fp)))%Q.

(** [float(s)] on a string made of digits and dots, the only strings the
    parsers pass to it: [d+], [d+.d*] and [.d+] convert, anything else
    raises [ValueError]. *)
Definition py_float (s : string) : res pyfloat :=
  let (ip, r) := span_digits s in
  match r with
  | EmptyString =>
      match ip with
      | EmptyString => Raise ValueError
      | _ => Ret (fnorm (decimal_value ip EmptyString))
      end
  | String c r' =>
      if Ascii.eqb c "."
      then let (fp, r'') := span_digits r' in
           match r'', (ip ++ fp)%string with
           | EmptyString, String _ _ => Ret (fnorm (decimal_value ip fp))
           | _, _ => Raise ValueError
           end
      else Raise ValueError
  end.

(** The text matched by the pattern [\d+\.?\d*] at the start of [s],
    which begins with a digit. *)
Definition number_at (s : string) : string :=
  let (d1, r) := span_digits s in
  match r with
  | String c r' =>
      if Ascii.eqb c "." then d1 ++ "." ++ fst (span_digits r') else d1
  | EmptyString => d1
  end.

(** [re.search(r"\d+\.?\d*", s)]: the leftmost match, if any. *)
Fixpoint re_search_number (s : string) : option string :=
  match s with
  | EmptyString => None
  | String c s' => if is_digit c then Some (number_at s) else re_search_number s'
  end.

(** [str(n)] for an int *)
Definition str_of_int (z : Z) : string := NilZero.string_of_int (Z.to_int z).

End PyNum.

(** ** Values of an extraction payload

    The values [json.loads] can put in the [extracted] dict.  The update
    applier reads a value through [is not None], [isinstance(_, bool)] and
    [str()] only, so a float, list or dict is represented by its [str()]
    rendering ([PRepr]). *)

Inductive pyval : Type :=
| PNone
| PBool (b : bool)
| PInt (z : Z)
| PStr (s : string)
| PRepr (rendering : string).

(** [str(value)] *)
Definition py_str (v : pyval) : string :=
  match v with
  | PNone => "None"
  | PBool true => "True"
  | PBool false => "False"
  | PInt z => PyNum.str_of_int z
  | PStr s => s
  | PRepr s => s
  end.

(** [updates.get(key)], with [None] for a missing key and for a null. *)
Definition dict_get (updates : gmap string pyval) (key : string) : option pyval :=
  match updates !! key with
  | Some PNone => None
  | other => other
  end.

(** ** NumericExtractor: [_parse_int], [_extract_first_number], [_parse_float] *)

Section Parsing.
Import PyStr PyNum.

(** Of the exceptions modelled here, each [except] clause of the parsers
    ([(ValueError, ZeroDivisionError)], [(ValueError, AttributeError,
    TypeError)] with or without [ZeroDivisionError]) catches [ValueError]
    and lets [OverflowError] through. *)
Definition catches_value_error (e : exn) : bool :=
  match e with
  | ValueError => true
  | OverflowError => false
  end.

Definition extract_first_number (text : string) : res (option pyfloat) :=
  match re_search_number text with
  | Some m => let* f := py_float m in Ret (Some f)
  | None => Ret None
  end.

(** [sum(nums) / len(nums)] *)
Definition mean (nums : list pyfloat) : pyfloat :=
  fdiv_len (fsum nums) (List.length nums).

(** [[n for n in nums if n is not None]] *)
Definition not_none {A : Type} (nums : list (option A)) : list A :=
  omap id nums.

(** [p.strip().replace(".", "").isdigit()] *)
Definition is_bare_number (p : string) : bool :=
  isdigit (remove_dots (strip p)).

(** [[float(p.strip()) for p in parts if ...isdigit()]] *)
Definition range_numbers (parts : list string) : res (list pyfloat) :=
  mapM (fun p => py_float (strip p)) (List.filter is_bare_number parts).

(** The [" out of "] rule, shared by both parsers. *)
Definition cut_out_of (s : string) : string :=
  if contains " out of " s then strip (split_head " out of " s) else s.

(** The ["/"] rule of [_parse_int]. *)
Definition cut_slash (s : string) : string :=
  if contains "/" s then strip (split_head "/" s) else s.

(** The numbers averaged by the [" or "] rule; [finish] is what the
    parser does with the mean before returning it.  [Some r] stands for
    [return r], [None] for falling through to the next rule. *)
Definition or_rule {A : Type} (finish : pyfloat -> res A) (s : string) : res (option A) :=
  if contains " or " s then
    let parts := split " or " s in
    try_except catches_value_error
      (let* found := mapM extract_first_number parts in
       match not_none found with
       | [] => Ret None
       | nums => let* r := finish (mean nums) in Ret (Some r)
       end)
      (Ret None)
  else Ret None.

(** The ["-"] rule. *)
Definition dash_rule {A : Type} (finish : pyfloat -> res A) (s : string) : res (option A) :=
  if contains "-" s && negb (startswith "-" s) then
    let parts := split "-" s in
    try_except catches_value_error
      (let* nums := range_numbers parts in
       match nums with
       | [] => Ret None
       | _ => let* r := finish (mean nums) in Ret (Some r)
       end)
      (Ret None)
  else Ret None.

(** The final rule: the first number anywhere in the string. *)
Definition first_number_rule {A : Type} (finish : pyfloat -> res A) (s : string) : res (option A) :=
  match re_search_number s with
  | Some m => let* f := py_float m in let* r := finish f in Ret (Some r)
  | None => Ret None
  end.

(** [_parse_int]: the mean is passed through [int(round(_))]. *)
Definition parse_int (value : pyval) : res (option Z) :=
  try_except catches_value_error
    (let s := strip (lower (py_str value)) in
     let s := cut_out_of s in
     let* r := or_rule py_round s in
     match r with
     | Some n => Ret (Some n)
     | None =>
         let s := cut_slash s in
         let* r := dash_rule py_round s in
         match r with
         | Some n => Ret (Some n)
         | None => first_number_rule py_round s
         end
     end)
    (Ret None).

(** [_parse_float]: the same rules without the ["/"] rule and without
    rounding. *)
Definition parse_float (value : pyval) : res (option pyfloat) :=
  try_except catches_value_error
    (let s := strip (lower (py_str value)) in
     let s := cut_out_of s in
     let* r := or_rule Ret s in
     match r with
     | Some x => Ret (Some x)
     | None =>
         let* r := dash_rule Ret s in
         match r with
         | Some x => Ret (Some x)
         | None => first_number_rule Ret s
         end
     end)
    (Ret None).

End Parsing.

(** ** Session records ([models/session.py]) *)

Import PyNum.

Record UserProfile : Type := mkUserProfile {
  name : string;
  age : option Z;
  sex : option string;
  height_cm : option pyfloat;
  weight_kg : option pyfloat;
  primary_goal : string;
  target_weight_kg : option pyfloat;
  conditions : list string;
  dietary_preference : string;
  food_restrictions : list string;
  origin : option string;
  religion : option string
}.

(** [UserProfile()] *)
Definition default_profile : UserProfile :=
  mkUserProfile "Friend" None None None None "General Health" None []
                "omnivore" [] None None.

Inductive JourneyMode : Type := QUICK_CHECK | DEEP_DIVE | BUILD_PLAN.

Inductive ConversationPhase : Type := INTAKE | POST_ANALYSIS.

Record DailyCheckIn : Type := mkDailyCheckIn {
  sleep_hours : option pyfloat;
  water_glasses : option Z;
  exercise_minutes : option Z;
  exercise_type : option string;
  mood_score : option Z;
  stress_score : option Z;
  energy_score : option Z;
  social_hours : option pyfloat;
  alcohol_units : option Z;
  smoking_today : option bool;
  symptoms : list string
}.

(** [x is not None] *)
Definition is_set {A : Type} (x : option A) : bool :=
  match x with
  | Some _ => true
  | None => false
  end.

(** [DailyCheckIn()] *)
Definition default_checkin : DailyCheckIn :=
  mkDailyCheckIn None None None None None None None None None None [].

(** [DailyCheckIn.is_complete] *)
Definition is_complete (c : DailyCheckIn) : bool :=
  is_set (sleep_hours c) &&
  is_set (water_glasses c) &&
  is_set (mood_score c) &&
  is_set (energy_score c) &&
  is_set (stress_score c) &&
  is_set (exercise_minutes c).

Definition when_none {A : Type} (field : option A) (label : string) : list string :=
  match field with
  | None => [label]
  | Some _ => []
  end.

(** [DailyCheckIn.missing_fields] *)
Definition missing_fields (c : DailyCheckIn) : list string :=
  when_none (sleep_hours c) "sleep duration" ++
  when_none (water_glasses c) "water intake" ++
  when_none (mood_score c) "mood (1-5)" ++
  when_none (energy_score c) "energy level (1-5)" ++
  when_none (stress_score c) "stress level (1-5)" ++
  when_none (exercise_minutes c) "daily movement/exercise".

(** One entry of [history]: [{"role": ..., "content": ...}]. *)
Record Message : Type := mkMessage {
  role : string;
  content : string
}.

Record ConversationState : Type := mkConversationState {
  history : list Message;
  profile : UserProfile;
  current_checkin : DailyCheckIn;
  phase : ConversationPhase;
  journey_mode : option JourneyMode
}.

Definition add_user_message (msg : string) (st : ConversationState) : ConversationState :=
  mkConversationState (history st ++ [mkMessage "user" msg]) (profile st)
                      (current_checkin st) (phase st) (journey_mode st).

Definition add_agent_message (msg : string) (st : ConversationState) : ConversationState :=
  mkConversationState (history st ++ [mkMessage "model" msg]) (profile st)
                      (current_checkin st) (phase st) (journey_mode st).

(** Attribute assignments: [session.current_checkin.x = v] and
    [session.profile.x = v]. *)
Section Setters.
Definition with_checkin (f : DailyCheckIn -> DailyCheckIn) (st : ConversationState) :=
  mkConversationState (history st) (profile st) (f (current_checkin st))
                      (phase st) (journey_mode st).

Definition with_profile (f : UserProfile -> UserProfile) (st : ConversationState) :=
  mkConversationState (history st) (f (profile st)) (current_checkin st)
                      (phase st) (journey_mode st).

Definition with_journey_mode (m : JourneyMode) (st : ConversationState) :=
  mkConversationState (history st) (profile st) (current_checkin st)
                      (phase st) (Some m).

Definition set_sleep_hours (v : pyfloat) (c : DailyCheckIn) :=
  mkDailyCheckIn (Some v) (water_glasses c) (exercise_minutes c) (exercise_type c)
    (mood_score c) (stress_score c) (energy_score c) (social_hours c)
    (alcohol_units c) (smoking_today c) (symptoms c).
Definition set_water_glasses (v : Z) (c : DailyCheckIn) :=
  mkDailyCheckIn (sleep_hours c) (Some v) (exercise_minutes c) (exercise_type c)
    (mood_score c) (stress_score c) (energy_score c) (social_hours c)
    (alcohol_units c) (smoking_today c) (symptoms c).
Definition set_exercise_minutes (v : Z) (c : DailyCheckIn) :=
  mkDailyCheckIn (sleep_hours c) (water_glasses c) (Some v) (exercise_type c)
    (mood_score c) (stress_score c) (energy_score c) (social_hours c)
    (alcohol_units c) (smoking_today c) (symptoms c).
Definition set_exercise_type (v : string) (c : DailyCheckIn) :=
  mkDailyCheckIn (sleep_hours c) (water_glasses c) (exercise_minutes c) (Some v)
    (mood_score c) (stress_score c) (energy_score c) (social_hours c)
    (alcohol_units c) (smoking_today c) (symptoms c).
Definition set_mood_score (v : Z) (c : DailyCheckIn) :=
  mkDailyCheckIn (sleep_hours c) (water_glasses c) (exercise_minutes c) (exercise_type c)
    (Some v) (stress_score c) (energy_score c) (social_hours c)
    (alcohol_units c) (smoking_today c) (symptoms c).
Definition set_stress_score (v : Z) (c : DailyCheckIn) :=
  mkDailyCheckIn (sleep_hours c) (water_glasses c) (exercise_minutes c) (exercise_type c)
    (mood_score c) (Some v) (energy_score c) (social_hours c)
    (alcohol_units c) (smoking_today c) (symptoms c).
Definition set_energy_score (v : Z) (c : DailyCheckIn) :=
  mkDailyCheckIn (sleep_hours c) (water_glasses c) (exercise_minutes c) (exercise_type c)
    (mood_score c) (stress_score c) (Some v) (social_hours c)
    (alcohol_units c) (smoking_today c) (symptoms c).
Definition set_social_hours (v : pyfloat) (c : DailyCheckIn) :=
  mkDailyCheckIn (sleep_hours c) (water_glasses c) (exercise_minutes c) (exercise_type c)
    (mood_score c) (stress_score c) (energy_score c) (Some v)
    (alcohol_units c) (smoking_today c) (symptoms c).
Definition set_alcohol_units (v : Z) (c : DailyCheckIn) :=
  mkDailyCheckIn (sleep_hours c) (water_glasses c) (exercise_minutes c) (exercise_type c)
    (mood_score c) (stress_score c) (energy_score c) (social_hours c)
    (Some v) (smoking_today c) (symptoms c).
Definition set_smoking_today (v : bool) (c : DailyCheckIn) :=
  mkDailyCheckIn (sleep_hours c) (water_glasses c) (exercise_minutes c) (exercise_type c)
    (mood_score c) (stress_score c) (energy_score c) (social_hours c)
    (alcohol_units c) (Some v) (symptoms c).

Definition set_age (v : Z) (p : UserProfile) :=
  mkUserProfile (name p) (Some v) (sex p) (height_cm p) (weight_kg p) (primary_goal p)
    (target_weight_kg p) (conditions p) (dietary_preference p) (food_restrictions p)
    (origin p) (religion p).
Definition set_sex (v : string) (p : UserProfile) :=
  mkUserProfile (name p) (age p) (Some v) (height_cm p) (weight_kg p) (primary_goal p)
    (target_weight_kg p) (conditions p) (dietary_preference p) (food_restrictions p)
    (origin p) (religion p).
Definition set_height_cm (v : pyfloat) (p : UserProfile) :=
  mkUserProfile (name p) (age p) (sex p) (Some v) (weight_kg p) (primary_goal p)
    (target_weight_kg p) (conditions p) (dietary_preference p) (food_restrictions p)
    (origin p) (religion p).
Definition set_weight_kg (v : pyfloat) (p : UserProfile) :=
  mkUserProfile (name p) (age p) (sex p) (height_cm p) (Some v) (primary_goal p)
    (target_weight_kg p) (conditions p) (dietary_preference p) (food_restrictions p)
    (origin p) (religion p).
Definition set_dietary_preference (v : string) (p : UserProfile) :=
  mkUserProfile (name p) (age p) (sex p) (height_cm p) (weight_kg p) (primary_goal p)
    (target_weight_kg p) (conditions p) v (food_restrictions p)
    (origin p) (religion p).
Definition set_origin (v : string) (p : UserProfile) :=
  mkUserProfile (name p) (age p) (sex p) (height_cm p) (weight_kg p) (primary_goal p)
    (target_weight_kg p) (conditions p) (dietary_preference p) (food_restrictions p)
    (Some v) (religion p).
Definition set_religion (v : string) (p : UserProfile) :=
  mkUserProfile (name p) (age p) (sex p) (height_cm p) (weight_kg p) (primary_goal p)
    (target_weight_kg p) (conditions p) (dietary_preference p) (food_restrictions p)
    (origin p) (Some v).
End Setters.

(** ** MetricPriorityTable and keyword table *)

(** [ISSUE_METRICS] *)
Definition ISSUE_METRICS : gmap string (list string) :=
  list_to_map [
    ("emotional",
      ["stress_score"; "mood_score"; "sleep_hours"; "social_hours";
       "exercise_minutes"; "exercise_type"; "energy_score"; "water_glasses";
       "alcohol_units"; "smoking_today"]);
    ("mental_fatigue",
      ["sleep_hours"; "stress_score"; "water_glasses"; "mood_score";
       "energy_score"; "exercise_minutes"; "social_hours"; "alcohol_units";
       "smoking_today"]);
    ("physical_fatigue",
      ["sleep_hours"; "energy_score"; "exercise_minutes"; "exercise_type";
       "water_glasses"; "stress_score"; "mood_score"; "social_hours";
       "alcohol_units"; "smoking_today"]);
    ("sleep_issues",
      ["sleep_hours"; "stress_score"; "exercise_minutes"; "exercise_type";
       "alcohol_units"; "mood_score"; "energy_score"; "water_glasses";
       "social_hours"; "smoking_today"]);
    ("general_wellness",
      ["sleep_hours"; "water_glasses"; "mood_score"; "energy_score";
       "stress_score"; "exercise_minutes"; "exercise_type";
       "social_hours"; "alcohol_units"; "smoking_today"]);
    ("build_plan",
      ["age"; "sex"; "height_cm"; "weight_kg";
       "sleep_hours"; "water_glasses"; "mood_score"; "energy_score";
       "stress_score"; "exercise_minutes"; "exercise_type";
       "social_hours"; "alcohol_units"; "smoking_today";
       "dietary_preference"; "origin"; "religion"])
  ].

(** [ISSUE_METRICS[key]] for a key of the table *)
Definition metrics_of (key : string) : list string :=
  default [] (ISSUE_METRICS !! key).

(** [ISSUE_KEYWORDS], in the order [.items()] walks it *)
Definition ISSUE_KEYWORDS : list (string * list string) :=
  [ ("mental_fatigue",
      ["brain fog"; "can't focus"; "mentally tired"; "can't think";
       "concentration"; "distracted"; "foggy"; "mental"]);
    ("emotional",
      ["sad"; "anxious"; "depressed"; "down"; "worried"; "stressed out";
       "overwhelmed"; "upset"; "lonely"]);
    ("physical_fatigue",
      ["lethargic"; "sluggish"; "no energy"; "exhausted"; "physically tired";
       "weak"; "drained"; "fatigued"]);
    ("sleep_issues",
      ["can't sleep"; "insomnia"; "restless"; "waking up"; "sleep problems";
       "tired but can't sleep"]) ].

(** ** The agent *)

Record IntakeAgent : Type := mkIntakeAgent {
  model : bool;                       (* whether [get_gemini_model()] gave a model *)
  issue_type : option string;
  relevant_metrics : option (list string)
}.

(** [IntakeAgent()] *)
Definition new_agent (has_model : bool) : IntakeAgent :=
  mkIntakeAgent has_model None None.

Definition set_issue (ty : string) (metrics : list string) (a : IntakeAgent) : IntakeAgent :=
  mkIntakeAgent (model a) (Some ty) (Some metrics).

(** *** IssueClassifier: [_classify_issue] *)

Definition user_turns (h : list Message) : list Message :=
  List.filter (fun m => role m =? "user") h.

(** [" ".join([m["content"].lower() for m in history if m["role"] == "user"])] *)
Definition user_text (h : list Message) : string :=
  PyStr.join " " (map (fun m => PyStr.lower (content m)) (user_turns h)).

(** [sum(1 for kw in keywords if kw in text)] *)
Definition matches (keywords : list string) (text : string) : nat :=
  List.length (List.filter (fun kw => PyStr.contains kw text) keywords).

(** The dict [issue_scores], as the list of its items in insertion order. *)
Definition issue_scores (text : string) : list (string * nat) :=
  List.filter (fun item => 0 <? snd item)%nat
    (map (fun entry => (fst entry, matches (snd entry) text)) ISSUE_KEYWORDS).

Definition good_keywords : list string :=
  ["good"; "great"; "fine"; "okay"; "well"; "amazing"; "fantastic"].

Definition classify_issue (a : IntakeAgent) (st : ConversationState) : IntakeAgent :=
  let text := user_text (history st) in
  let scores := issue_scores text in
  if (2 <=? List.length scores)%nat then
    set_issue "general_wellness" (metrics_of "general_wellness") a
  else if (List.length scores =? 1)%nat then
    match scores with
    | (ty, _) :: _ => set_issue ty (metrics_of ty) a     (* [list(issue_scores.keys())[0]] *)
    | [] => a
    end
  else if existsb (fun kw => PyStr.contains kw text) good_keywords then
    set_issue "general_wellness" (metrics_of "general_wellness") a
  else
    set_issue "general_wellness" (metrics_of "general_wellness") a.

(** *** CompletionPolicy: [_is_collected], [_has_enough_data] *)

Definition is_collected (st : ConversationState) (metric : string) : bool :=
  let c := current_checkin st in
  let p := profile st in
  if metric =? "age" then is_set (age p)
  else if metric =? "sex" then is_set (sex p)
  else if metric =? "height_cm" then is_set (height_cm p)
  else if metric =? "weight_kg" then is_set (weight_kg p)
  else if metric =? "origin" then is_set (origin p)
  else if metric =? "religion" then is_set (religion p)
  else if metric =? "dietary_preference" then negb (dietary_preference p =? "omnivore")
  else if metric =? "sleep_hours" then is_set (sleep_hours c)
  else if metric =? "water_glasses" then is_set (water_glasses c)
  else if metric =? "mood_score" then is_set (mood_score c)
  else if metric =? "energy_score" then is_set (energy_score c)
  else if metric =? "stress_score" then is_set (stress_score c)
  else if metric =? "exercise_minutes" then is_set (exercise_minutes c)
  else if metric =? "exercise_type" then is_set (exercise_type c)
  else if metric =? "social_hours" then is_set (social_hours c)
  else if metric =? "alcohol_units" then is_set (alcohol_units c)
  else if metric =? "smoking_today" then is_set (smoking_today c)
  else false.

(** One pass of the loop body of [_has_enough_data]: whether the
    [if]/[elif] chain adds one to [collected] for this metric. *)
Definition counts_metric (st : ConversationState) (metric : string) : bool :=
  let c := current_checkin st in
  let p := profile st in
  if (metric =? "age") && is_set (age p) then true
  else if (metric =? "sex") && is_set (sex p) then true
  else if (metric =? "height_cm") && is_set (height_cm p) then true
  else if (metric =? "weight_kg") && is_set (weight_kg p) then true
  else if (metric =? "origin") && is_set (origin p) then true
  else if (metric =? "religion") && is_set (religion p) then true
  else if (metric =? "sleep_hours") && is_set (sleep_hours c) then true
  else if (metric =? "water_glasses") && is_set (water_glasses c) then true
  else if (metric =? "mood_score") && is_set (mood_score c) then true
  else if (metric =? "energy_score") && is_set (energy_score c) then true
  else if (metric =? "stress_score") && is_set (stress_score c) then true
  else if (metric =? "exercise_minutes") && is_set (exercise_minutes c) then true
  else if (metric =? "exercise_type") && is_set (exercise_type c) then true
  else if (metric =? "social_hours") && is_set (social_hours c) then true
  else if (metric =? "alcohol_units") && is_set (alcohol_units c) then true
  else if (metric =? "smoking_today") && is_set (smoking_today c) then true
  else if (metric =? "dietary_preference") && negb (dietary_preference p =? "omnivore") then true
  else false.

(** The value of [collected] after the loop. *)
Definition collected (st : ConversationState) (metrics : list string) : Z :=
  fold_left (fun acc metric => if counts_metric st metric then (acc + 1)%Z else acc)
            metrics 0%Z.

(** [int(x)] for a float: truncation towards zero. *)
Definition py_int (x : Q) : Z := Z.quot (Qnum x) (Z.pos (Qden x)).

(** [max(8, int(len(self.relevant_metrics) * 0.75))] *)
Definition threshold (metrics : list string) : Z :=
  Z.max 8 (py_int (inject_Z (Z.of_nat (List.length metrics)) * (75 # 100))).

Definition has_enough_data (a : IntakeAgent) (st : ConversationState) : bool :=
  match relevant_metrics a with
  | None | Some [] => is_complete (current_checkin st)
  | Some metrics => (threshold metrics <=? collected st metrics)%Z
  end.

(** *** UpdateApplier: [_apply_updates]

    Every block of [_apply_updates] is one [step]: it may assign one
    attribute of the session and it may raise.  The session is mutated in
    place, so a raise keeps the assignments made before it. *)

Definition step : Type := ConversationState -> ConversationState * res unit.

Fixpoint run_steps (steps : list step) (st : ConversationState) : ConversationState * res unit :=
  match steps with
  | [] => (st, Ret tt)
  | f :: rest =>
      match f st with
      | (st', Ret _) => run_steps rest st'
      | (st', Raise e) => (st', Raise e)
      end
  end.

(** [lo <= val <= hi] on ints *)
Definition in_range (lo hi val : Z) : bool := ((lo <=? val) && (val <=? hi))%Z.

Section UpdateSteps.
Variable updates : gmap string pyval.

(** A field parsed by [_parse_int] and kept when [lo <= val <= hi]. *)
Definition int_field (key : string) (lo hi : Z)
    (assign : Z -> ConversationState -> ConversationState) : step :=
  fun st =>
    match dict_get updates key with
    | None => (st, Ret tt)
    | Some raw =>
        match parse_int raw with
        | Raise e => (st, Raise e)
        | Ret (Some val) =>
            if in_range lo hi val then (assign val st, Ret tt) else (st, Ret tt)
        | Ret None => (st, Ret tt)
        end
    end.

(** A field parsed by [_parse_float] and kept when [lo <= val <= hi]. *)
Definition float_field (key : string) (lo hi : Z)
    (assign : pyfloat -> ConversationState -> ConversationState) : step :=
  fun st =>
    match dict_get updates key with
    | None => (st, Ret tt)
    | Some raw =>
        match parse_float raw with
        | Raise e => (st, Raise e)
        | Ret (Some val) =>
            if fin_range lo hi val then (assign val st, Ret tt) else (st, Ret tt)
        | Ret None => (st, Ret tt)
        end
    end.

(** [val = str(raw).lower().strip()], kept when it is in [vocabulary]. *)
Definition enum_field (key : string) (vocabulary : list string)
    (assign : string -> ConversationState -> ConversationState) : step :=
  fun st =>
    match dict_get updates key with
    | None => (st, Ret tt)
    | Some raw =>
        let val := PyStr.strip (PyStr.lower (py_str raw)) in
        if PyStr.mem val vocabulary then (assign val st, Ret tt) else (st, Ret tt)
    end.

Definition smoking_field : step :=
  fun st =>
    match dict_get updates "smoking_today" with
    | None => (st, Ret tt)
    | Some (PBool b) => (with_checkin (set_smoking_today b) st, Ret tt)
    | Some raw =>
        let val := PyStr.lower (py_str raw) in
        if PyStr.mem val ["yes"; "true"; "1"]
        then (with_checkin (set_smoking_today true) st, Ret tt)
        else if PyStr.mem val ["no"; "false"; "0"]
        then (with_checkin (set_smoking_today false) st, Ret tt)
        else (st, Ret tt)
    end.

Definition sex_field : step :=
  fun st =>
    match dict_get updates "sex" with
    | None => (st, Ret tt)
    | Some raw =>
        let val := PyStr.strip (PyStr.lower (py_str raw)) in
        if PyStr.mem val ["male"; "m"; "man"]
        then (with_profile (set_sex "male") st, Ret tt)
        else if PyStr.mem val ["female"; "f"; "woman"]
        then (with_profile (set_sex "female") st, Ret tt)
        else (st, Ret tt)
    end.

(** [str(raw).strip()], kept as it is. *)
Definition text_field (key : string)
    (assign : string -> ConversationState -> ConversationState) : step :=
  fun st =>
    match dict_get updates key with
    | None => (st, Ret tt)
    | Some raw => (assign (PyStr.strip (py_str raw)) st, Ret tt)
    end.

(** The blocks of [_apply_updates], in source order. *)
Definition update_steps : list step :=
  [ float_field "sleep_hours" 1 12 (fun v => with_checkin (set_sleep_hours v));
    int_field "water_glasses" 0 20 (fun v => with_checkin (set_water_glasses v));
    int_field "mood_score" 1 5 (fun v => with_checkin (set_mood_score v));
    int_field "energy_score" 1 5 (fun v => with_checkin (set_energy_score v));
    int_field "stress_score" 1 10 (fun v => with_checkin (set_stress_score v));
    int_field "exercise_minutes" 0 300 (fun v => with_checkin (set_exercise_minutes v));
    enum_field "exercise_type" ["cardio"; "strength"; "both"; "none"]
               (fun v => with_checkin (set_exercise_type v));
    float_field "social_hours" 0 24 (fun v => with_checkin (set_social_hours v));
    int_field "alcohol_units" 0 20 (fun v => with_checkin (set_alcohol_units v));
    smoking_field;
    int_field "age" 10 120 (fun v => with_profile (set_age v));
    sex_field;
    float_field "height_cm" 100 250 (fun v => with_profile (set_height_cm v));
    float_field "weight_kg" 30 300 (fun v => with_profile (set_weight_kg v));
    text_field "origin" (fun v => with_profile (set_origin v));
    text_field "religion" (fun v => with_profile (set_religion v));
    enum_field "dietary_preference" ["vegetarian"; "vegan"; "pescatarian"; "omnivore"]
               (fun v => with_profile (set_dietary_preference v)) ].

Definition apply_updates (st : ConversationState) : ConversationState * res unit :=
  run_steps update_steps st.
End UpdateSteps.

(** *** Turn results and the FallbackResponder: [_fallback] *)

(** The values found in the dict a turn returns. *)
Inductive rval : Type :=
| RNone
| RStr (s : string)
| RDict (d : gmap string pyval).

(** [{"status": .., "reply": .., "extracted_updates": ..}] *)
Definition result3 (status reply extracted : rval) : gmap string rval :=
  <["status" := status]> (<["reply" := reply]> (<["extracted_updates" := extracted]> ∅)).

(** The same dict with the fourth key ["issue_type"]. *)
Definition result4 (status reply extracted ty : rval) : gmap string rval :=
  <["issue_type" := ty]> (result3 status reply extracted).

Definition opt_str (o : option string) : rval :=
  match o with
  | Some s => RStr s
  | None => RNone
  end.

(** [random.choice(l)]; [rnd] is the draw. *)
Definition choice (rnd : nat) (l : list string) : string :=
  nth (rnd mod List.length l) l "".

Definition opening_replies : list string :=
  [ "I hear you. To help you best, how many hours of sleep did you get last night?";
    "That sounds tough. Let's check your basics. How is your energy level right now (1-5)?";
    "Got it. Quick check: How much water have you had today?" ].

Definition questions : gmap string string :=
  list_to_map
    [ ("sleep_hours", "How'd you sleep last night?");
      ("water_glasses", "Have you been drinking enough water today?");
      ("mood_score", "How are you feeling overall?");
      ("energy_score", "Energy levels holding up?");
      ("stress_score", "Stress been manageable lately?");
      ("exercise_minutes", "Get any movement in today?") ].

Definition fallback (rnd : nat) (st : ConversationState) : gmap string rval :=
  let turn := List.length (user_turns (history st)) in
  if (turn <=? 2)%nat then
    result3 (RStr "CONTINUE") (RStr (choice rnd opening_replies)) (RDict ∅)
  else
    let missing := missing_fields (current_checkin st) in
    match missing with
    | [] => result3 (RStr "COMPLETE") RNone (RDict ∅)
    | _ =>
        let field := choice rnd missing in
        result3 (RStr "CONTINUE")
                (RStr (default "How are things going?" (questions !! field)))
                (RDict ∅)
    end.

(** *** DialogueOrchestrator: [run_conversation] *)

(** The record decoded from the extraction service's answer; a key that
    is absent is [None].  A null [issue_type] reads like an absent one; a
    null under another key is not a value of this record. *)
Record Extraction : Type := mkExtraction {
  x_issue_type : option string;
  x_extracted : option (gmap string pyval);
  x_status : option string;
  x_reply : option string
}.

(** What the [try] block gets from the service: an exception (from the
    call, from reading its text or from [json.loads]) or a record. *)
Inductive service_outcome : Type :=
| ServiceRaises
| ServiceReturns (result : Extraction).

(** The journey-mode selection at the head of [run_conversation]. *)
Definition select_journey (st : ConversationState) : ConversationState :=
  match journey_mode st, last (history st) with
  | None, Some m =>
      let last_msg := PyStr.upper (PyStr.strip (content m)) in
      if PyStr.mem last_msg ["A"; "QUICK CHECK"; "QUICK"] then
        with_journey_mode QUICK_CHECK st
      else if PyStr.mem last_msg ["B"; "DEEP DIVE"; "DEEP"; "EDUCATE"; "EDUCATION"] then
        with_journey_mode DEEP_DIVE st
      else if PyStr.mem last_msg ["C"; "BUILD PLAN"; "PLAN"; "BUILD"] then
        with_journey_mode BUILD_PLAN st
      else st
  | _, _ => st
  end.

(** The classification block of [run_conversation]. *)
Definition classify_if_needed (a : IntakeAgent) (st : ConversationState) : IntakeAgent :=
  if negb (is_set (issue_type a)) && (2 <=? List.length (history st))%nat then
    match journey_mode st with
    | Some BUILD_PLAN => set_issue "build_plan" (metrics_of "build_plan") a
    | _ => classify_issue a st
    end
  else a.

(** [if result.get("issue_type") and self.issue_type is None: ...] *)
Definition accept_service_issue (result : Extraction) (a : IntakeAgent) : IntakeAgent :=
  match x_issue_type result with
  | Some ty =>
      if negb (ty =? "") && negb (is_set (issue_type a))
      then set_issue ty (default (metrics_of "general_wellness") (ISSUE_METRICS !! ty)) a
      else a
  | None => a
  end.

(** One turn.  [service] is the outcome of the extraction call for the
    prompt of this turn and [rnd] the draw used by the fallback. *)
Definition run_conversation (service : service_outcome) (rnd : nat)
    (a : IntakeAgent) (st : ConversationState)
    : IntakeAgent * ConversationState * gmap string rval :=
  if negb (model a) then (a, st, fallback rnd st)
  else
    let st := select_journey st in
    let a := classify_if_needed a st in
    match service with
    | ServiceRaises => (a, st, fallback rnd st)
    | ServiceReturns result =>
        let a := accept_service_issue result a in
        let updates := default ∅ (x_extracted result) in
        match apply_updates updates st with
        | (st', Raise _) => (a, st', fallback rnd st')
        | (st', Ret _) =>
            let status := PyStr.upper (default "CONTINUE" (x_status result)) in
            if has_enough_data a st' || (status =? "COMPLETE") then
              (a, st', result4 (RStr "COMPLETE") RNone (RDict updates)
                               (opt_str (issue_type a)))
            else
              (a, st', result4 (RStr "CONTINUE")
                               (RStr (default "Tell me more." (x_reply result)))
                               (RDict updates) (opt_str (issue_type a)))
        end
    end.

(** ** The session loop ([adk_main.py]) *)

(** The intake branch of [NiravaSystem.process] ([adk_main.py]): the user
    message is appended, the agent runs one turn, and a CONTINUE reply is
    appended as the agent's message. *)
Definition process_intake (turn : string * service_outcome * nat)
    (sys : IntakeAgent * ConversationState) : IntakeAgent * ConversationState :=
  let '(msg, service, rnd) := turn in
  let '(a, st) := sys in
  let '(a', st', reply) := run_conversation service rnd a (add_user_message msg st) in
  match reply !! "status", reply !! "reply" with
  | Some (RStr "CONTINUE"), Some (RStr text) => (a', add_agent_message text st')
  | _, _ => (a', st')
  end.

(** A run of turns of one session. *)
Definition run_turns (turns : list (string * service_outcome * nat))
    (sys : IntakeAgent * ConversationState) : IntakeAgent * ConversationState :=
  fold_left (fun sys turn => process_intake turn sys) turns sys.

(** ** Notions taken from the design document

    These follow the document's wording and are compared with the code's
    definitions above. *)

(** [max(8, ceil(0.75 * len(L)))] *)
Definition threshold_spec (metrics : list string) : Z :=
  Z.max 8 (Qceiling ((75 # 100) * inject_Z (Z.of_nat (List.length metrics)))).

(** Nearest integer, ties away from zero. *)
Definition round_half_away (x : Q) : Z :=
  if Qle_bool 0 x then Qfloor (x + (1 # 2)) else Qceiling (x - (1 # 2)).

(** ** Predicates of the statements *)

(** The number of identifiers of a priority list whose field is collected. *)
Definition collected_count (st : ConversationState) (metrics : list string) : Z :=
  Z.of_nat (List.length (List.filter (is_collected st) metrics)).

(** The categories of the keyword table with at least one keyword in the text. *)
Definition hit_categories (text : string) : list string :=
  map fst (List.filter (fun entry => existsb (fun kw => PyStr.contains kw text) (snd entry))
                       ISSUE_KEYWORDS).

(** What the update applier may do to an int field with range [lo..hi]
    read from [key]: leave it, or write the in-range result of parsing the
    payload's value. *)
Definition int_write_ok (updates : gmap string pyval) (key : string) (lo hi : Z)
    (old new : option Z) : Prop :=
  new = old \/
  exists raw val,
    dict_get updates key = Some raw /\ parse_int raw = Ret (Some val) /\
    (lo <= val <= hi)%Z /\ new = Some val.

(** The same for a float field. *)
Definition float_write_ok (updates : gmap string pyval) (key : string) (lo hi : Z)
    (old new : option pyfloat) : Prop :=
  new = old \/
  exists raw q,
    dict_get updates key = Some raw /\ parse_float raw = Ret (Some (Fin q)) /\
    (inject_Z lo <= q)%Q /\ (q <= inject_Z hi)%Q /\ new = Some (Fin q).

(** The declared ranges of the numeric fields, as a relation between the
    session before and after an update. *)
Definition writes_in_range (updates : gmap string pyval) (st st' : ConversationState) : Prop :=
  let c := current_checkin st in
  let c' := current_checkin st' in
  let p := profile st in
  let p' := profile st' in
  float_write_ok updates "sleep_hours" 1 12 (sleep_hours c) (sleep_hours c') /\
  int_write_ok updates "stress_score" 1 10 (stress_score c) (stress_score c') /\
  int_write_ok updates "mood_score" 1 5 (mood_score c) (mood_score c') /\
  int_write_ok updates "energy_score" 1 5 (energy_score c) (energy_score c') /\
  int_write_ok updates "water_glasses" 0 20 (water_glasses c) (water_glasses c') /\
  int_write_ok updates "exercise_minutes" 0 300 (exercise_minutes c) (exercise_minutes c') /\
  int_write_ok updates "alcohol_units" 0 20 (alcohol_units c) (alcohol_units c') /\
  int_write_ok updates "age" 10 120 (age p) (age p') /\
  float_write_ok updates "height_cm" 100 250 (height_cm p) (height_cm p') /\
  float_write_ok updates "weight_kg" 30 300 (weight_kg p) (weight_kg p') /\
  float_write_ok updates "social_hours" 0 24 (social_hours c) (social_hours c').

(** No collected fact other than the dietary preference is lost. *)
Definition keeps_collected (st st' : ConversationState) : Prop :=
  forall metric,
    metric <> "dietary_preference" ->
    is_collected st metric = true -> is_collected st' metric = true.


(** The characters of a bare number: digits and the decimal point. *)
Definition numeral_char (c : ascii) : bool :=
  PyStr.is_digit c || Ascii.eqb c ".".

(** An outcome that, if it is an exception, is a [ValueError]. *)
Definition only_value_error {A : Type} (m : res A) : Prop :=
  forall e, m = Raise e -> e = ValueError.

(** ** Sessions and payloads of the scenarios *)

(** A session as [ConversationState()] builds it. *)
Definition fresh_session : ConversationState :=
  mkConversationState [] default_profile default_checkin INTAKE None.

(** The scenario of two user turns, with the agent's reply between them. *)
Definition stressed_session (agent_reply : string) : ConversationState :=
  add_user_message "can't focus at work"
    (add_agent_message agent_reply
       (add_user_message "I'm stressed" fresh_session)).

(** The two turns of the scenario, each answered by the service without an
    issue type and without extracted values. *)
Definition stressed_turns : list (string * service_outcome * nat) :=
  let answer := ServiceReturns (mkExtraction None None None (Some "Tell me more.")) in
  [ ("I'm stressed", answer, 0%nat); ("can't focus at work", answer, 0%nat) ].

(** A full-plan session with twelve of the seventeen facts collected: the
    four body facts of the profile and eight facts of the day. *)
Definition twelve_facts_session : ConversationState :=
  mkConversationState []
    (mkUserProfile "Friend" (Some 30%Z) (Some "female") (Some (Fin 165)) (Some (Fin 60))
                   "General Health" None [] "omnivore" [] None None)
    (mkDailyCheckIn (Some (Fin 7)) (Some 6%Z) (Some 30%Z) (Some "cardio")
                    (Some 3%Z) (Some 5%Z) (Some 3%Z) (Some (Fin 2)) None None [])
    INTAKE (Some BUILD_PLAN).

(** The agent of a session in the full-plan journey. *)
Definition full_plan_agent : IntakeAgent :=
  mkIntakeAgent true (Some "build_plan") (Some (metrics_of "build_plan")).

(** A session with three user turns and nothing collected. *)
Definition third_turn_session : ConversationState :=
  add_user_message "not sure"
    (add_agent_message "Tell me more."
       (add_user_message "can't focus at work"
          (add_agent_message "Tell me more."
             (add_user_message "I'm stressed" fresh_session)))).

(** A profile whose dietary preference was collected as "vegan". *)
Definition vegan_session : ConversationState :=
  with_profile (set_dietary_preference "vegan") fresh_session.

(** A payload with valid sleep and mood values and a water value of 401
    digits. *)
Definition overflowing_updates : gmap string pyval :=
  <["sleep_hours" := PStr "7"]>
    (<["water_glasses" := PInt (10 ^ 400)]> (<["mood_score" := PInt 3]> ∅)).

(** A float that is not negative. *)
Definition nonneg_float (f : pyfloat) : Prop :=
  match f with
  | Fin q => (0 <= q)%Q
  | Inf => True
  end.

(** [int(round(_))] of what [_parse_float] returned. *)
Definition rounded (r : option pyfloat) : res (option Z) :=
  match r with
  | Some f => let* n := py_round f in Ret (Some n)
  | None => Ret None
  end.

(** The characters of the text of an int: digits and the sign. *)
Definition int_char (c : ascii) : bool :=
  PyStr.is_digit c || Ascii.eqb c "-".

(** ** The update applier, field by field

    What one block of [_apply_updates] leaves in its field, given what the
    field held: the payload's value when it is accepted, the old value
    otherwise. *)

Definition new_int (updates : gmap string pyval) (key : string) (lo hi : Z)
    (old : option Z) : option Z :=
  match dict_get updates key with
  | None => old
  | Some raw =>
      match parse_int raw with
      | Ret (Some val) => if in_range lo hi val then Some val else old
      | _ => old
      end
  end.

Definition new_float (updates : gmap string pyval) (key : string) (lo hi : Z)
    (old : option pyfloat) : option pyfloat :=
  match dict_get updates key with
  | None => old
  | Some raw =>
      match parse_float raw with
      | Ret (Some val) => if fin_range lo hi val then Some val else old
      | _ => old
      end
  end.

Definition new_enum (updates : gmap string pyval) (key : string) (vocabulary : list string)
    (old : option string) : option string :=
  match dict_get updates key with
  | None => old
  | Some raw =>
      let val := PyStr.strip (PyStr.lower (py_str raw)) in
      if PyStr.mem val vocabulary then Some val else old
  end.

Definition new_diet (updates : gmap string pyval) (old : string) : string :=
  match dict_get updates "dietary_preference" with
  | None => old
  | Some raw =>
      let val := PyStr.strip (PyStr.lower (py_str raw)) in
      if PyStr.mem val ["vegetarian"; "vegan"; "pescatarian"; "omnivore"] then val else old
  end.

Definition new_smoking (updates : gmap string pyval) (old : option bool) : option bool :=
  match dict_get updates "smoking_today" with
  | None => old
  | Some (PBool b) => Some b
  | Some raw =>
      let val := PyStr.lower (py_str raw) in
      if PyStr.mem val ["yes"; "true"; "1"] then Some true
      else if PyStr.mem val ["no"; "false"; "0"] then Some false
      else old
  end.

Definition new_sex (updates : gmap string pyval) (old : option string) : option string :=
  match dict_get updates "sex" with
  | None => old
  | Some raw =>
      let val := PyStr.strip (PyStr.lower (py_str raw)) in
      if PyStr.mem val ["male"; "m"; "man"] then Some "male"
      else if PyStr.mem val ["female"; "f"; "woman"] then Some "female"
      else old
  end.

Definition new_text (updates : gmap string pyval) (key : string)
    (old : option string) : option string :=
  match dict_get updates key with
  | None => old
  | Some raw => Some (PyStr.strip (py_str raw))
  end.

(** The session in which every field holds what its block leaves. *)
Definition updated (updates : gmap string pyval) (st : ConversationState)
    : ConversationState :=
  let p := profile st in
  let c := current_checkin st in
  mkConversationState (history st)
    (mkUserProfile (name p)
       (new_int updates "age" 10 120 (age p))
       (new_sex updates (sex p))
       (new_float updates "height_cm" 100 250 (height_cm p))
       (new_float updates "weight_kg" 30 300 (weight_kg p))
       (primary_goal p) (target_weight_kg p) (conditions p)
       (new_diet updates (dietary_preference p))
       (food_restrictions p)
       (new_text updates "origin" (origin p))
       (new_text updates "religion" (religion p)))
    (mkDailyCheckIn
       (new_float updates "sleep_hours" 1 12 (sleep_hours c))
       (new_int updates "water_glasses" 0 20 (water_glasses c))
       (new_int updates "exercise_minutes" 0 300 (exercise_minutes c))
       (new_enum updates "exercise_type" ["cardio"; "strength"; "both"; "none"]
                 (exercise_type c))
       (new_int updates "mood_score" 1 5 (mood_score c))
       (new_int updates "stress_score" 1 10 (stress_score c))
       (new_int updates "energy_score" 1 5 (energy_score c))
       (new_float updates "social_hours" 0 24 (social_hours c))
       (new_int updates "alcohol_units" 0 20 (alcohol_units c))
       (new_smoking updates (smoking_today c))
       (symptoms c))
    (phase st) (journey_mode st).

(** The keys [_apply_updates] reads. *)
Definition known_keys : list string :=
  [ "sleep_hours"; "water_glasses"; "mood_score"; "energy_score"; "stress_score";
    "exercise_minutes"; "exercise_type"; "social_hours"; "alcohol_units";
    "smoking_today"; "age"; "sex"; "height_cm"; "weight_kg"; "origin"; "religion";
    "dietary_preference" ].

(** The enumerated fields hold what they held or a word of their
    vocabulary. *)
Definition vocabulary_kept (st st' : ConversationState) : Prop :=
  (sex (profile st') = sex (profile st) \/
   sex (profile st') = Some "male" \/ sex (profile st') = Some "female") /\
  (exercise_type (current_checkin st') = exercise_type (current_checkin st) \/
   exists word, In word ["cardio"; "strength"; "both"; "none"] /\
                exercise_type (current_checkin st') = Some word) /\
  (dietary_preference (profile st') = dietary_preference (profile st) \/
   In (dietary_preference (profile st'))
      ["vegetarian"; "vegan"; "pescatarian"; "omnivore"]).

(** ** The missing metrics of the prompt: [_get_missing_relevant] *)

(** The scan of [s.replace(old, new)] for a non-empty [old]: [skip] counts
    the characters of an occurrence that are still to be passed over. *)
Fixpoint replace_go (old new : string) (skip : nat) (s : string) : string :=
  match s with
  | EmptyString => EmptyString
  | String c rest =>
      match skip with
      | S k => replace_go old new k rest
      | O =>
          if PyStr.startswith old s
          then new ++ replace_go old new (String.length old - 1) rest
          else String c (replace_go old new 0 rest)
      end
  end.

(** [s.replace(old, new)], for a non-empty [old] *)
Definition str_replace (old new s : string) : string := replace_go old new 0 s.

(** [metric.replace("_", " ").replace(" score", "").replace(" hours", "")
    .replace(" glasses", "").replace(" minutes", "")] *)
Definition friendly_name (metric : string) : string :=
  str_replace " minutes" ""
    (str_replace " glasses" ""
       (str_replace " hours" ""
          (str_replace " score" ""
             (str_replace "_" " " metric)))).

Definition get_missing_relevant (a : IntakeAgent) (st : ConversationState) : list string :=
  match relevant_metrics a with
  | None | Some [] => missing_fields (current_checkin st)
  | Some metrics =>
      fold_left (fun (missing : list string) metric =>
                   if negb (is_collected st metric)
                   then (missing ++ [friendly_name metric])%list
                   else missing)
                metrics []
  end.

(** ** Stored sessions ([services/session_service.py], [adk_main.py]) *)

(** The values [_persist_session] and [create_session] put in the dicts
    of a stored session. *)
Inductive stored_value : Type :=
| SNone
| SBool (b : bool)
| SInt (z : Z)
| SFloat (x : pyfloat)
| SStr (s : string).

(** [session_service.Session]: the fields the code reads back.  The two
    dicts are lists of items in insertion order. *)
Record Session : Type := mkSession {
  session_id : string;
  stored_phase : string;
  stored_issue_type : option string;
  stored_profile : list (string * stored_value);
  stored_checkin : list (string * stored_value);
  stored_history : list Message;
  checkpoints : list string
}.

(** [Session(session_id=.., user_id=.., profile={"name": "Friend", "age": 30})] *)
Definition new_session (sid : string) : Session :=
  mkSession sid "INTAKE" None [("name", SStr "Friend"); ("age", SInt 30)] [] [] [].

(** [NiravaSystem]: the attributes [_persist_session] and
    [_restore_from_stored] read and assign. *)
Record NiravaSystem : Type := mkNiravaSystem {
  sys_phase : string;
  sys_issue_type : option string;
  sys_session : ConversationState
}.

Definition of_float (x : option pyfloat) : stored_value :=
  match x with
  | Some v => SFloat v
  | None => SNone
  end.

Definition of_int (x : option Z) : stored_value :=
  match x with
  | Some v => SInt v
  | None => SNone
  end.

(** The assignments of [_persist_session] to the stored session. *)
Definition persist_session (sys : NiravaSystem) (stored : Session) : Session :=
  let c := current_checkin (sys_session sys) in
  mkSession (session_id stored) (sys_phase sys) (sys_issue_type sys) (stored_profile stored)
    [ ("sleep_hours", of_float (sleep_hours c));
      ("water_glasses", of_int (water_glasses c));
      ("mood_score", of_int (mood_score c));
      ("energy_score", of_int (energy_score c));
      ("stress_score", of_int (stress_score c));
      ("exercise_minutes", of_int (exercise_minutes c)) ]
    (history (sys_session sys)) (checkpoints stored).

(** [d.get(key)] on a dict given by its items *)
Fixpoint items_get {V : Type} (d : list (string * V)) (key : string) : option V :=
  match d with
  | [] => None
  | (k, v) :: rest => if k =? key then Some v else items_get rest key
  end.

(** [d[key] = v]: the value of a key of the dict is replaced where the key
    stands, and a new key goes to the end. *)
Fixpoint items_set {V : Type} (d : list (string * V)) (key : string) (v : V)
    : list (string * V) :=
  match d with
  | [] => [(key, v)]
  | (k, x) :: rest =>
      if k =? key then (k, v) :: rest else (k, x) :: items_set rest key v
  end.

(** A stored value read as the value of a typed attribute.  The outer
    [None] is a value of another type: the attribute would hold it all the
    same, and the session is then outside the records of this model. *)
Definition as_int (v : stored_value) : option (option Z) :=
  match v with
  | SNone => Some None
  | SInt z => Some (Some z)
  | _ => None
  end.

Definition as_float (v : stored_value) : option (option pyfloat) :=
  match v with
  | SNone => Some None
  | SFloat x => Some (Some x)
  | _ => None
  end.

Definition as_str (v : stored_value) : option (option string) :=
  match v with
  | SNone => Some None
  | SStr s => Some (Some s)
  | _ => None
  end.

Definition as_bool (v : stored_value) : option (option bool) :=
  match v with
  | SNone => Some None
  | SBool b => Some (Some b)
  | _ => None
  end.

(** [stored.profile.get(key)] read at a type *)
Definition profile_get {A : Type} (read : stored_value -> option (option A))
    (d : list (string * stored_value)) (key : string) : option (option A) :=
  match items_get d key with
  | None => Some None
  | Some v => read v
  end.

(** [stored.profile.get("name", "Friend")] *)
Definition profile_name (d : list (string * stored_value)) : option string :=
  match items_get d "name" with
  | None => Some "Friend"
  | Some (SStr s) => Some s
  | Some _ => None
  end.

(** The [UserProfile(...)] call of [_restore_from_stored]; the attributes
    it does not pass get the defaults of the dataclass. *)
Definition restored_profile (d : list (string * stored_value)) : option UserProfile :=
  match profile_name d, profile_get as_int d "age", profile_get as_str d "sex",
        profile_get as_float d "height_cm", profile_get as_float d "weight_kg",
        profile_get as_str d "origin", profile_get as_str d "religion" with
  | Some n, Some a, Some s, Some h, Some w, Some o, Some r =>
      Some (mkUserProfile n a s h w "General Health" None [] "omnivore" [] o r)
  | _, _, _, _, _, _, _ => None
  end.

(** [if hasattr(checkin, key): setattr(checkin, key, value)] for the ten
    scalar attributes.  [hasattr] also holds of [symptoms], of the two
    properties and of the names every object has; such keys are outside
    this model, and so is every other key. *)
Definition setattr_checkin (key : string) (value : stored_value) (c : DailyCheckIn)
    : option DailyCheckIn :=
  if key =? "sleep_hours" then
    option_map (fun x => mkDailyCheckIn x (water_glasses c) (exercise_minutes c)
      (exercise_type c) (mood_score c) (stress_score c) (energy_score c)
      (social_hours c) (alcohol_units c) (smoking_today c) (symptoms c)) (as_float value)
  else if key =? "water_glasses" then
    option_map (fun x => mkDailyCheckIn (sleep_hours c) x (exercise_minutes c)
      (exercise_type c) (mood_score c) (stress_score c) (energy_score c)
      (social_hours c) (alcohol_units c) (smoking_today c) (symptoms c)) (as_int value)
  else if key =? "exercise_minutes" then
    option_map (fun x => mkDailyCheckIn (sleep_hours c) (water_glasses c) x
      (exercise_type c) (mood_score c) (stress_score c) (energy_score c)
      (social_hours c) (alcohol_units c) (smoking_today c) (symptoms c)) (as_int value)
  else if key =? "exercise_type" then
    option_map (fun x => mkDailyCheckIn (sleep_hours c) (water_glasses c)
      (exercise_minutes c) x (mood_score c) (stress_score c) (energy_score c)
      (social_hours c) (alcohol_units c) (smoking_today c) (symptoms c)) (as_str value)
  else if key =? "mood_score" then
    option_map (fun x => mkDailyCheckIn (sleep_hours c) (water_glasses c)
      (exercise_minutes c) (exercise_type c) x (stress_score c) (energy_score c)
      (social_hours c) (alcohol_units c) (smoking_today c) (symptoms c)) (as_int value)
  else if key =? "stress_score" then
    option_map (fun x => mkDailyCheckIn (sleep_hours c) (water_glasses c)
      (exercise_minutes c) (exercise_type c) (mood_score c) x (energy_score c)
      (social_hours c) (alcohol_units c) (smoking_today c) (symptoms c)) (as_int value)
  else if key =? "energy_score" then
    option_map (fun x => mkDailyCheckIn (sleep_hours c) (water_glasses c)
      (exercise_minutes c) (exercise_type c) (mood_score c) (stress_score c) x
      (social_hours c) (alcohol_units c) (smoking_today c) (symptoms c)) (as_int value)
  else if key =? "social_hours" then
    option_map (fun x => mkDailyCheckIn (sleep_hours c) (water_glasses c)
      (exercise_minutes c) (exercise_type c) (mood_score c) (stress_score c)
      (energy_score c) x (alcohol_units c) (smoking_today c) (symptoms c)) (as_float value)
  else if key =? "alcohol_units" then
    option_map (fun x => mkDailyCheckIn (sleep_hours c) (water_glasses c)
      (exercise_minutes c) (exercise_type c) (mood_score c) (stress_score c)
      (energy_score c) (social_hours c) x (smoking_today c) (symptoms c)) (as_int value)
  else if key =? "smoking_today" then
    option_map (fun x => mkDailyCheckIn (sleep_hours c) (water_glasses c)
      (exercise_minutes c) (exercise_type c) (mood_score c) (stress_score c)
      (energy_score c) (social_hours c) (alcohol_units c) x (symptoms c)) (as_bool value)
  else None.

(** [for key, value in stored.checkin.items(): ...] *)
Fixpoint restored_checkin (items : list (string * stored_value)) (c : DailyCheckIn)
    : option DailyCheckIn :=
  match items with
  | [] => Some c
  | (key, value) :: rest =>
      match setattr_checkin key value c with
      | Some c' => restored_checkin rest c'
      | None => None
      end
  end.

(** [_restore_from_stored]: the session is a new [ConversationState] with
    the profile read from the stored dict, the stored history and a
    check-in that starts empty. *)
Definition restore_from_stored (stored : Session) : option NiravaSystem :=
  match restored_profile (stored_profile stored),
        restored_checkin (stored_checkin stored) default_checkin with
  | Some p, Some c =>
      Some (mkNiravaSystem (stored_phase stored) (stored_issue_type stored)
              (mkConversationState (stored_history stored) p c INTAKE None))
  | _, _ => None
  end.

(** *** Checkpoints ([InMemorySessionService])

    The service keeps its sessions and checkpoints in two dicts.  It also
    writes each of them to a file; the files are not part of this model,
    which is the service in a process whose files are those it wrote. *)

Record SessionCheckpoint : Type := mkSessionCheckpoint {
  checkpoint_id : string;
  cp_phase : string;
  cp_issue_type : option string;
  collected_data : list (string * stored_value);
  cp_history : list Message;
  context_summary : string
}.

Record InMemorySessionService : Type := mkService {
  _sessions : list (string * Session);          (* iterated in insertion order *)
  _checkpoints : gmap string SessionCheckpoint
}.

(** [create_session], with the identifier it is given or builds. *)
Definition create_session (sid : string) (svc : InMemorySessionService)
    : InMemorySessionService * Session :=
  (mkService (items_set (_sessions svc) sid (new_session sid)) (_checkpoints svc),
   new_session sid).

Definition get_session (svc : InMemorySessionService) (sid : string) : option Session :=
  items_get (_sessions svc) sid.

Definition update_session (session : Session) (svc : InMemorySessionService)
    : InMemorySessionService :=
  mkService (items_set (_sessions svc) (session_id session) session) (_checkpoints svc).

(** [f"cp_{session_id}_{datetime.now().strftime('%H%M%S')}"]; [now] is the
    time of day as six digits. *)
Definition checkpoint_name (sid now : string) : string :=
  "cp_" ++ sid ++ "_" ++ now.

(** [create_checkpoint] *)
Definition create_checkpoint (sid now summary : string) (svc : InMemorySessionService)
    : InMemorySessionService * option SessionCheckpoint :=
  match get_session svc sid with
  | None => (svc, None)
  | Some session =>
      let cid := checkpoint_name sid now in
      let checkpoint :=
        mkSessionCheckpoint cid (stored_phase session) (stored_issue_type session)
          (stored_checkin session) (stored_history session) summary in
      let svc := mkService (_sessions svc) (<[cid := checkpoint]> (_checkpoints svc)) in
      let session :=
        mkSession (session_id session) (stored_phase session) (stored_issue_type session)
          (stored_profile session) (stored_checkin session) (stored_history session)
          (checkpoints session ++ [cid]) in
      (update_session session svc, Some checkpoint)
  end.

(** The loop [for sid, session in self._sessions.items()] up to its first
    session with [checkpoint_id in session.checkpoints]. *)
Fixpoint find_parent (cid : string) (items : list (string * Session)) : option Session :=
  match items with
  | [] => None
  | (_, session) :: rest =>
      if PyStr.mem cid (checkpoints session) then Some session else find_parent cid rest
  end.

(** What [resume_from_checkpoint] does: it raises [IndexError], or it
    returns a session or [None]. *)
Inductive resume_outcome : Type :=
| ResumeIndexError
| Resumed (svc : InMemorySessionService) (session : option Session).

(** [resume_from_checkpoint].  The line
    [checkpoint_id.split("_")[1] + "_" + checkpoint_id.split("_")[2]]
    computes a name that is not used and raises when the identifier has
    fewer than three parts. *)
Definition resume_from_checkpoint (cid : string) (svc : InMemorySessionService)
    : resume_outcome :=
  match _checkpoints svc !! cid with
  | None => Resumed svc None
  | Some checkpoint =>
      if (List.length (PyStr.split "_" cid) <? 3)%nat then ResumeIndexError
      else
        match find_parent cid (_sessions svc) with
        | Some session =>
            let session :=
              mkSession (session_id session) (cp_phase checkpoint) (cp_issue_type checkpoint)
                (stored_profile session) (collected_data checkpoint) (cp_history checkpoint)
                (checkpoints session) in
            Resumed (update_session session svc) (Some session)
        | None => Resumed svc None
        end
  end.

(** No session of the service lists the checkpoint. *)
Definition unlisted (cid : string) (svc : InMemorySessionService) : Prop :=
  Forall (fun item => PyStr.mem cid (checkpoints (snd item)) = false) (_sessions svc).

(** The six attributes of the day that [_persist_session] stores. *)
Definition persisted_metrics : list string :=
  [ "sleep_hours"; "water_glasses"; "mood_score"; "energy_score"; "stress_score";
    "exercise_minutes" ].

(** ** Context compaction ([services/context_engine.py]) *)

Definition MAX_CONTEXT_TOKENS : Z := 8000.
Definition CHARS_PER_TOKEN : Z := 4.
Definition MAX_CONTEXT_CHARS : Z := MAX_CONTEXT_TOKENS * CHARS_PER_TOKEN.
Definition MAX_RECENT_MESSAGES : nat := 6.

(** [sum(len(m.get("content", "")) for m in history)] *)
Definition total_chars (h : list Message) : Z :=
  fold_left (fun acc m => (acc + Z.of_nat (String.length (content m)))%Z) h 0%Z.

Definition should_compact (h : list Message) : bool :=
  (MAX_CONTEXT_CHARS <? total_chars h)%Z || (12 <? List.length h)%nat.

(** [l[:-n]] for [n >= 0]: [-0] is [0], so [l[:-0]] is empty. *)
Definition slice_before_last {A : Type} (n : nat) (l : list A) : list A :=
  match n with
  | O => []
  | S _ => take (List.length l - n) l
  end.

(** [l[-n:]] for [n >= 0]: [l[-0:]] is the whole list. *)
Definition slice_last {A : Type} (n : nat) (l : list A) : list A :=
  match n with
  | O => l
  | S _ => drop (List.length l - n) l
  end.

(** [_fallback_summary] *)
Definition fallback_summary (messages : list Message) : string :=
  match map content (user_turns messages) with
  | [] => "Previous conversation context."
  | first :: _ =>
      "User initially discussed: '" ++ String.substring 0 100 first ++ "...' (" ++
      PyNum.str_of_int (Z.of_nat (List.length messages)) ++ " messages exchanged)"
  end.

(** [_summarize_messages].  [llm] is the text of the model's answer, when
    the engine has a model and the call returns. *)
Definition summarize_messages (llm : option string) (messages : list Message) : string :=
  match messages with
  | [] => ""
  | _ :: _ =>
      match llm with
      | Some text => PyStr.strip text
      | None => fallback_summary messages
      end
  end.

(** [CompactedContext], without [extracted_facts]. *)
Record CompactedContext : Type := mkCompactedContext {
  summary : string;
  recent_messages : list Message;
  original_length : nat;
  compacted_length : nat
}.

(** [ContextEngine.compact] for an engine that keeps [max_recent] messages. *)
Definition compact (llm : option string) (max_recent : nat) (h : list Message)
    : CompactedContext :=
  if (List.length h <=? max_recent)%nat then
    mkCompactedContext "" h (List.length h) (List.length h)
  else
    let older_messages := slice_before_last max_recent h in
    let recent_messages := slice_last max_recent h in
    mkCompactedContext (summarize_messages llm older_messages) recent_messages
                       (List.length h) (List.length recent_messages).

(** ** The system over its turns ([adk_main.py]) *)











(** ** Domains of the statements *)


(** The keys [_apply_updates] reads through [_parse_int]. *)
Definition int_keys : list string :=
  [ "water_glasses"; "mood_score"; "energy_score"; "stress_score"; "exercise_minutes";
    "alcohol_units"; "age" ].

(** The integers of a payload have fewer than 4300 digits, the most that
    [json.loads] and [str()] handle in every version of Python 3. *)
Definition printable_ints (updates : gmap string pyval) : Prop :=
  forall key z, updates !! key = Some (PInt z) -> (Z.abs z < 10 ^ 4300)%Z.

(** * Properties *)

(** ** Facts about the string operations *)

Section StringFacts.
Import PyStr.

(** Case analysis over the 256 characters. *)
Ltac every_char c :=
  destruct c as [[] [] [] [] [] [] [] []]; vm_compute; try reflexivity; try discriminate; auto.


Lemma lower_char_idem c : lower_char (lower_char c) = lower_char c.
Proof. every_char c. Qed.

Variable P : ascii -> bool.

Lemma all_chars_lstrip s : all_chars P s = true -> all_chars P (lstrip s) = true.
Proof.
  induction s as [|c s IH]; simpl; [reflexivity|].
  intros H. apply andb_true_iff in H as [Hc Hs].
  destruct (is_space c); [apply IH, Hs|]. simpl. rewrite Hc. exact Hs.
Qed.

Lemma all_chars_rstrip s : all_chars P s = true -> all_chars P (rstrip s) = true.
Proof.
  induction s as [|c s IH]; simpl; [reflexivity|].
  intros H. apply andb_true_iff in H as [Hc Hs]. specialize (IH Hs).
  destruct (rstrip s) as [|c' r].
  - destruct (is_space c); simpl; [reflexivity|]. rewrite Hc. reflexivity.
  - change (all_chars P (String c (String c' r)) = true).
    cbn [all_chars]. rewrite Hc. exact IH.
Qed.

Lemma all_chars_strip s : all_chars P s = true -> all_chars P (strip s) = true.
Proof. intros H. apply all_chars_rstrip, all_chars_lstrip, H. Qed.

Lemma all_chars_split_go sep s :
  all_chars P s = true ->
  forall skip, List.Forall (fun part => all_chars P part = true) (split_go sep skip s).
Proof.
  induction s as [|c s IH]; intros H skip; cbn [split_go].
  - repeat constructor.
  - cbn [all_chars] in H. apply andb_true_iff in H as [Hc Hs].
    destruct skip as [|k]; [|apply IH, Hs].
    destruct (startswith sep (String c s)).
    + constructor; [reflexivity|apply IH, Hs].
    + specialize (IH Hs 0%nat).
      destruct (split_go sep 0 s) as [|part parts].
      * repeat constructor. cbn [all_chars]. rewrite Hc. reflexivity.
      * inversion IH as [|? ? Hpart Hparts]; subst.
        constructor; [|exact Hparts]. cbn [all_chars]. rewrite Hc. exact Hpart.
Qed.

Lemma all_chars_split sep s :
  all_chars P s = true ->
  List.Forall (fun part => all_chars P part = true) (split sep s).
Proof. intros H. apply all_chars_split_go, H. Qed.

Lemma all_chars_split_head sep s :
  all_chars P s = true -> all_chars P (split_head sep s) = true.
Proof.
  intros H. unfold split_head.
  pose proof (all_chars_split sep s H) as Hall.
  destruct (split sep s); [reflexivity|].
  inversion Hall; assumption.
Qed.


Lemma append_nil t : "" ++ t = t.
Proof. reflexivity. Qed.

Lemma append_cons c s t : String c s ++ t = String c (s ++ t).
Proof. reflexivity. Qed.

Lemma all_chars_app s t :
  all_chars P (s ++ t) = all_chars P s && all_chars P t.
Proof.
  induction s as [|c s IH]; [reflexivity|].
  rewrite append_cons. cbn [all_chars].
  rewrite IH, andb_assoc. reflexivity.
Qed.

Lemma all_chars_impl (Q : ascii -> bool) s :
  (forall c, P c = true -> Q c = true) ->
  all_chars P s = true -> all_chars Q s = true.
Proof.
  intros HPQ. induction s as [|c s IH]; cbn [all_chars]; [reflexivity|].
  intros H. apply andb_true_iff in H as [Hc Hs].
  rewrite (HPQ c Hc). apply IH, Hs.
Qed.

(** *** Prefixes and occurrences *)

Lemma startswith_app sep s t :
  startswith sep s = true -> startswith sep (s ++ t) = true.
Proof.
  unfold startswith. revert s.
  induction sep as [|a sep IH]; intros s; [intros _; destruct (s ++ t); reflexivity|].
  destruct s as [|c s]; [discriminate|].
  rewrite append_cons. cbn [String.prefix].
  destruct (ascii_dec a c); [apply IH|discriminate].
Qed.

Lemma startswith_contains sep s : startswith sep s = true -> contains sep s = true.
Proof. intros H. destruct s; cbn [contains]; rewrite H; reflexivity. Qed.

Lemma contains_cons sep c s : contains sep s = true -> contains sep (String c s) = true.
Proof. intros H. cbn [contains]. rewrite H. apply orb_true_r. Qed.

Lemma contains_app_l sep s t : contains sep s = true -> contains sep (s ++ t) = true.
Proof.
  induction s as [|c s IH].
  - cbn [contains]. rewrite orb_false_r. intros H. apply startswith_contains.
    apply (startswith_app sep "" t H).
  - intros H. cbn [contains] in H. apply orb_true_iff in H as [H|H].
    + apply startswith_contains, startswith_app, H.
    + rewrite append_cons. apply contains_cons, IH, H.
Qed.

Lemma contains_lstrip sep s : contains sep (lstrip s) = true -> contains sep s = true.
Proof.
  induction s as [|c s IH]; cbn [lstrip]; [auto|].
  destruct (is_space c); [|auto].
  intros H. apply contains_cons, IH, H.
Qed.

Lemma rstrip_prefix s : exists t, s = rstrip s ++ t.
Proof.
  induction s as [|c s [t Ht]]; cbn [rstrip]; [exists ""; reflexivity|].
  destruct (rstrip s) as [|c' r].
  - destruct (is_space c); [exists (String c s); reflexivity|].
    exists t. rewrite append_cons. congruence.
  - exists t. rewrite append_cons. congruence.
Qed.

Lemma contains_strip sep s : contains sep (strip s) = true -> contains sep s = true.
Proof.
  unfold strip. intros H. apply contains_lstrip.
  destruct (rstrip_prefix (lstrip s)) as [t Ht]. rewrite Ht.
  apply contains_app_l, H.
Qed.

(** *** The first piece of a split *)

Lemma split_head_nil sep : split_head sep "" = "".
Proof. reflexivity. Qed.

Lemma split_head_cons sep c s :
  split_head sep (String c s) =
  if startswith sep (String c s) then "" else String c (split_head sep s).
Proof.
  unfold split_head, split. cbn [split_go].
  destruct (startswith sep (String c s)); [reflexivity|].
  destruct (split_go sep 0 s); reflexivity.
Qed.

Lemma split_head_prefix sep s : exists t, s = split_head sep s ++ t.
Proof.
  induction s as [|c s [t Ht]]; [exists ""; reflexivity|].
  rewrite split_head_cons.
  destruct (startswith sep (String c s)); [exists (String c s); reflexivity|].
  exists t. rewrite append_cons. congruence.
Qed.

(** The piece before the first occurrence has no occurrence. *)
Lemma split_head_no_sep a sep s :
  contains (String a sep) (split_head (String a sep) s) = false.
Proof.
  induction s as [|c s IH]; [reflexivity|].
  rewrite split_head_cons.
  destruct (startswith (String a sep) (String c s)) eqn:Hstart; [reflexivity|].
  cbn [contains]. rewrite IH, orb_false_r.
  destruct (startswith (String a sep) (String c (split_head (String a sep) s))) eqn:Hh;
    [|reflexivity].
  destruct (split_head_prefix (String a sep) s) as [t Ht].
  apply (startswith_app _ _ t) in Hh. rewrite append_cons, <- Ht in Hh. congruence.
Qed.

(** A string none of whose characters is the first of [sep] has no [sep]. *)
Lemma contains_first_char a sep s :
  all_chars (fun c => negb (Ascii.eqb c a)) s = true ->
  contains (String a sep) s = false.
Proof.
  induction s as [|c s IH]; [reflexivity|].
  cbn [all_chars contains]. intros H. apply andb_true_iff in H as [Hc Hs].
  rewrite (IH Hs), orb_false_r. unfold startswith. cbn [String.prefix].
  destruct (ascii_dec a c) as [->|]; [|reflexivity].
  rewrite Ascii.eqb_refl in Hc. discriminate.
Qed.

(** *** Strings that [lower] and [strip] leave alone *)

Lemma lower_lowered s : all_chars (fun c => Ascii.eqb (lower_char c) c) (lower s) = true.
Proof.
  unfold lower. induction s as [|c s IH]; cbn [map_chars all_chars]; [reflexivity|].
  rewrite lower_char_idem, Ascii.eqb_refl. exact IH.
Qed.

Lemma lower_id s :
  all_chars (fun c => Ascii.eqb (lower_char c) c) s = true -> lower s = s.
Proof.
  unfold lower. induction s as [|c s IH]; cbn [map_chars all_chars]; [reflexivity|].
  intros H. apply andb_true_iff in H as [Hc Hs].
  apply Ascii.eqb_eq in Hc. rewrite Hc, (IH Hs). reflexivity.
Qed.

Lemma rstrip_id s : all_chars (fun c => negb (is_space c)) s = true -> rstrip s = s.
Proof.
  induction s as [|c s IH]; cbn [rstrip all_chars]; [reflexivity|].
  intros H. apply andb_true_iff in H as [Hc Hs]. rewrite (IH Hs).
  destruct s; [|reflexivity].
  destruct (is_space c); [discriminate|reflexivity].
Qed.

Lemma strip_id s : all_chars (fun c => negb (is_space c)) s = true -> strip s = s.
Proof.
  intros H. unfold strip.
  assert (Hl : lstrip s = s).
  { destruct s as [|c s]; [reflexivity|]. cbn [lstrip all_chars] in *.
    apply andb_true_iff in H as [Hc _].
    destruct (is_space c); [discriminate|reflexivity]. }
  rewrite Hl. apply rstrip_id, H.
Qed.

End StringFacts.


(** ** IssueClassifier *)

Section Classifier.

Lemma matches_positive keywords text :
  (0 <? matches keywords text)%nat = existsb (fun kw => PyStr.contains kw text) keywords.
Proof.
  unfold matches.
  induction keywords as [|kw rest IH]; simpl; [reflexivity|].
  destruct (PyStr.contains kw text); simpl; [reflexivity|exact IH].
Qed.

(** The keys of [issue_scores] are the categories with a hit, in table order. *)
Lemma scores_keys_in (table : list (string * list string)) text :
  map fst (List.filter (fun item => 0 <? snd item)%nat
             (map (fun entry => (fst entry, matches (snd entry) text)) table))
  = map fst (List.filter
               (fun entry => existsb (fun kw => PyStr.contains kw text) (snd entry)) table).
Proof.
  induction table as [|[ty kws] rest IH]; simpl; [reflexivity|].
  rewrite matches_positive.
  destruct (existsb _ kws); simpl; congruence.
Qed.

Lemma issue_scores_keys text : map fst (issue_scores text) = hit_categories text.
Proof. apply scores_keys_in. Qed.

Lemma classify_issue_cases a st :
  classify_issue a st =
  match hit_categories (user_text (history st)) with
  | [ty] => set_issue ty (metrics_of ty) a
  | _ => set_issue "general_wellness" (metrics_of "general_wellness") a
  end.
Proof.
  unfold classify_issue.
  rewrite <- issue_scores_keys.
  destruct (issue_scores (user_text (history st))) as [|[ty n] [|item rest]]; simpl.
  - match goal with |- (if ?b then _ else _) = _ => destruct b end; reflexivity.
  - reflexivity.
  - reflexivity.
Qed.

End Classifier.

(** C5. The classifier returns the single category that has keyword hits
    when there is exactly one; it returns the comprehensive category
    [general_wellness] when two or more categories have hits, and also when
    none has, with or without a positive-sentiment keyword in the text. *)
Theorem C5_classifier_resolution (a : IntakeAgent) (st : ConversationState) :
  let hits := hit_categories (user_text (history st)) in
  let a' := classify_issue a st in
  (forall ty, hits = [ty] ->
     issue_type a' = Some ty /\ relevant_metrics a' = Some (metrics_of ty)) /\
  ((2 <= List.length hits)%nat ->
     issue_type a' = Some "general_wellness" /\
     relevant_metrics a' = Some (metrics_of "general_wellness")) /\
  (hits = [] ->
     issue_type a' = Some "general_wellness" /\
     relevant_metrics a' = Some (metrics_of "general_wellness")).
Proof.
  intros hits a'. subst hits a'.
  rewrite classify_issue_cases.
  repeat split.
  - rewrite H. reflexivity.
  - rewrite H. reflexivity.
  - destruct (hit_categories _) as [|x [|y l]]; simpl in *; try lia; reflexivity.
  - destruct (hit_categories _) as [|x [|y l]]; simpl in *; try lia; reflexivity.
  - rewrite H. reflexivity.
  - rewrite H. reflexivity.
Qed.

(** The three cases of C5 on concrete conversations. *)
Lemma C5_classifier_resolution_witness :
  (issue_type (classify_issue (new_agent true)
      (add_user_message "I feel sluggish" fresh_session)) = Some "physical_fatigue") /\
  (issue_type (classify_issue (new_agent true)
      (add_user_message "sad and can't sleep" fresh_session)) = Some "general_wellness") /\
  (issue_type (classify_issue (new_agent true)
      (add_user_message "hello there" fresh_session)) = Some "general_wellness").
Proof.
  split; [|split].
  - destruct (C5_classifier_resolution (new_agent true)
                (add_user_message "I feel sluggish" fresh_session)) as (H1 & _ & _).
    apply (H1 "physical_fatigue"). vm_compute. reflexivity.
  - destruct (C5_classifier_resolution (new_agent true)
                (add_user_message "sad and can't sleep" fresh_session)) as (_ & H2 & _).
    apply H2. apply Nat.leb_le. vm_compute. reflexivity.
  - destruct (C5_classifier_resolution (new_agent true)
                (add_user_message "hello there" fresh_session)) as (_ & _ & H3).
    apply H3. vm_compute. reflexivity.
Defined.

(** C9, as stated, fails: for the two user turns "I'm stressed" and
    "can't focus at work" the classifier does not yield the comprehensive
    category. *)
Lemma C9_counterexample :
  issue_type (classify_issue (new_agent true) (stressed_session "Tell me more."))
  <> Some "general_wellness".
Proof. vm_compute. discriminate. Qed.

(** C9, amended. For the two user turns "I'm stressed" and "can't focus at
    work" the keyword hits fall in one category only ("can't focus", of
    mental fatigue; the emotional keyword is "stressed out", which the text
    does not contain), and the classifier yields [mental_fatigue]; so does
    the agent of a fresh session after these two turns. *)
Theorem C9_stressed_focus_is_mental_fatigue (agent_reply : string) (a : IntakeAgent) :
  hit_categories (user_text (history (stressed_session agent_reply))) = ["mental_fatigue"] /\
  issue_type (classify_issue a (stressed_session agent_reply)) = Some "mental_fatigue" /\
  issue_type (fst (run_turns stressed_turns (new_agent true, fresh_session)))
  = Some "mental_fatigue".
Proof.
  assert (H : hit_categories (user_text (history (stressed_session agent_reply)))
              = ["mental_fatigue"]) by (vm_compute; reflexivity).
  split; [exact H|]. split.
  - rewrite classify_issue_cases, H. reflexivity.
  - vm_compute. reflexivity.
Qed.

(** ** CompletionPolicy *)

Section Completion.

(** The [if]/[elif] chain of [_has_enough_data] counts a metric exactly
    when [_is_collected] holds of it. *)
Lemma counts_metric_is_collected st metric :
  counts_metric st metric = is_collected st metric.
Proof.
  unfold counts_metric, is_collected.
  repeat match goal with
  | |- context [String.eqb metric ?k] =>
      destruct (String.eqb_spec metric k) as [->|_]; cbn [andb];
      [ match goal with
        | |- context [if ?b then true else _] => destruct b; reflexivity
        end |]
  end.
  reflexivity.
Qed.

Lemma collected_from st metrics acc :
  fold_left (fun acc metric => if counts_metric st metric then (acc + 1)%Z else acc)
            metrics acc
  = (acc + collected_count st metrics)%Z.
Proof.
  unfold collected_count.
  revert acc. induction metrics as [|m rest IH]; intros acc; simpl.
  - lia.
  - rewrite IH, counts_metric_is_collected.
    destruct (is_collected st m); simpl; lia.
Qed.

Lemma collected_is_count st metrics :
  collected st metrics = collected_count st metrics.
Proof. unfold collected. rewrite collected_from. lia. Qed.

(** [int(n * 0.75)] is the quotient of [3 * n] by [4], rounded down. *)
Lemma threshold_floor metrics :
  threshold metrics = Z.max 8 (3 * Z.of_nat (List.length metrics) / 4).
Proof.
  unfold threshold, py_int. f_equal.
  set (n := Z.of_nat (List.length metrics)).
  assert (0 <= n)%Z by (subst n; lia).
  change (Qnum (inject_Z n * (75 # 100))) with (n * 75)%Z.
  change (Z.pos (Qden (inject_Z n * (75 # 100)))) with 100%Z.
  rewrite Z.quot_div_nonneg by lia.
  replace (n * 75)%Z with (25 * (3 * n))%Z by lia.
  change 100%Z with (25 * 4)%Z.
  rewrite Z.div_mul_cancel_l by lia. reflexivity.
Qed.

End Completion.

(** C1, as stated, fails: for the 17-entry list of the full-plan category
    the code's threshold is 12, not [max(8, ceil(0.75 * 17)) = 13], and
    with twelve facts collected the completion check already holds. *)
Lemma C1_counterexample :
  threshold (metrics_of "build_plan") <> threshold_spec (metrics_of "build_plan") /\
  ~ (has_enough_data full_plan_agent twelve_facts_session = true <->
     (threshold_spec (metrics_of "build_plan")
      <= collected_count twelve_facts_session (metrics_of "build_plan"))%Z).
Proof.
  split; [vm_compute; discriminate|].
  intros [H _]. specialize (H eq_refl). vm_compute in H. apply H. reflexivity.
Qed.

(** C1, amended. For every non-empty active priority list [L] the
    threshold is [max(8, floor(0.75 * len(L)))]; the completion check holds
    exactly when the number of collected fields of [L] reaches it; and a
    turn whose extraction succeeded is answered COMPLETE exactly when that
    check holds or the service signalled COMPLETE. *)
Theorem C1_completion_threshold
    (a : IntakeAgent) (st : ConversationState) (m : string) (rest : list string) :
  relevant_metrics a = Some (m :: rest) ->
  let L := m :: rest in
  threshold L = Z.max 8 (3 * Z.of_nat (List.length L) / 4) /\
  (has_enough_data a st = true <-> (threshold L <= collected_count st L)%Z) /\
  (forall result rnd a' st' reply,
     model a = true ->
     is_set (issue_type a) = true ->
     apply_updates (default ∅ (x_extracted result)) (select_journey st) = (st', Ret tt) ->
     run_conversation (ServiceReturns result) rnd a st = (a', st', reply) ->
     (reply !! "status" = Some (RStr "COMPLETE") <->
      (threshold L <= collected_count st' L)%Z \/
      PyStr.upper (default "CONTINUE" (x_status result)) = "COMPLETE")).
Proof.
  intros HL L. split; [apply threshold_floor|]. split.
  - unfold has_enough_data. rewrite HL. fold L.
    rewrite collected_is_count. apply Z.leb_le.
  - intros result rnd a' st' reply Hm Hty Hap Hrun.
    unfold run_conversation in Hrun. rewrite Hm in Hrun. cbn [negb] in Hrun.
    assert (Ha : classify_if_needed a (select_journey st) = a).
    { unfold classify_if_needed. rewrite Hty. reflexivity. }
    rewrite Ha in Hrun.
    assert (Hb : accept_service_issue result a = a).
    { unfold accept_service_issue. rewrite Hty.
      destruct (x_issue_type result); [rewrite andb_false_r|]; reflexivity. }
    rewrite Hb, Hap in Hrun.
    unfold has_enough_data in Hrun. rewrite HL in Hrun. fold L in Hrun.
    rewrite collected_is_count in Hrun.
    destruct (Z.leb_spec (threshold L) (collected_count st' L)) as [Hle|Hlt];
      cbn [orb] in Hrun.
    + apply (f_equal snd) in Hrun. cbn [snd] in Hrun. subst reply.
      split; [intros _; left; exact Hle|reflexivity].
    + destruct (String.eqb_spec
                  (PyStr.upper (default "CONTINUE" (x_status result))) "COMPLETE")
        as [He|Hne]; apply (f_equal snd) in Hrun; cbn [snd] in Hrun; subst reply.
      * split; [intros _; right; exact He|reflexivity].
      * split; [discriminate|intros [?|?]; [lia|contradiction]].
Qed.

(** The hypothesis of C1 on the full-plan list of a fresh session. *)
Lemma C1_completion_threshold_witness :
  let a := full_plan_agent in
  relevant_metrics a = Some (metrics_of "build_plan") /\
  threshold (metrics_of "build_plan") = 12%Z /\
  (has_enough_data a fresh_session = true <->
   (threshold (metrics_of "build_plan")
    <= collected_count fresh_session (metrics_of "build_plan"))%Z).
Proof.
  intros a. split; [reflexivity|].
  destruct (C1_completion_threshold a fresh_session "age"
              (tail (metrics_of "build_plan")) eq_refl) as (Hth & Hiff & _).
  split; [vm_compute; reflexivity|exact Hiff].
Defined.

(** ** DialogueOrchestrator *)

Section Orchestrator.

Lemma classify_if_needed_assigned a st :
  is_set (issue_type a) = true -> classify_if_needed a st = a.
Proof. unfold classify_if_needed. intros ->. reflexivity. Qed.

Lemma accept_service_issue_assigned result a :
  is_set (issue_type a) = true -> accept_service_issue result a = a.
Proof.
  unfold accept_service_issue. intros ->.
  destruct (x_issue_type result); [rewrite andb_false_r|]; reflexivity.
Qed.

(** A turn leaves an agent whose issue type is assigned as it is. *)
Lemma run_conversation_agent service rnd a st :
  is_set (issue_type a) = true ->
  fst (fst (run_conversation service rnd a st)) = a.
Proof.
  intros Hty. unfold run_conversation.
  destruct (model a); cbn [negb]; [|reflexivity].
  rewrite (classify_if_needed_assigned _ _ Hty).
  destruct service as [|result]; [reflexivity|].
  rewrite (accept_service_issue_assigned _ _ Hty).
  destruct (apply_updates _ _) as [st' [[]|e]]; [|reflexivity].
  destruct (_ || _); reflexivity.
Qed.


Lemma select_journey_keeps st :
  history (select_journey st) = history st /\
  profile (select_journey st) = profile st /\
  current_checkin (select_journey st) = current_checkin st.
Proof.
  unfold select_journey.
  repeat match goal with
  | |- context [match ?x with _ => _ end] => destruct x
  end; repeat split.
Qed.

(** [missing_fields] yields labels, none of which is a key of [questions]. *)
Lemma missing_fields_no_question c label :
  In label (missing_fields c) -> questions !! label = None.
Proof.
  unfold missing_fields, when_none.
  destruct (sleep_hours c), (water_glasses c), (mood_score c), (energy_score c),
           (stress_score c), (exercise_minutes c); simpl;
    intuition (subst; reflexivity).
Qed.

Lemma choice_in rnd l : l <> [] -> In (choice rnd l) l.
Proof.
  intros Hl. unfold choice. apply nth_In.
  apply Nat.mod_upper_bound. destruct l; [contradiction|discriminate].
Qed.

Lemma fallback_late_turn rnd st :
  (2 < List.length (user_turns (history st)))%nat ->
  missing_fields (current_checkin st) <> [] ->
  fallback rnd st =
  result3 (RStr "CONTINUE") (RStr "How are things going?") (RDict ∅).
Proof.
  intros Hturn Hmiss. unfold fallback.
  destruct (Nat.leb_spec (List.length (user_turns (history st))) 2); [lia|].
  pose proof (missing_fields_no_question _ _ (choice_in rnd _ Hmiss)) as Hq.
  destruct (missing_fields (current_checkin st)); [contradiction|].
  rewrite Hq. reflexivity.
Qed.

End Orchestrator.

Section SystemTurns.






End SystemTurns.




(** C8, as stated, fails: the result of a turn whose extraction call
    raised has no ["issue_type"] key. *)
Lemma C8_counterexample :
  ~ is_Some (snd (run_conversation ServiceRaises 0 (new_agent true) third_turn_session)
             !! "issue_type").
Proof. vm_compute. intros [x H]. discriminate. Qed.

(** C8, amended. When the extraction call raises on a turn with more than
    two user turns recorded and a mandatory field still missing, the turn
    returns, without raising, a dict with the three keys [status], [reply]
    and [extracted_updates] (the fallback does not give [issue_type]):
    status CONTINUE, a non-empty canned reply, an empty map of extracted
    updates; no profile or check-in field changes. *)
Theorem C8_service_failure_fallback
    (rnd : nat) (a a' : IntakeAgent) (st st' : ConversationState)
    (reply : gmap string rval) :
  (2 < List.length (user_turns (history st)))%nat ->
  missing_fields (current_checkin st) <> [] ->
  run_conversation ServiceRaises rnd a st = (a', st', reply) ->
  dom reply = {[ "status"; "reply"; "extracted_updates" ]} /\
  reply !! "status" = Some (RStr "CONTINUE") /\
  (exists text, reply !! "reply" = Some (RStr text) /\ text <> "") /\
  reply !! "extracted_updates" = Some (RDict ∅) /\
  profile st' = profile st /\
  current_checkin st' = current_checkin st.
Proof.
  intros Hturn Hmiss Hrun.
  destruct (select_journey_keeps st) as (Hh & Hp & Hc).
  assert (Hreply : reply = result3 (RStr "CONTINUE") (RStr "How are things going?") (RDict ∅)
                   /\ profile st' = profile st /\ current_checkin st' = current_checkin st).
  { unfold run_conversation in Hrun. destruct (model a); cbn [negb] in Hrun.
    - rewrite fallback_late_turn in Hrun by (rewrite ?Hh, ?Hc; assumption).
      injection Hrun as _ <- <-. auto.
    - rewrite fallback_late_turn in Hrun by assumption.
      injection Hrun as _ <- <-. auto. }
  destruct Hreply as (-> & Hp' & Hc').
  split.
  { unfold result3. rewrite !dom_insert_L, dom_empty_L. set_solver. }
  split; [reflexivity|].
  split; [exists "How are things going?"; split; [reflexivity|discriminate]|].
  split; [reflexivity|]. split; assumption.
Qed.

(** C8 on the third turn of a session with nothing collected. *)
Lemma C8_service_failure_fallback_witness :
  (2 < List.length (user_turns (history third_turn_session)))%nat /\
  missing_fields (current_checkin third_turn_session) <> [] /\
  snd (run_conversation ServiceRaises 0 (new_agent true) third_turn_session) !! "status"
  = Some (RStr "CONTINUE").
Proof.
  assert (H1 : (2 < List.length (user_turns (history third_turn_session)))%nat)
    by (apply Nat.ltb_lt; reflexivity).
  assert (H2 : missing_fields (current_checkin third_turn_session) <> [])
    by discriminate.
  split; [exact H1|]. split; [exact H2|].
  destruct (run_conversation ServiceRaises 0 (new_agent true) third_turn_session)
    as [[a' st'] reply] eqn:Hrun.
  apply (C8_service_failure_fallback 0 (new_agent true) a' third_turn_session st' reply
           H1 H2 Hrun).
Defined.

(** ** UpdateApplier *)

Section UpdateApplier.
Variable updates : gmap string pyval.

(** A property of sessions that every step establishes holds of the whole
    pass, also when a step raises. *)
Lemma run_steps_related (R : ConversationState -> ConversationState -> Prop) steps :
  (forall st, R st st) ->
  (forall st1 st2 st3, R st1 st2 -> R st2 st3 -> R st1 st3) ->
  Forall (fun f : step => forall st, R st (fst (f st))) steps ->
  forall st, R st (fst (run_steps steps st)).
Proof.
  intros Hrefl Htrans Hall.
  induction Hall as [|f rest Hf _ IH]; intros st; simpl; [apply Hrefl|].
  specialize (Hf st).
  destruct (f st) as [st1 [[]|e]]; cbn [fst] in *.
  - eapply Htrans; [exact Hf|apply IH].
  - exact Hf.
Qed.

(** *** Collected facts stay collected *)

Lemma keeps_collected_refl st : keeps_collected st st.
Proof. intros m _ H. exact H. Qed.

Lemma keeps_collected_trans st1 st2 st3 :
  keeps_collected st1 st2 -> keeps_collected st2 st3 -> keeps_collected st1 st3.
Proof. intros H12 H23 m Hm H. apply H23, H12; assumption. Qed.

Ltac by_metric_cases :=
  let m := fresh "m" in
  let Hm := fresh "Hm" in
  intros m Hm; unfold is_collected; cbn;
  repeat match goal with
  | |- context [String.eqb m ?k] =>
      destruct (String.eqb_spec m k) as [->|_];
      [ try (intros _; reflexivity); try (intros H; exact H); try contradiction |]
  end; intros H; exact H.

Ltac step_cases :=
  repeat match goal with
  | |- context [match ?x with _ => _ end] => destruct x; cbn [fst]
  end.

Lemma update_steps_keep_collected :
  Forall (fun f : step => forall st, keeps_collected st (fst (f st))) (update_steps updates).
Proof.
  unfold update_steps.
  repeat first [apply List.Forall_nil | apply List.Forall_cons]; intros st;
    unfold int_field, float_field, enum_field, smoking_field, sex_field, text_field;
    step_cases; try apply keeps_collected_refl; by_metric_cases.
Qed.

Lemma apply_updates_keeps_collected st :
  keeps_collected st (fst (apply_updates updates st)).
Proof.
  unfold apply_updates. apply run_steps_related;
    [apply keeps_collected_refl|apply keeps_collected_trans|apply update_steps_keep_collected].
Qed.

(** *** Numeric fields are written in range only *)

Lemma int_write_ok_trans key lo hi x y z :
  int_write_ok updates key lo hi x y -> int_write_ok updates key lo hi y z ->
  int_write_ok updates key lo hi x z.
Proof.
  intros [->|H1] [->|H2]; unfold int_write_ok; auto.
Qed.

Lemma float_write_ok_trans key lo hi x y z :
  float_write_ok updates key lo hi x y -> float_write_ok updates key lo hi y z ->
  float_write_ok updates key lo hi x z.
Proof.
  intros [->|H1] [->|H2]; unfold float_write_ok; auto.
Qed.

Lemma writes_in_range_refl st : writes_in_range updates st st.
Proof. unfold writes_in_range; repeat split; left; reflexivity. Qed.

Lemma writes_in_range_trans st1 st2 st3 :
  writes_in_range updates st1 st2 -> writes_in_range updates st2 st3 ->
  writes_in_range updates st1 st3.
Proof.
  unfold writes_in_range.
  intros (A1 & A2 & A3 & A4 & A5 & A6 & A7 & A8 & A9 & A10 & A11)
         (B1 & B2 & B3 & B4 & B5 & B6 & B7 & B8 & B9 & B10 & B11).
  repeat split;
    first [eapply int_write_ok_trans; eassumption
          |eapply float_write_ok_trans; eassumption].
Qed.

(** An int block either leaves the session alone or assigns a parsed,
    in-range value. *)
Lemma int_field_cases key lo hi assign st :
  fst (int_field updates key lo hi assign st) = st \/
  exists raw val,
    dict_get updates key = Some raw /\ parse_int raw = Ret (Some val) /\
    (lo <= val <= hi)%Z /\ fst (int_field updates key lo hi assign st) = assign val st.
Proof.
  unfold int_field.
  destruct (dict_get updates key) as [raw|]; [|left; reflexivity].
  destruct (parse_int raw) as [[val|]|e] eqn:Hparse; try (left; reflexivity).
  destruct (in_range lo hi val) eqn:Hr; [|left; reflexivity].
  right. exists raw, val. unfold in_range in Hr.
  apply andb_true_iff in Hr as [H1 H2].
  apply Z.leb_le in H1. apply Z.leb_le in H2. repeat split; auto.
Qed.

Lemma float_field_cases key lo hi assign st :
  fst (float_field updates key lo hi assign st) = st \/
  exists raw q,
    dict_get updates key = Some raw /\ parse_float raw = Ret (Some (Fin q)) /\
    (inject_Z lo <= q)%Q /\ (q <= inject_Z hi)%Q /\
    fst (float_field updates key lo hi assign st) = assign (Fin q) st.
Proof.
  unfold float_field.
  destruct (dict_get updates key) as [raw|]; [|left; reflexivity].
  destruct (parse_float raw) as [[[q|]|]|e] eqn:Hparse; try (left; reflexivity).
  cbn [fin_range].
  destruct (Qle_bool (inject_Z lo) q && Qle_bool q (inject_Z hi)) eqn:Hr;
    [|left; reflexivity].
  right. exists raw, q.
  apply andb_true_iff in Hr as [H1 H2].
  apply Qle_bool_iff in H1. apply Qle_bool_iff in H2. repeat split; auto.
Qed.

Ltac one_field_written :=
  unfold writes_in_range; cbn;
  repeat split;
  first [ left; reflexivity
        | right; do 2 eexists; repeat split; first [eassumption | lia] ].

Lemma update_steps_write_in_range :
  Forall (fun f : step => forall st, writes_in_range updates st (fst (f st)))
         (update_steps updates).
Proof.
  unfold update_steps.
  repeat first [apply List.Forall_nil | apply List.Forall_cons]; intros st;
    lazymatch goal with
    | |- context [int_field updates ?k ?lo ?hi ?f st] =>
        destruct (int_field_cases k lo hi f st)
          as [->|(raw & val & Hget & Hparse & Hrange & ->)];
        [apply writes_in_range_refl|one_field_written]
    | |- context [float_field updates ?k ?lo ?hi ?f st] =>
        destruct (float_field_cases k lo hi f st)
          as [->|(raw & q & Hget & Hparse & Hlo & Hhi & ->)];
        [apply writes_in_range_refl|one_field_written]
    | |- _ =>
        unfold enum_field, smoking_field, sex_field, text_field;
        step_cases; unfold writes_in_range; cbn; repeat split; left; reflexivity
    end.
Qed.

Lemma apply_updates_writes_in_range st :
  writes_in_range updates st (fst (apply_updates updates st)).
Proof.
  unfold apply_updates. apply run_steps_related;
    [apply writes_in_range_refl|apply writes_in_range_trans
    |apply update_steps_write_in_range].
Qed.

End UpdateApplier.

Section Monotone.

Lemma is_collected_same_facts st1 st2 metric :
  profile st1 = profile st2 -> current_checkin st1 = current_checkin st2 ->
  is_collected st1 metric = is_collected st2 metric.
Proof. unfold is_collected. intros -> ->. reflexivity. Qed.

Lemma select_journey_keeps_collected st : keeps_collected st (select_journey st).
Proof.
  intros m _ H. destruct (select_journey_keeps st) as (_ & Hp & Hc).
  rewrite (is_collected_same_facts _ st m Hp Hc). exact H.
Qed.

(** The session a turn leaves is the one it got, possibly with a journey
    mode selected and a payload applied. *)
Lemma run_conversation_session service rnd a st :
  let st' := snd (fst (run_conversation service rnd a st)) in
  st' = st \/ st' = select_journey st \/
  exists updates, st' = fst (apply_updates updates (select_journey st)).
Proof.
  unfold run_conversation.
  destruct (model a); cbn [negb]; [|left; reflexivity].
  destruct service as [|result]; [right; left; reflexivity|].
  right; right. exists (default ∅ (x_extracted result)).
  destruct (apply_updates _ _) as [st' [[]|e]]; [|reflexivity].
  destruct (_ || _); reflexivity.
Qed.

Lemma run_conversation_keeps_collected service rnd a st :
  keeps_collected st (snd (fst (run_conversation service rnd a st))).
Proof.
  destruct (run_conversation_session service rnd a st) as [->|[->|[u ->]]].
  - apply keeps_collected_refl.
  - apply select_journey_keeps_collected.
  - eapply keeps_collected_trans;
      [apply select_journey_keeps_collected|apply apply_updates_keeps_collected].
Qed.

Lemma collected_count_mono st st' metrics :
  keeps_collected st st' -> ~ In "dietary_preference" metrics ->
  (collected_count st metrics <= collected_count st' metrics)%Z.
Proof.
  intros Hk. unfold collected_count.
  induction metrics as [|m rest IH]; intros Hnot; simpl; [lia|].
  assert (Hm : m <> "dietary_preference") by (intros ->; apply Hnot; left; reflexivity).
  assert (Hrest : ~ In "dietary_preference" rest) by (intros H; apply Hnot; right; exact H).
  specialize (IH Hrest). specialize (Hk m Hm).
  destruct (is_collected st m).
  - rewrite Hk by reflexivity. simpl. lia.
  - destruct (is_collected st' m); simpl; lia.
Qed.

End Monotone.

(** C7. The payload [{"sleep_hours": "7", "water_glasses": 10**400,
    "mood_score": 3}] makes the update applier raise: [float()] of the 401
    digits is infinity and [round()] of it raises [OverflowError], which
    no [except] clause of [_parse_int] catches.  The sleep value was
    already written, the valid mood value is never written, and the turn
    answers through the fallback with an empty map of extracted updates. *)
Theorem C7_overflow_escapes_update_applier :
  parse_int (PInt (10 ^ 400)) = Raise OverflowError /\
  snd (apply_updates overflowing_updates fresh_session) = Raise OverflowError /\
  sleep_hours (current_checkin (fst (apply_updates overflowing_updates fresh_session)))
  = Some (Fin 7) /\
  mood_score (current_checkin (fst (apply_updates overflowing_updates fresh_session)))
  = None /\
  parse_int (PInt 3) = Ret (Some 3%Z) /\
  snd (run_conversation
         (ServiceReturns (mkExtraction None (Some overflowing_updates) None (Some "ok")))
         0 (new_agent true) fresh_session) !! "extracted_updates"
  = Some (RDict ∅).
Proof. vm_compute. repeat split. Qed.

(** The range part of C7 holds of every payload and session: a numeric
    field is left as it was or holds the parsed value of the payload's
    entry, inside the declared range of the field. *)
Lemma update_applier_range_safe (updates : gmap string pyval) (st : ConversationState) :
  writes_in_range updates st (fst (apply_updates updates st)).
Proof. apply apply_updates_writes_in_range. Qed.

(** C10, as stated, fails: a payload that writes "omnivore" over a
    collected dietary preference lowers the collected count of the
    full-plan list. *)
Lemma C10_counterexample :
  let st' := fst (apply_updates {[ "dietary_preference" := PStr "omnivore" ]}
                                vegan_session) in
  ~ (collected vegan_session (metrics_of "build_plan")
     <= collected st' (metrics_of "build_plan"))%Z.
Proof. vm_compute. intros H. apply H. reflexivity. Qed.

(** C10, amended. For every payload, every optional profile or check-in
    field that is set before the update applier runs is set afterwards
    (also when the applier raises), and so is it after a whole turn; hence
    the collected count of a priority list without [dietary_preference]
    never decreases.  (The dietary preference counts as collected when it
    differs from "omnivore", and a payload may write "omnivore" back.) *)
Theorem C10_collected_facts_kept
    (updates : gmap string pyval) (st : ConversationState) :
  keeps_collected st (fst (apply_updates updates st)) /\
  (forall service rnd a,
     keeps_collected st (snd (fst (run_conversation service rnd a st)))) /\
  (forall metrics,
     ~ In "dietary_preference" metrics ->
     (collected st metrics <= collected (fst (apply_updates updates st)) metrics)%Z) /\
  (forall service rnd a metrics,
     ~ In "dietary_preference" metrics ->
     (collected st metrics
      <= collected (snd (fst (run_conversation service rnd a st))) metrics)%Z).
Proof.
  split; [apply apply_updates_keeps_collected|].
  split; [intros; apply run_conversation_keeps_collected|].
  split.
  - intros metrics Hnot. rewrite !collected_is_count.
    apply collected_count_mono; [apply apply_updates_keeps_collected|exact Hnot].
  - intros service rnd a metrics Hnot. rewrite !collected_is_count.
    apply collected_count_mono; [apply run_conversation_keeps_collected|exact Hnot].
Qed.

(** C10 on a session with a collected sleep value and a payload whose
    sleep value is out of range and whose water value is valid. *)
Lemma C10_collected_facts_kept_witness :
  let st := with_checkin (set_sleep_hours (Fin 7)) fresh_session in
  let updates : gmap string pyval :=
    <["sleep_hours" := PStr "40"]> (<["water_glasses" := PInt 6]> ∅) in
  is_collected st "sleep_hours" = true /\
  is_collected (fst (apply_updates updates st)) "sleep_hours" = true /\
  (collected st (metrics_of "general_wellness")
   <= collected (fst (apply_updates updates st)) (metrics_of "general_wellness"))%Z.
Proof.
  intros st updates.
  destruct (C10_collected_facts_kept updates st) as (Hkeep & _ & Hcount & _).
  assert (H : is_collected st "sleep_hours" = true) by reflexivity.
  split; [exact H|]. split.
  - apply Hkeep; [discriminate|exact H].
  - apply Hcount. vm_compute. intuition discriminate.
Defined.

(** ** NumericExtractor *)

Section NoDigits.
Import PyStr.












End NoDigits.



Section OutOfFirst.
Import PyStr.

(** The head of the [" out of "] split of a normalised text is itself
    normalised up to [strip], and has no [" out of "] left. *)
Lemma out_of_head_normal s :
  let n := strip (lower s) in
  let h := split_head " out of " n in
  strip (lower h) = strip h /\ cut_out_of (strip h) = strip h.
Proof.
  intros n h. split.
  - f_equal. apply lower_id. subst h n.
    apply all_chars_split_head, all_chars_strip, lower_lowered.
  - unfold cut_out_of.
    destruct (contains " out of " (strip h)) eqn:Hc; [|reflexivity].
    apply contains_strip in Hc. subst h.
    rewrite split_head_no_sep in Hc. discriminate.
Qed.

Lemma parse_out_of_first s :
  contains " out of " (strip (lower s)) = true ->
  parse_int (PStr s) = parse_int (PStr (split_head " out of " (strip (lower s)))) /\
  parse_float (PStr s) = parse_float (PStr (split_head " out of " (strip (lower s)))).
Proof.
  intros Hc. destruct (out_of_head_normal s) as [H1 H2].
  assert (H3 : cut_out_of (strip (lower s))
               = strip (split_head " out of " (strip (lower s)))).
  { unfold cut_out_of. rewrite Hc. reflexivity. }
  unfold parse_int, parse_float. cbn [py_str].
  rewrite H3, H1, H2. split; reflexivity.
Qed.

End OutOfFirst.

(** C3. The rules apply in the order [" out of "], [" or "], ["/"], ["-"]:
    the three stated values hold; a text with [" out of "] parses as the
    text before its first [" out of "] does, so that "4 or 5 out of 10" is
    averaged over 4 and 5; and when the [" or "] rule finds a number its
    mean is the result, whatever ["/"] or ["-"] the text has. *)
Theorem C3_rule_precedence :
  parse_int (PStr "8 out of 10") = Ret (Some 8%Z) /\
  parse_int (PStr "8/10") = Ret (Some 8%Z) /\
  parse_float (PStr "5-6") = Ret (Some (Fin (11 # 2))) /\
  (forall s,
     PyStr.contains " out of " (PyStr.strip (PyStr.lower s)) = true ->
     parse_int (PStr s)
     = parse_int (PStr (PyStr.split_head " out of " (PyStr.strip (PyStr.lower s)))) /\
     parse_float (PStr s)
     = parse_float (PStr (PyStr.split_head " out of " (PyStr.strip (PyStr.lower s))))) /\
  parse_float (PStr "4 or 5 out of 10") = Ret (Some (Fin (9 # 2))) /\
  parse_int (PStr "4 out of 5 or 6") = Ret (Some 4%Z) /\
  (forall s n,
     or_rule py_round (cut_out_of (PyStr.strip (PyStr.lower s))) = Ret (Some n) ->
     parse_int (PStr s) = Ret (Some n)) /\
  (forall s x,
     or_rule Ret (cut_out_of (PyStr.strip (PyStr.lower s))) = Ret (Some x) ->
     parse_float (PStr s) = Ret (Some x)) /\
  parse_int (PStr "1/2 or 3") = Ret (Some 2%Z) /\
  parse_int (PStr "1-2 or 5") = Ret (Some 3%Z) /\
  parse_float (PStr "1-2 or 5") = Ret (Some (Fin 3)).
Proof.
  split; [vm_compute; reflexivity|].
  split; [vm_compute; reflexivity|].
  split; [vm_compute; reflexivity|].
  split; [exact parse_out_of_first|].
  split; [vm_compute; reflexivity|].
  split; [vm_compute; reflexivity|].
  split; [intros s n H; unfold parse_int; cbn [py_str]; rewrite H; reflexivity|].
  split; [intros s x H; unfold parse_float; cbn [py_str]; rewrite H; reflexivity|].
  split; [vm_compute; reflexivity|].
  split; vm_compute; reflexivity.
Qed.

(** The general parts of C3 on "About 4 or 5 OUT OF 10". *)
Lemma C3_rule_precedence_witness :
  PyStr.contains " out of " (PyStr.strip (PyStr.lower "About 4 or 5 OUT OF 10")) = true /\
  parse_float (PStr "About 4 or 5 OUT OF 10") = parse_float (PStr "about 4 or 5") /\
  parse_int (PStr "3/4 or 5-6") = Ret (Some 4%Z).
Proof.
  destruct C3_rule_precedence as (_ & _ & _ & Hout & _ & _ & Hor & _).
  split; [reflexivity|]. split.
  - apply (Hout "About 4 or 5 OUT OF 10"). reflexivity.
  - apply (Hor "3/4 or 5-6"). vm_compute. reflexivity.
Defined.

Section RangeShape.
Import PyStr.

Lemma numeral_char_plain c :
  numeral_char c = true ->
  negb (is_space c) = true /\ Ascii.eqb (lower_char c) c = true /\
  negb (Ascii.eqb c "-") = true /\ negb (Ascii.eqb c "/") = true /\
  negb (Ascii.eqb c " ") = true.
Proof.
  destruct c as [[] [] [] [] [] [] [] []]; vm_compute; intros H;
    try discriminate H; repeat split.
Qed.

Lemma digit_is_numeral c : is_digit c = true -> numeral_char c = true.
Proof. unfold numeral_char. intros ->. reflexivity. Qed.

Lemma digit_not_dot c : is_digit c = true -> Ascii.eqb c "." = false.
Proof. destruct c as [[] [] [] [] [] [] [] []]; vm_compute; auto. Qed.

Lemma append_empty_r s : s ++ "" = s.
Proof. induction s as [|c s IH]; [reflexivity|]. rewrite append_cons, IH. reflexivity. Qed.

Lemma span_digits_spec s d r :
  span_digits s = (d, r) -> s = d ++ r /\ all_chars is_digit d = true.
Proof.
  revert d r. induction s as [|c s IH]; intros d r; cbn [span_digits].
  - intros [= <- <-]. split; reflexivity.
  - destruct (is_digit c) eqn:Hc.
    + destruct (span_digits s) as [d' r'].
      destruct (IH d' r' eq_refl) as [-> Hd'].
      intros [= <- <-]. split; [reflexivity|]. cbn [all_chars]. rewrite Hc. exact Hd'.
    + intros [= <- <-]. split; reflexivity.
Qed.

Lemma remove_dots_app s t : remove_dots (s ++ t) = remove_dots s ++ remove_dots t.
Proof.
  induction s as [|c s IH]; [reflexivity|].
  rewrite append_cons. cbn [remove_dots].
  destruct (Ascii.eqb c "."); [exact IH|]. rewrite append_cons, IH. reflexivity.
Qed.

Lemma remove_dots_digits s : all_chars is_digit s = true -> remove_dots s = s.
Proof.
  induction s as [|c s IH]; cbn [all_chars remove_dots]; [reflexivity|].
  intros H. apply andb_true_iff in H as [Hc Hs].
  rewrite (digit_not_dot c Hc), (IH Hs). reflexivity.
Qed.

Lemma isdigit_all s : s <> "" -> all_chars is_digit s = true -> isdigit s = true.
Proof. destruct s; [contradiction|]. intros _ H. exact H. Qed.

(** What [float()] accepts: [ip] alone, or [ip.fp], with a digit somewhere. *)
Lemma py_float_cases s f :
  py_float s = Ret f ->
  exists ip fp,
    all_chars is_digit ip = true /\ all_chars is_digit fp = true /\
    ip ++ fp <> "" /\ (s = ip /\ fp = "" \/ s = ip ++ String "." fp) /\
    f = fnorm (decimal_value ip fp).
Proof.
  unfold py_float.
  destruct (span_digits s) as [ip r] eqn:E.
  apply span_digits_spec in E as [-> Hip].
  destruct r as [|c r'].
  - destruct ip as [|c0 ip0] eqn:Eip; [discriminate|]. intros [= <-].
    exists (String c0 ip0), "". rewrite !append_empty_r.
    repeat split; auto; discriminate.
  - destruct (Ascii.eqb_spec c "."); [subst c|discriminate].
    destruct (span_digits r') as [fp r''] eqn:E2.
    apply span_digits_spec in E2 as [-> Hfp].
    destruct r''; [|discriminate].
    destruct (ip ++ fp) eqn:E3; [discriminate|]. intros [= <-].
    exists ip, fp. rewrite append_empty_r, E3. repeat split; auto; discriminate.
Qed.

Lemma py_float_shape s f :
  py_float s = Ret f ->
  all_chars numeral_char s = true /\ isdigit (remove_dots s) = true.
Proof.
  intros H. destruct (py_float_cases s f H) as (ip & fp & Hip & Hfp & Hne & Hs & _).
  assert (Nip : all_chars numeral_char ip = true)
    by (apply (all_chars_impl is_digit); [apply digit_is_numeral|exact Hip]).
  assert (Nfp : all_chars numeral_char fp = true)
    by (apply (all_chars_impl is_digit); [apply digit_is_numeral|exact Hfp]).
  destruct Hs as [[-> ->]| ->].
  - split; [exact Nip|].
    rewrite (remove_dots_digits _ Hip). apply isdigit_all; [|exact Hip].
    rewrite append_empty_r in Hne. exact Hne.
  - split.
    + rewrite all_chars_app. cbn [all_chars]. rewrite Nip, Nfp. reflexivity.
    + rewrite remove_dots_app. cbn [remove_dots]. rewrite Ascii.eqb_refl.
      rewrite (remove_dots_digits _ Hip), (remove_dots_digits _ Hfp).
      apply isdigit_all; [exact Hne|]. rewrite all_chars_app, Hip, Hfp. reflexivity.
Qed.

(** *** Values *)

Lemma digits_value_nonneg s acc : (0 <= acc)%Z -> (0 <= digits_value acc s)%Z.
Proof.
  revert acc. induction s as [|c s IH]; intros acc Hacc; cbn [digits_value]; [exact Hacc|].
  apply IH. unfold digit_val. lia.
Qed.

Lemma decimal_value_nonneg ip fp : (0 <= decimal_value ip fp)%Q.
Proof.
  unfold decimal_value.
  apply Qle_shift_div_l.
  - change 0%Q with (inject_Z 0). rewrite <- Zlt_Qlt. apply Z.pow_pos_nonneg; lia.
  - rewrite Qmult_0_l. change 0%Q with (inject_Z 0). rewrite <- Zle_Qle.
    apply digits_value_nonneg. lia.
Qed.

Lemma fnorm_below q : (q < FLOAT_OVERFLOW)%Q -> fnorm q = Fin (Qred q).
Proof.
  intros H. unfold fnorm.
  destruct (Qle_bool FLOAT_OVERFLOW q) eqn:E; [|reflexivity].
  apply Qle_bool_iff in E. exfalso. exact (Qlt_not_le _ _ H E).
Qed.

Lemma py_float_nonneg s x : py_float s = Ret (Fin x) -> (0 <= x)%Q.
Proof.
  intros H. destruct (py_float_cases s _ H) as (ip & fp & _ & _ & _ & _ & Hx).
  unfold fnorm in Hx. destruct (Qle_bool _ _); [discriminate|].
  injection Hx as ->. rewrite Qred_correct. apply decimal_value_nonneg.
Qed.

(** The mean of two finite numbers whose sum does not overflow. *)
Lemma mean_of_two x y :
  (0 <= x)%Q -> (0 <= y)%Q -> (x + y < FLOAT_OVERFLOW)%Q ->
  exists m, mean [Fin x; Fin y] = Fin m /\ (m == (x + y) / 2)%Q.
Proof.
  intros Hx Hy Hsum. unfold mean, fsum. cbn [fold_left fadd List.length].
  assert (H1 : (0 + x < FLOAT_OVERFLOW)%Q).
  { rewrite Qplus_0_l. apply Qle_lt_trans with (x + y)%Q; [|exact Hsum].
    rewrite <- (Qplus_0_r x) at 1. apply Qplus_le_r. exact Hy. }
  rewrite (fnorm_below _ H1). cbn [fadd].
  assert (H2 : (Qred (0 + x) + y < FLOAT_OVERFLOW)%Q).
  { rewrite Qred_correct, Qplus_0_l. exact Hsum. }
  rewrite (fnorm_below _ H2). cbn [fdiv_len].
  eexists. split; [reflexivity|].
  rewrite !Qred_correct, Qplus_0_l. reflexivity.
Qed.

(** *** The text [a-b] *)

Lemma split_no_dash s :
  all_chars (fun c => negb (Ascii.eqb c "-")) s = true -> split_go "-" 0 s = [s].
Proof.
  induction s as [|c s IH]; [reflexivity|].
  cbn [all_chars]. intros H. apply andb_true_iff in H as [Hc Hs].
  cbn [split_go]. unfold startswith. cbn [String.prefix].
  destruct (ascii_dec "-" c) as [<-|_]; [discriminate|].
  rewrite (IH Hs). reflexivity.
Qed.

Lemma split_range a b :
  all_chars (fun c => negb (Ascii.eqb c "-")) a = true ->
  all_chars (fun c => negb (Ascii.eqb c "-")) b = true ->
  split "-" (a ++ "-" ++ b) = [a; b].
Proof.
  intros Ha Hb. unfold split.
  induction a as [|c a IH].
  - change ("" ++ "-" ++ b) with (String "-" b).
    cbn [split_go]. unfold startswith. cbn [String.prefix].
    destruct (ascii_dec "-" "-"); [|contradiction].
    replace (String.prefix "" b) with true by (destruct b; reflexivity).
    change (String.length "-" - 1)%nat with 0%nat.
    rewrite (split_no_dash _ Hb). reflexivity.
  - cbn [all_chars] in Ha. apply andb_true_iff in Ha as [Hc Ha].
    rewrite append_cons. cbn [split_go]. unfold startswith. cbn [String.prefix].
    destruct (ascii_dec "-" c) as [<-|_]; [discriminate|].
    rewrite (IH Ha). reflexivity.
Qed.

Lemma contains_dash a b : contains "-" (a ++ "-" ++ b) = true.
Proof.
  induction a as [|c a IH].
  - change ("" ++ "-" ++ b) with (String "-" b). apply startswith_contains.
    unfold startswith. cbn [String.prefix].
    destruct (ascii_dec "-" "-"); [destruct b; reflexivity|contradiction].
  - rewrite append_cons. apply contains_cons, IH.
Qed.

(** A property of the numeral characters and of the dash holds of [a-b]. *)
Lemma range_text_all (Q : ascii -> bool) a b :
  (forall c, numeral_char c = true -> Q c = true) -> Q "-"%char = true ->
  all_chars numeral_char a = true -> all_chars numeral_char b = true ->
  all_chars Q (a ++ "-" ++ b) = true.
Proof.
  intros HQ Hdash Ha Hb.
  rewrite all_chars_app. change ("-" ++ b) with (String "-" b). cbn [all_chars].
  rewrite Hdash, (all_chars_impl numeral_char Q a HQ Ha),
          (all_chars_impl numeral_char Q b HQ Hb).
  reflexivity.
Qed.

(** The ["-"] rule on [a-b] averages [float(a)] and [float(b)]. *)
Lemma dash_rule_range {A : Type} (finish : pyfloat -> res A) a b fa fb :
  py_float a = Ret fa -> py_float b = Ret fb ->
  dash_rule finish (a ++ "-" ++ b)
  = try_except catches_value_error
      (let* r := finish (mean [fa; fb]) in Ret (Some r)) (Ret None).
Proof.
  intros Ha Hb.
  destruct (py_float_shape a fa Ha) as [Na Da].
  destruct (py_float_shape b fb Hb) as [Nb Db].
  assert (Sa : strip a = a).
  { apply strip_id, (all_chars_impl numeral_char); [|exact Na].
    intros c Hc. apply (numeral_char_plain c Hc). }
  assert (Sb : strip b = b).
  { apply strip_id, (all_chars_impl numeral_char); [|exact Nb].
    intros c Hc. apply (numeral_char_plain c Hc). }
  unfold dash_rule. rewrite contains_dash.
  assert (Hstart : startswith "-" (a ++ "-" ++ b) = false).
  { destruct a as [|c a]; [discriminate Da|].
    cbn [all_chars] in Na. apply andb_true_iff in Na as [Hc _].
    destruct (numeral_char_plain c Hc) as (_ & _ & Hd & _).
    rewrite append_cons. unfold startswith. cbn [String.prefix].
    destruct (ascii_dec "-" c) as [<-|_]; [discriminate Hd|reflexivity]. }
  rewrite Hstart. cbn [negb andb].
  rewrite split_range.
  - unfold range_numbers, is_bare_number. cbn [List.filter].
    rewrite Sa, Sb, Da, Db. cbn [mapM bind]. rewrite Sa, Sb, Ha, Hb. reflexivity.
  - apply (all_chars_impl numeral_char); [|exact Na].
    intros c Hc. apply (numeral_char_plain c Hc).
  - apply (all_chars_impl numeral_char); [|exact Nb].
    intros c Hc. apply (numeral_char_plain c Hc).
Qed.

(** On [a-b] the rules before the ["-"] rule do nothing. *)
Lemma range_text_normal a b fa fb :
  py_float a = Ret fa -> py_float b = Ret fb ->
  let s := a ++ "-" ++ b in
  cut_out_of (strip (lower s)) = s /\ contains " or " s = false /\ cut_slash s = s.
Proof.
  intros Ha Hb s.
  destruct (py_float_shape a fa Ha) as [Na _].
  destruct (py_float_shape b fb Hb) as [Nb _].
  assert (Hl : lower s = s).
  { apply lower_id, range_text_all; auto.
    intros c Hc. apply (numeral_char_plain c Hc). }
  assert (Hs : strip s = s).
  { apply strip_id, range_text_all; auto.
    intros c Hc. apply (numeral_char_plain c Hc). }
  assert (Hsp : all_chars (fun c => negb (Ascii.eqb c " ")) s = true).
  { apply range_text_all; auto. intros c Hc. apply (numeral_char_plain c Hc). }
  assert (Hsl : all_chars (fun c => negb (Ascii.eqb c "/")) s = true).
  { apply range_text_all; auto. intros c Hc. apply (numeral_char_plain c Hc). }
  rewrite Hl, Hs. unfold cut_out_of, cut_slash.
  rewrite (contains_first_char " " "out of " s Hsp).
  rewrite (contains_first_char " " "or " s Hsp).
  rewrite (contains_first_char "/" "" s Hsl).
  repeat split.
Qed.

End RangeShape.

(** [round_half_even] is a nearest integer, and the even one at a tie. *)
Lemma round_half_even_nearest (q : Q) :
  (inject_Z (round_half_even q) - (1 # 2) <= q)%Q /\
  (q <= inject_Z (round_half_even q) + (1 # 2))%Q /\
  ((q - inject_Z (Qfloor q) == 1 # 2)%Q -> Z.even (round_half_even q) = true).
Proof.
  unfold round_half_even.
  pose proof (Qfloor_le q) as Hlo. pose proof (Qlt_floor q) as Hhi.
  rewrite inject_Z_plus in Hhi. change (inject_Z 1) with 1%Q in Hhi.
  destruct (q - inject_Z (Qfloor q) ?= 1 # 2)%Q eqn:E.
  - apply Qeq_alt in E.
    destruct (Z.even (Qfloor q)) eqn:Ev.
    + repeat split; try lra. intros _. exact Ev.
    + rewrite inject_Z_plus. change (inject_Z 1) with 1%Q.
      repeat split; try lra. intros _.
      rewrite Z.even_add, Ev. reflexivity.
  - apply Qlt_alt in E. repeat split; try lra.
  - apply Qgt_alt in E. rewrite inject_Z_plus. change (inject_Z 1) with 1%Q.
    repeat split; try lra.
Qed.

(** C2. The range rule rounds a midpoint that lies halfway between two
    integers to the even one, where the design document rounds it away
    from zero: "4-5" has the midpoint 4.5, which [_parse_float] returns and
    [_parse_int] turns into 4 (5 away from zero), while "5-6" gives 6 under
    both rules.  The repository's own test of [_parse_int] expects 5 where
    the same [int(round(..))] is applied to the mean 4.5 of "maybe 4 or 5",
    and gets 4.  All the numbers involved are exact binary floats. *)
Theorem C2_tie_rounds_to_even :
  parse_float (PStr "4-5") = Ret (Some (Fin (9 # 2))) /\
  parse_int (PStr "4-5") = Ret (Some 4%Z) /\
  round_half_away (9 # 2) = 5%Z /\
  parse_int (PStr "5-6") = Ret (Some 6%Z) /\
  round_half_away (11 # 2) = 6%Z /\
  parse_int (PStr "maybe 4 or 5") = Ret (Some 4%Z).
Proof. vm_compute. repeat split. Qed.

(** ** Where the update applier can raise *)

Section Faults.

Lemma ret_only_value_error {A : Type} (a : A) : only_value_error (Ret a).
Proof. intros e H. discriminate H. Qed.

Lemma bind_only_value_error {A B : Type} (m : res A) (k : A -> res B) :
  only_value_error m -> (forall a, only_value_error (k a)) ->
  only_value_error (bind m k).
Proof.
  intros Hm Hk e. destruct m as [a|e']; cbn [bind].
  - apply Hk.
  - intros [= <-]. apply Hm. reflexivity.
Qed.

Lemma py_float_only_value_error s : only_value_error (py_float s).
Proof.
  intros e. unfold py_float.
  repeat match goal with
  | |- context [match ?x with _ => _ end] => destruct x
  end; intros [= <-]; reflexivity.
Qed.

(** A guarded block whose handler returns yields a value as soon as its
    body raises nothing but [ValueError]. *)
Lemma try_except_returns {A : Type} (body : res A) (fallback_value : A) :
  only_value_error body ->
  exists r, try_except catches_value_error body (Ret fallback_value) = Ret r.
Proof.
  intros H. destruct body as [a|e]; cbn [try_except]; [eauto|].
  rewrite (H e eq_refl). cbn. eauto.
Qed.

Lemma try_except_raises {A : Type} (body : res A) (fallback_value : A) e :
  try_except catches_value_error body (Ret fallback_value) = Raise e ->
  e = OverflowError.
Proof.
  destruct body as [a|[]]; cbn; intros [= <-]. reflexivity.
Qed.

Lemma mapM_only_value_error {A B : Type} (f : A -> res B) l :
  (forall a, only_value_error (f a)) -> only_value_error (mapM f l).
Proof.
  intros Hf. induction l as [|a l IH]; cbn [mapM]; [apply ret_only_value_error|].
  apply bind_only_value_error; [apply Hf|]. intros b.
  apply bind_only_value_error; [exact IH|]. intros bs. apply ret_only_value_error.
Qed.

Lemma or_rule_ret_returns s : exists r, or_rule Ret s = Ret r.
Proof.
  unfold or_rule. destruct (PyStr.contains " or " s); [|eauto].
  apply try_except_returns.
  apply bind_only_value_error.
  - apply mapM_only_value_error. intros part. unfold extract_first_number.
    destruct (re_search_number part); [|apply ret_only_value_error].
    apply bind_only_value_error; [apply py_float_only_value_error|].
    intros f. apply ret_only_value_error.
  - intros found. destruct (not_none found); apply ret_only_value_error.
Qed.

Lemma dash_rule_ret_returns s : exists r, dash_rule Ret s = Ret r.
Proof.
  unfold dash_rule. destruct (_ && _); [|eauto].
  apply try_except_returns.
  apply bind_only_value_error.
  - apply mapM_only_value_error. intros part. apply py_float_only_value_error.
  - intros nums. destruct nums; apply ret_only_value_error.
Qed.

(** [_parse_float] never raises. *)
Lemma parse_float_returns v : exists r, parse_float v = Ret r.
Proof.
  unfold parse_float. apply try_except_returns.
  destruct (or_rule_ret_returns (cut_out_of (PyStr.strip (PyStr.lower (py_str v)))))
    as [r1 ->]. cbn [bind].
  destruct r1; [apply ret_only_value_error|].
  destruct (dash_rule_ret_returns (cut_out_of (PyStr.strip (PyStr.lower (py_str v)))))
    as [r2 ->]. cbn [bind].
  destruct r2; [apply ret_only_value_error|].
  unfold first_number_rule. destruct (re_search_number _); [|apply ret_only_value_error].
  apply bind_only_value_error; [apply py_float_only_value_error|].
  intros f. apply ret_only_value_error.
Qed.

(** [_parse_int] raises nothing but the [OverflowError] of [round]. *)
Lemma parse_int_raises v e : parse_int v = Raise e -> e = OverflowError.
Proof. unfold parse_int. apply try_except_raises. Qed.

Lemma run_steps_raises steps st e :
  snd (run_steps steps st) = Raise e ->
  List.Exists (fun f : step => exists st0, snd (f st0) = Raise e) steps.
Proof.
  revert st. induction steps as [|f rest IH]; intros st; cbn [run_steps snd].
  - discriminate.
  - destruct (f st) as [st1 [[]|e1]] eqn:Hf.
    + intros H. apply List.Exists_cons_tl, (IH st1), H.
    + cbn [snd]. intros [= <-]. apply List.Exists_cons_hd.
      exists st. rewrite Hf. reflexivity.
Qed.

(** On a payload whose integers have fewer than 4300 digits, the update
    applier raises only [OverflowError], and only when [_parse_int]
    overflows on the payload's value of one of the seven integer keys.
    (A longer integer cannot come out of [json.loads] where [str()] has
    its digit limit, and would make [str()] itself raise there.) *)
Lemma apply_updates_raises (updates : gmap string pyval) st e :
  printable_ints updates ->
  snd (apply_updates updates st) = Raise e ->
  e = OverflowError /\
  exists key raw,
    In key int_keys /\ dict_get updates key = Some raw /\
    parse_int raw = Raise OverflowError.
Proof.
  intros _ H. apply run_steps_raises in H. unfold update_steps in H.
  repeat match goal with
  | H : List.Exists _ (_ :: _) |- _ => apply List.Exists_cons in H as [H|H]
  | H : List.Exists _ [] |- _ => apply List.Exists_nil in H; contradiction
  end;
  destruct H as [st0 H];
  lazymatch type of H with
  | snd (int_field _ ?k _ _ _ _) = _ =>
      unfold int_field in H;
      destruct (dict_get updates k) as [raw|] eqn:Hget; [|discriminate H];
      destruct (parse_int raw) as [[val|]|e'] eqn:Hp;
        [destruct (in_range _ _ val); discriminate H|discriminate H|];
      cbn [snd] in H; injection H as <-;
      pose proof (parse_int_raises _ _ Hp) as ->; split; [reflexivity|];
      exists k, raw; split; [cbn; tauto|split; [exact Hget|exact Hp]]
  | snd (float_field _ ?k _ _ _ _) = _ =>
      unfold float_field in H;
      destruct (dict_get updates k) as [raw|]; [|discriminate H];
      destruct (parse_float_returns raw) as [r Hr]; rewrite Hr in H;
      destruct r as [val|]; [destruct (fin_range _ _ val)|]; discriminate H
  | _ =>
      exfalso; revert H;
      unfold enum_field, smoking_field, sex_field, text_field;
      repeat match goal with
      | |- context [match ?x with _ => _ end] => destruct x
      end; discriminate
  end.
Qed.

End Faults.

(** ** Evaluations on the inputs of [tests/test_parsing.py] *)

Example parse_float_plain : parse_float (PStr "5.5") = Ret (Some (Fin (11 # 2))).
Proof. vm_compute. reflexivity. Qed.

Example parse_float_to_range : parse_float (PStr "5 to 6") = Ret (Some (Fin 5)).
Proof. vm_compute. reflexivity. Qed.

Example parse_float_fraction : parse_float (PStr "8/10") = Ret (Some (Fin 8)).
Proof. vm_compute. reflexivity. Qed.

Example parse_float_hours : parse_float (PStr "3.5 hours") = Ret (Some (Fin (7 # 2))).
Proof. vm_compute. reflexivity. Qed.

Example parse_float_feet : parse_float (PStr "5'7") = Ret (Some (Fin 5)).
Proof. vm_compute. reflexivity. Qed.

Example parse_int_range : parse_int (PStr "5-6") = Ret (Some 6%Z).
Proof. vm_compute. reflexivity. Qed.

Example parse_int_half : parse_int (PStr "3.5") = Ret (Some 4%Z).
Proof. vm_compute. reflexivity. Qed.

Example parse_int_or : parse_int (PStr "maybe 4 or 5") = Ret (Some 4%Z).
Proof. vm_compute. reflexivity. Qed.

Example parse_int_sentence : parse_int (PStr "I'm 28 years old") = Ret (Some 28%Z).
Proof. vm_compute. reflexivity. Qed.

Example parse_int_negative : parse_int (PInt (-5)) = Ret (Some 5%Z).
Proof. vm_compute. reflexivity. Qed.

Example parse_int_two_dots : parse_int (PStr "1.2.3-4") = Ret (Some 1%Z).
Proof. vm_compute. reflexivity. Qed.

Example apply_updates_water :
  water_glasses (current_checkin
    (fst (apply_updates {[ "water_glasses" := PStr "about 7" ]} fresh_session)))
  = Some 7%Z.
Proof. vm_compute. reflexivity. Qed.

Example threshold_of_lists :
  threshold (metrics_of "mental_fatigue") = 8%Z /\
  threshold (metrics_of "general_wellness") = 8%Z /\
  threshold (metrics_of "build_plan") = 12%Z.
Proof. vm_compute. repeat split. Qed.

(** * Further properties of the code *)

(** ** Session records *)

(** [is_complete] and [missing_fields] agree: the check-in is complete
    exactly when no mandatory field is reported missing, and the number of
    missing labels is six minus the number of mandatory fields set. *)
Theorem is_complete_iff_nothing_missing (c : DailyCheckIn) :
  (is_complete c = true <-> missing_fields c = []) /\
  (List.length (missing_fields c)
   + List.length (List.filter (fun b : bool => b)
       [is_set (sleep_hours c); is_set (water_glasses c); is_set (mood_score c);
        is_set (energy_score c); is_set (stress_score c); is_set (exercise_minutes c)])
   = 6)%nat.
Proof.
  unfold is_complete, missing_fields, when_none.
  destruct (sleep_hours c), (water_glasses c), (mood_score c), (energy_score c),
           (stress_score c), (exercise_minutes c); cbn;
    (split; [split; intros H; first [reflexivity | discriminate H]|reflexivity]).
Qed.

(** The check-in of the session with twelve facts reports nothing missing. *)
Lemma is_complete_iff_nothing_missing_witness :
  missing_fields (current_checkin twelve_facts_session) = [].
Proof.
  destruct (is_complete_iff_nothing_missing (current_checkin twelve_facts_session))
    as [[H _] _].
  apply H. reflexivity.
Defined.

(** ** CompletionPolicy *)

Section ThresholdFacts.

Lemma collected_count_le st metrics :
  (collected_count st metrics <= Z.of_nat (List.length metrics))%Z.
Proof.
  unfold collected_count. apply inj_le.
  induction metrics as [|m rest IH]; simpl; [lia|].
  destruct (is_collected st m); simpl; lia.
Qed.

Lemma threshold_at_least_8 metrics : (8 <= threshold metrics)%Z.
Proof. rewrite threshold_floor. lia. Qed.

End ThresholdFacts.

(** The threshold is at least 8 whatever the list; it can be reached by a
    list of 8 or more identifiers, and for a shorter non-empty list the
    completion check fails in every session. *)
Theorem threshold_reachable_from_8 (m : string) (rest : list string) :
  let L := m :: rest in
  (8 <= threshold L)%Z /\
  ((8 <= List.length L)%nat -> (threshold L <= Z.of_nat (List.length L))%Z) /\
  ((List.length L < 8)%nat ->
   forall a st, relevant_metrics a = Some L -> has_enough_data a st = false).
Proof.
  intros L. split; [apply threshold_at_least_8|]. split.
  - intros Hlen. rewrite threshold_floor.
    assert (3 * Z.of_nat (List.length L) / 4 <= Z.of_nat (List.length L))%Z.
    { apply Z.div_le_upper_bound; lia. }
    lia.
  - intros Hlen a st Ha. unfold has_enough_data. rewrite Ha. fold L.
    rewrite collected_is_count. apply Z.leb_gt.
    pose proof (collected_count_le st L). pose proof (threshold_at_least_8 L). lia.
Qed.

(** The three parts on the nine-entry list of mental fatigue and on a
    two-entry list. *)
Lemma threshold_reachable_from_8_witness :
  (threshold (metrics_of "mental_fatigue") <= 9)%Z /\
  has_enough_data (mkIntakeAgent true (Some "custom") (Some ["sleep_hours"; "mood_score"]))
                  twelve_facts_session = false.
Proof.
  split.
  - destruct (threshold_reachable_from_8 "sleep_hours" (tail (metrics_of "mental_fatigue")))
      as (_ & H & _).
    apply H. vm_compute. lia.
  - destruct (threshold_reachable_from_8 "sleep_hours" ["mood_score"]) as (_ & _ & H).
    apply H; [vm_compute; lia|reflexivity].
Defined.

Section CompletionKept.

Lemma is_complete_kept st st' :
  keeps_collected st st' ->
  is_complete (current_checkin st) = true -> is_complete (current_checkin st') = true.
Proof.
  intros Hk. unfold is_complete.
  pose proof (Hk "sleep_hours") as H1. pose proof (Hk "water_glasses") as H2.
  pose proof (Hk "mood_score") as H3. pose proof (Hk "energy_score") as H4.
  pose proof (Hk "stress_score") as H5. pose proof (Hk "exercise_minutes") as H6.
  unfold is_collected in *. cbn in *.
  intros H. repeat (apply andb_true_iff in H as [H ?]).
  rewrite H1, H2, H3, H4, H5, H6 by (assumption || discriminate). reflexivity.
Qed.

Lemma has_enough_data_kept a st st' :
  (forall L, relevant_metrics a = Some L -> ~ In "dietary_preference" L) ->
  keeps_collected st st' ->
  has_enough_data a st = true -> has_enough_data a st' = true.
Proof.
  intros Hdiet Hk. unfold has_enough_data.
  destruct (relevant_metrics a) as [[|m rest]|] eqn:Ha; try apply (is_complete_kept _ _ Hk).
  rewrite !collected_is_count. intros H. apply Z.leb_le in H. apply Z.leb_le.
  pose proof (collected_count_mono st st' (m :: rest) Hk (Hdiet _ eq_refl)). lia.
Qed.

End CompletionKept.

(** Once the completion check holds for a classified agent it keeps
    holding: applying a payload, or a whole turn served by that agent,
    never turns it false again, provided the active priority list does not
    contain [dietary_preference].  (An agent without an issue type is
    given its list by the turn, and the check is then taken against that
    list: see the example below.) *)
Theorem completion_check_is_kept (a : IntakeAgent) (st : ConversationState) :
  is_set (issue_type a) = true ->
  (forall L, relevant_metrics a = Some L -> ~ In "dietary_preference" L) ->
  has_enough_data a st = true ->
  (forall updates, has_enough_data a (fst (apply_updates updates st)) = true) /\
  (forall service rnd,
     let turn := run_conversation service rnd a st in
     fst (fst turn) = a /\
     has_enough_data (fst (fst turn)) (snd (fst turn)) = true).
Proof.
  intros Hset Hdiet H. split.
  - intros updates. apply (has_enough_data_kept a st); auto.
    apply apply_updates_keeps_collected.
  - intros service rnd. cbv zeta.
    rewrite (run_conversation_agent service rnd a st Hset).
    split; [reflexivity|].
    apply (has_enough_data_kept a st); auto.
    apply run_conversation_keeps_collected.
Qed.

(** A complete session of general wellness stays complete when the payload
    carries an out-of-range sleep value, and over a turn whose extraction
    call raises. *)
Lemma completion_check_is_kept_witness :
  let a := mkIntakeAgent true (Some "general_wellness")
                         (Some (metrics_of "general_wellness")) in
  has_enough_data a twelve_facts_session = true /\
  has_enough_data a (fst (apply_updates {[ "sleep_hours" := PStr "40" ]}
                                        twelve_facts_session)) = true /\
  has_enough_data (fst (fst (run_conversation ServiceRaises 0 a twelve_facts_session)))
                  (snd (fst (run_conversation ServiceRaises 0 a twelve_facts_session)))
  = true.
Proof.
  intros a.
  assert (H : has_enough_data a twelve_facts_session = true) by (vm_compute; reflexivity).
  split; [exact H|].
  assert (Hdiet : forall L, relevant_metrics a = Some L -> ~ In "dietary_preference" L).
  { intros L [= <-]. vm_compute. intuition discriminate. }
  destruct (completion_check_is_kept a twelve_facts_session eq_refl Hdiet H) as [Hu Ht].
  split; [exact (Hu _)|].
  destruct (Ht ServiceRaises 0%nat) as [_ Hturn]. exact Hturn.
Defined.

(** An agent without an issue type on a session with the six core facts:
    the check holds by [is_complete]; the turn classifies the agent, and
    against the ten metrics of general wellness six facts are too few. *)
Example completion_check_after_classification :
  let a := new_agent true in
  let st := mkConversationState [mkMessage "user" "hi"; mkMessage "model" "hello"]
              default_profile
              (mkDailyCheckIn (Some (Fin 7)) (Some 6%Z) (Some 30%Z) None
                              (Some 3%Z) (Some 5%Z) (Some 3%Z) None None None [])
              INTAKE None in
  has_enough_data a st = true /\
  has_enough_data (fst (fst (run_conversation ServiceRaises 0 a st)))
                  (snd (fst (run_conversation ServiceRaises 0 a st))) = false.
Proof. intros a st. split; vm_compute; reflexivity. Qed.

(** ** NumericExtractor *)

(** [_parse_float] returns for every value, and the only exception that
    leaves [_parse_int] is the [OverflowError] of [round]. *)
Theorem parsers_raise_overflow_only (v : pyval) :
  (exists r, parse_float v = Ret r) /\
  (forall e, parse_int v = Raise e -> e = OverflowError).
Proof. split; [apply parse_float_returns|apply parse_int_raises]. Qed.

Section NonNegative.
Import PyStr.

Lemma py_float_nonneg_float s f : py_float s = Ret f -> nonneg_float f.
Proof.
  destruct f as [q|]; [|intros _; exact I]. apply py_float_nonneg.
Qed.

(** The integer [10 ** 400], which [float] turns into infinity. *)
Lemma parsers_raise_overflow_only_witness :
  parse_int (PInt (10 ^ 400)) = Raise OverflowError /\
  exists r, parse_float (PInt (10 ^ 400)) = Ret r.
Proof.
  destruct (parsers_raise_overflow_only (PInt (10 ^ 400))) as [Hfloat Hint].
  split; [|exact Hfloat].
  destruct (parse_int (PInt (10 ^ 400))) as [r|e] eqn:E.
  - vm_compute in E. discriminate E.
  - rewrite (Hint e eq_refl). reflexivity.
Defined.

Lemma fnorm_nonneg q : (0 <= q)%Q -> nonneg_float (fnorm q).
Proof.
  intros H. unfold fnorm. destruct (Qle_bool _ _); [exact I|].
  cbn. rewrite Qred_correct. exact H.
Qed.

Lemma fadd_nonneg a b : nonneg_float a -> nonneg_float b -> nonneg_float (fadd a b).
Proof.
  destruct a as [x|], b as [y|]; cbn; intros Hx Hy; try exact I.
  apply fnorm_nonneg. lra.
Qed.

Lemma fsum_nonneg l acc :
  List.Forall nonneg_float l -> nonneg_float acc -> nonneg_float (fold_left fadd l acc).
Proof.
  intros Hl. revert acc. induction Hl as [|f l Hf _ IH]; intros acc Hacc; cbn; [exact Hacc|].
  apply IH, fadd_nonneg; assumption.
Qed.

Lemma mean_nonneg l : List.Forall nonneg_float l -> nonneg_float (mean l).
Proof.
  intros Hl. unfold mean, fsum.
  pose proof (fsum_nonneg l (Fin 0) Hl (Qle_refl 0)) as H.
  destruct (fold_left fadd l (Fin 0)) as [x|]; cbn in *; [|exact I].
  rewrite Qred_correct. unfold Qdiv. apply Qmult_le_0_compat; [exact H|].
  apply Qinv_le_0_compat. change 0%Q with (inject_Z 0). rewrite <- Zle_Qle. lia.
Qed.

Lemma round_half_even_nonneg q : (0 <= q)%Q -> (0 <= round_half_even q)%Z.
Proof.
  intros H. unfold round_half_even.
  assert (0 <= Qfloor q)%Z.
  { change 0%Z with (Qfloor 0). apply Qfloor_resp_le, H. }
  destruct (_ ?= _)%Q; [destruct (Z.even _)| |]; lia.
Qed.

Lemma extract_nonneg parts found :
  mapM extract_first_number parts = Ret found ->
  List.Forall nonneg_float (not_none found).
Proof.
  revert found. induction parts as [|part parts IH]; intros found; cbn [mapM].
  - intros [= <-]. constructor.
  - unfold extract_first_number at 1.
    destruct (re_search_number part) as [m|]; cbn [bind].
    + destruct (py_float m) as [f|e] eqn:Hf; cbn [bind]; [|discriminate].
      destruct (mapM extract_first_number parts) as [found'|e]; cbn [bind]; [|discriminate].
      intros [= <-]. unfold not_none. cbn.
      constructor; [apply (py_float_nonneg_float m), Hf|apply IH; reflexivity].
    + destruct (mapM extract_first_number parts) as [found'|e]; cbn [bind]; [|discriminate].
      intros [= <-]. unfold not_none. cbn. apply IH. reflexivity.
Qed.

Lemma range_numbers_nonneg parts nums :
  range_numbers parts = Ret nums -> List.Forall nonneg_float nums.
Proof.
  unfold range_numbers. generalize (List.filter is_bare_number parts). clear parts.
  intros parts. revert nums. induction parts as [|part parts IH]; intros nums; cbn [mapM].
  - intros [= <-]. constructor.
  - destruct (py_float (strip part)) as [f|e] eqn:Hf; cbn [bind]; [|discriminate].
    destruct (mapM _ parts) as [nums'|e]; cbn [bind]; [|discriminate].
    intros [= <-]. constructor; [apply (py_float_nonneg_float _ _ Hf)|apply IH; reflexivity].
Qed.

Variable A : Type.
Variable finish : pyfloat -> res A.
Variable good : A -> Prop.
Hypothesis finish_good : forall f r, nonneg_float f -> finish f = Ret r -> good r.

Lemma or_rule_good s r : or_rule finish s = Ret (Some r) -> good r.
Proof.
  unfold or_rule. destruct (contains " or " s); [|discriminate].
  destruct (mapM extract_first_number (split " or " s)) as [found|e] eqn:Hm; cbn.
  - pose proof (extract_nonneg _ _ Hm) as Hnn.
    destruct (not_none found) as [|f nums] eqn:Hn; cbn; [discriminate|].
    destruct (finish (mean (f :: nums))) as [x|e] eqn:Hx; cbn.
    + intros [= <-]. apply (finish_good _ _ (mean_nonneg _ Hnn) Hx).
    + destruct (catches_value_error e); discriminate.
  - destruct (catches_value_error e); discriminate.
Qed.

Lemma dash_rule_good s r : dash_rule finish s = Ret (Some r) -> good r.
Proof.
  unfold dash_rule. destruct (_ && _); [|discriminate].
  destruct (range_numbers (split "-" s)) as [nums|e] eqn:Hm; cbn.
  - pose proof (range_numbers_nonneg _ _ Hm) as Hnn.
    destruct nums as [|f nums]; cbn; [discriminate|].
    destruct (finish (mean (f :: nums))) as [x|e] eqn:Hx; cbn.
    + intros [= <-]. apply (finish_good _ _ (mean_nonneg _ Hnn) Hx).
    + destruct (catches_value_error e); discriminate.
  - destruct (catches_value_error e); discriminate.
Qed.

Lemma first_number_rule_good s r : first_number_rule finish s = Ret (Some r) -> good r.
Proof.
  unfold first_number_rule. destruct (re_search_number s) as [m|]; [|discriminate].
  destruct (py_float m) as [f|e] eqn:Hf; cbn; [|discriminate].
  destruct (finish f) as [x|e] eqn:Hx; cbn; [|discriminate].
  intros [= <-]. apply (finish_good _ _ (py_float_nonneg_float _ _ Hf) Hx).
Qed.

End NonNegative.

(** The parsers never return a negative number: a sign in front of a
    number is dropped, as in [-5], which both read as 5. *)
Theorem parsers_return_no_negative (v : pyval) :
  (forall n, parse_int v = Ret (Some n) -> (0 <= n)%Z) /\
  (forall f, parse_float v = Ret (Some f) -> nonneg_float f) /\
  parse_int (PInt (-5)) = Ret (Some 5%Z) /\
  parse_float (PStr "-5") = Ret (Some (Fin 5)).
Proof.
  assert (Hround : forall f r, nonneg_float f -> py_round f = Ret r -> (0 <= r)%Z).
  { intros [q|] r Hq; cbn; [|discriminate].
    intros [= <-]. apply round_half_even_nonneg, Hq. }
  assert (Hret : forall f r, nonneg_float f -> Ret f = Ret r -> nonneg_float r).
  { intros f r Hf [= <-]. exact Hf. }
  split; [|split; [|split; vm_compute; reflexivity]].
  - intros n. unfold parse_int.
    set (s := cut_out_of _).
    destruct (or_rule py_round s) as [[x|]|e] eqn:H1; cbn.
    + intros [= <-]. apply (or_rule_good _ _ _ Hround _ _ H1).
    + destruct (dash_rule py_round (cut_slash s)) as [[x|]|e] eqn:H2; cbn.
      * intros [= <-]. apply (dash_rule_good _ _ _ Hround _ _ H2).
      * destruct (first_number_rule py_round (cut_slash s)) as [[x|]|e] eqn:H3; cbn.
        -- intros [= <-]. apply (first_number_rule_good _ _ _ Hround _ _ H3).
        -- discriminate.
        -- destruct (catches_value_error e); discriminate.
      * destruct (catches_value_error e); discriminate.
    + destruct (catches_value_error e); discriminate.
  - intros f. unfold parse_float.
    set (s := cut_out_of _).
    destruct (or_rule Ret s) as [[x|]|e] eqn:H1; cbn.
    + intros [= <-]. apply (or_rule_good _ _ _ Hret _ _ H1).
    + destruct (dash_rule Ret s) as [[x|]|e] eqn:H2; cbn.
      * intros [= <-]. apply (dash_rule_good _ _ _ Hret _ _ H2).
      * destruct (first_number_rule Ret s) as [[x|]|e] eqn:H3; cbn.
        -- intros [= <-]. apply (first_number_rule_good _ _ _ Hret _ _ H3).
        -- discriminate.
        -- destruct (catches_value_error e); discriminate.
      * destruct (catches_value_error e); discriminate.
    + destruct (catches_value_error e); discriminate.
Qed.

(** The first part on the text "-3 or -1". *)
Lemma parsers_return_no_negative_witness :
  parse_int (PStr "-3 or -1") = Ret (Some 2%Z) /\ (0 <= 2)%Z.
Proof.
  assert (H : parse_int (PStr "-3 or -1") = Ret (Some 2%Z))
    by (vm_compute; reflexivity).
  split; [exact H|].
  destruct (parsers_return_no_negative (PStr "-3 or -1")) as (Hn & _).
  exact (Hn 2%Z H).
Defined.

Section SlashFree.
Import PyStr.

Lemma no_char_contains a s :
  contains (String a "") s = false ->
  all_chars (fun c => negb (Ascii.eqb c a)) s = true.
Proof.
  induction s as [|c s IH]; [reflexivity|].
  cbn [contains all_chars]. intros H. apply orb_false_iff in H as [Hs Hc].
  rewrite (IH Hc), andb_true_r.
  unfold startswith in Hs. cbn [String.prefix] in Hs.
  destruct (ascii_dec a c) as [->|Hne].
  - destruct s; discriminate Hs.
  - destruct (Ascii.eqb_spec c a) as [->|_]; [contradiction|reflexivity].
Qed.

Lemma lower_char_slash c :
  negb (Ascii.eqb c "/") = true -> negb (Ascii.eqb (lower_char c) "/") = true.
Proof. destruct c as [[] [] [] [] [] [] [] []]; vm_compute; auto. Qed.

Lemma no_slash_lower s :
  all_chars (fun c => negb (Ascii.eqb c "/")) s = true ->
  all_chars (fun c => negb (Ascii.eqb c "/")) (lower s) = true.
Proof.
  unfold lower. induction s as [|c s IH]; cbn [map_chars all_chars]; [reflexivity|].
  intros H. apply andb_true_iff in H as [Hc Hs].
  rewrite (lower_char_slash c Hc). apply IH, Hs.
Qed.

(** On a text without ["/"] the ["/"] rule changes nothing. *)
Lemma cut_slash_id v :
  contains "/" (py_str v) = false ->
  cut_slash (cut_out_of (strip (lower (py_str v))))
  = cut_out_of (strip (lower (py_str v))).
Proof.
  intros H. apply no_char_contains, no_slash_lower in H.
  apply (all_chars_strip _ _) in H.
  assert (H' : all_chars (fun c => negb (Ascii.eqb c "/"))
                 (cut_out_of (strip (lower (py_str v)))) = true).
  { unfold cut_out_of. destruct (contains " out of " _); [|exact H].
    apply all_chars_strip, all_chars_split_head, H. }
  unfold cut_slash. rewrite (contains_first_char "/" "" _ H'). reflexivity.
Qed.

Lemma or_rule_rounded s :
  or_rule py_round s = let* r := or_rule Ret s in rounded r.
Proof.
  unfold or_rule. destruct (contains " or " s); [|reflexivity].
  destruct (mapM extract_first_number (split " or " s)) as [found|[]]; cbn; try reflexivity.
  destruct (not_none found) as [|f nums]; [reflexivity|].
  cbn. destruct (mean (f :: nums)); reflexivity.
Qed.

Lemma dash_rule_rounded s :
  dash_rule py_round s = let* r := dash_rule Ret s in rounded r.
Proof.
  unfold dash_rule. destruct (_ && _); [|reflexivity].
  destruct (range_numbers (split "-" s)) as [nums|[]]; cbn; try reflexivity.
  destruct nums as [|f nums]; [reflexivity|].
  cbn. destruct (mean (f :: nums)); reflexivity.
Qed.

Lemma first_number_rule_rounded s :
  first_number_rule py_round s = let* r := first_number_rule Ret s in rounded r.
Proof.
  unfold first_number_rule. destruct (re_search_number s) as [m|]; [|reflexivity].
  destruct (py_float m) as [[q|]|[]]; reflexivity.
Qed.

End SlashFree.

(** On a value whose text has no ["/"], [_parse_int] is [int(round(_))] of
    what [_parse_float] returns, and [None] where that is [None].  With
    a ["/"] the two can differ: "1/2-3" is 1 for the one and 3 for the
    other. *)
Theorem parse_int_rounds_parse_float (v : pyval) :
  PyStr.contains "/" (py_str v) = false ->
  parse_int v = (let* r := parse_float v in rounded r).
Proof.
  intros H. unfold parse_int, parse_float.
  rewrite (cut_slash_id v H).
  set (s := cut_out_of _).
  rewrite or_rule_rounded, dash_rule_rounded, first_number_rule_rounded.
  destruct (or_rule Ret s) as [[[q|]|]|[]]; cbn; try reflexivity.
  destruct (dash_rule Ret s) as [[[q|]|]|[]]; cbn; try reflexivity.
  destruct (first_number_rule Ret s) as [[[q|]|]|[]]; cbn; reflexivity.
Qed.

(** The relation on "3.5 hours", and the two parsers on "1/2-3". *)
Lemma parse_int_rounds_parse_float_witness :
  PyStr.contains "/" "3.5 hours" = false /\
  parse_int (PStr "3.5 hours") = (let* r := parse_float (PStr "3.5 hours") in rounded r) /\
  parse_int (PStr "1/2-3") = Ret (Some 1%Z) /\
  parse_float (PStr "1/2-3") = Ret (Some (Fin 3)).
Proof.
  split; [reflexivity|]. split.
  - apply (parse_int_rounds_parse_float (PStr "3.5 hours")). reflexivity.
  - split; vm_compute; reflexivity.
Defined.

Section IntegerTexts.
Import PyStr.

Lemma int_char_plain c :
  int_char c = true ->
  negb (is_space c) = true /\ Ascii.eqb (lower_char c) c = true /\
  negb (Ascii.eqb c "/") = true /\ negb (Ascii.eqb c " ") = true.
Proof.
  destruct c as [[] [] [] [] [] [] [] []]; vm_compute; intros H;
    try discriminate H; repeat split.
Qed.

Lemma digit_not_dash c : is_digit c = true -> negb (Ascii.eqb c "-") = true.
Proof. destruct c as [[] [] [] [] [] [] [] []]; vm_compute; auto. Qed.

(** *** The decimal text of a number *)

Lemma uint_text_digits d : all_chars is_digit (NilEmpty.string_of_uint d) = true.
Proof. induction d; cbn [NilEmpty.string_of_uint all_chars]; auto. Qed.

Lemma uint_text_value_acc d acc :
  digits_value (Z.pos acc) (NilEmpty.string_of_uint d) = Z.pos (Pos.of_uint_acc d acc).
Proof.
  revert acc.
  induction d; intros acc; cbn [NilEmpty.string_of_uint digits_value Pos.of_uint_acc];
    [reflexivity|..];
    match goal with
    | |- digits_value ?x _ = Z.pos (Pos.of_uint_acc _ ?y) =>
        replace x with (Z.pos y) by (unfold digit_val; cbn; lia); apply IHd
    end.
Qed.

Lemma uint_text_value d :
  digits_value 0 (NilEmpty.string_of_uint d) = Z.of_N (Pos.of_uint d).
Proof.
  induction d; cbn [NilEmpty.string_of_uint digits_value Pos.of_uint];
    [reflexivity|exact IHd|..];
    match goal with
    | |- digits_value ?x _ = Z.of_N (N.pos (Pos.of_uint_acc _ ?y)) =>
        change x with (Z.pos y); apply uint_text_value_acc
    end.
Qed.

(** [str(z)] is a run of digits of value [|z|], after a sign when [z < 0]. *)
Lemma str_of_int_cases z :
  exists s,
    s <> "" /\ all_chars is_digit s = true /\ digits_value 0 s = Z.abs z /\
    str_of_int z = (if (z <? 0)%Z then String "-" s else s).
Proof.
  unfold str_of_int. destruct z as [|p|p]; cbn [Z.to_int NilZero.string_of_int Z.ltb Z.compare].
  - exists "0". repeat split. discriminate.
  - exists (NilEmpty.string_of_uint (Pos.to_uint p)).
    pose proof (Unsigned.to_uint_nonnil p) as Hn.
    split; [destruct (Pos.to_uint p); [contradiction|discriminate..]|].
    split; [apply uint_text_digits|].
    split; [rewrite uint_text_value, Unsigned.of_to; reflexivity|].
    unfold NilZero.string_of_uint. destruct (Pos.to_uint p); [contradiction|reflexivity..].
  - exists (NilEmpty.string_of_uint (Pos.to_uint p)).
    pose proof (Unsigned.to_uint_nonnil p) as Hn.
    split; [destruct (Pos.to_uint p); [contradiction|discriminate..]|].
    split; [apply uint_text_digits|].
    split; [rewrite uint_text_value, Unsigned.of_to; reflexivity|].
    unfold NilZero.string_of_uint. destruct (Pos.to_uint p); [contradiction|reflexivity..].
Qed.

(** *** Parsing a run of digits *)

Lemma span_all_digits s : all_chars is_digit s = true -> span_digits s = (s, "").
Proof.
  induction s as [|c s IH]; cbn [all_chars span_digits]; [reflexivity|].
  intros H. apply andb_true_iff in H as [Hc Hs]. rewrite Hc, (IH Hs). reflexivity.
Qed.

Lemma search_all_digits s :
  s <> "" -> all_chars is_digit s = true -> re_search_number s = Some s.
Proof.
  intros Hne H. destruct s as [|c s]; [contradiction|].
  pose proof (span_all_digits _ H) as Hspan.
  cbn [all_chars] in H. apply andb_true_iff in H as [Hc _].
  cbn [re_search_number]. rewrite Hc. unfold number_at. rewrite Hspan. reflexivity.
Qed.

Lemma float_all_digits s :
  s <> "" -> all_chars is_digit s = true ->
  (digits_value 0 s < 2 ^ 1024 - 2 ^ 970)%Z ->
  py_float s = Ret (Fin (inject_Z (digits_value 0 s))).
Proof.
  intros Hne H Hlt. unfold py_float. rewrite (span_all_digits _ H).
  destruct s as [|c s]; [contradiction|].
  unfold decimal_value. rewrite append_empty_r.
  set (z := digits_value 0 (String c s)) in *.
  assert (Heq : (inject_Z z / inject_Z (10 ^ Z.of_nat (String.length "")) == inject_Z z)%Q).
  { change (inject_Z (10 ^ Z.of_nat (String.length ""))) with 1%Q. field. }
  rewrite fnorm_below.
  - rewrite (Qred_complete _ _ Heq), Qcanon.Qred_identity; [reflexivity|].
    cbn. apply Z.gcd_1_r.
  - rewrite Heq. unfold FLOAT_OVERFLOW. rewrite <- Zlt_Qlt. exact Hlt.
Qed.

Lemma round_integer z : round_half_even (inject_Z z) = z.
Proof.
  unfold round_half_even. rewrite Qfloor_Z.
  assert (H : (inject_Z z - inject_Z z ?= 1 # 2)%Q = Lt).
  { apply Qlt_alt. unfold Qminus. rewrite Qplus_opp_r. reflexivity. }
  rewrite H. reflexivity.
Qed.

(** A text made of digits and signs passes the first three rules as it is. *)
Lemma int_text_normal t :
  all_chars int_char t = true ->
  cut_out_of (strip (lower t)) = t /\ contains " or " t = false /\ cut_slash t = t.
Proof.
  intros H.
  assert (Hl : lower t = t).
  { apply lower_id, (all_chars_impl int_char); [|exact H].
    intros c Hc. apply (int_char_plain c Hc). }
  assert (Hs : strip t = t).
  { apply strip_id, (all_chars_impl int_char); [|exact H].
    intros c Hc. apply (int_char_plain c Hc). }
  assert (Hsp : all_chars (fun c => negb (Ascii.eqb c " ")) t = true).
  { apply (all_chars_impl int_char); [|exact H]. intros c Hc. apply (int_char_plain c Hc). }
  assert (Hsl : all_chars (fun c => negb (Ascii.eqb c "/")) t = true).
  { apply (all_chars_impl int_char); [|exact H]. intros c Hc. apply (int_char_plain c Hc). }
  rewrite Hl, Hs. unfold cut_out_of, cut_slash.
  rewrite (contains_first_char " " "out of " t Hsp).
  rewrite (contains_first_char " " "or " t Hsp).
  rewrite (contains_first_char "/" "" t Hsl). repeat split.
Qed.

(** The text [s] or [-s], for a run of digits [s], is read as the value of [s]. *)
Lemma parse_signed_digits v s (negative : bool) :
  py_str v = (if negative then String "-" s else s) ->
  s <> "" -> all_chars is_digit s = true ->
  (digits_value 0 s < 2 ^ 1024 - 2 ^ 970)%Z ->
  parse_int v = Ret (Some (digits_value 0 s)) /\
  parse_float v = Ret (Some (Fin (inject_Z (digits_value 0 s)))).
Proof.
  intros Hv Hne Hd Hlt.
  set (t := py_str v) in *.
  assert (Hic : all_chars int_char t = true).
  { rewrite Hv. destruct negative; cbn [all_chars];
      rewrite ?(all_chars_impl is_digit int_char s
                  (fun c Hc => eq_trans (f_equal (fun b => b || _) Hc) eq_refl) Hd);
      reflexivity. }
  destruct (int_text_normal t Hic) as (Hcut & Hor & Hslash).
  assert (Hdash : forall A (finish : pyfloat -> res A), dash_rule finish t = Ret None).
  { intros A finish. unfold dash_rule. rewrite Hv. destruct negative.
    - cbn [startswith String.prefix]. unfold startswith. cbn [String.prefix].
      destruct (ascii_dec "-" "-"); [|contradiction].
      replace (String.prefix "" s) with true by (destruct s; reflexivity).
      rewrite andb_false_r. reflexivity.
    - rewrite (contains_first_char "-" "" s); [reflexivity|].
      apply (all_chars_impl is_digit); [apply digit_not_dash|exact Hd]. }
  assert (Hsearch : re_search_number t = Some s).
  { rewrite Hv. destruct negative; [cbn [re_search_number]|]; apply search_all_digits; assumption. }
  pose proof (float_all_digits s Hne Hd Hlt) as Hf.
  split.
  - unfold parse_int. fold t. rewrite Hcut. unfold or_rule. rewrite Hor. cbn [bind].
    rewrite Hslash, Hdash. cbn [bind]. unfold first_number_rule.
    rewrite Hsearch, Hf. cbn. rewrite round_integer. reflexivity.
  - unfold parse_float. fold t. rewrite Hcut. unfold or_rule. rewrite Hor. cbn [bind].
    rewrite Hdash. cbn [bind]. unfold first_number_rule.
    rewrite Hsearch, Hf. reflexivity.
Qed.

End IntegerTexts.

(** A JSON integer of absolute value up to [2 ^ 53], the range in which
    every integer is a binary float, is read back as its absolute value by
    both parsers: exactly for [z >= 0], without its sign for [z < 0]. *)
Theorem json_integer_is_read_back (z : Z) :
  (Z.abs z <= 2 ^ 53)%Z ->
  parse_int (PInt z) = Ret (Some (Z.abs z)) /\
  parse_float (PInt z) = Ret (Some (Fin (inject_Z (Z.abs z)))).
Proof.
  intros Hle.
  assert (Hlt : (Z.abs z < 2 ^ 1024 - 2 ^ 970)%Z)
    by (apply Z.le_lt_trans with (2 ^ 53)%Z; [exact Hle|reflexivity]).
  destruct (str_of_int_cases z) as (s & Hne & Hd & Hval & Hstr).
  rewrite <- Hval in *.
  apply (parse_signed_digits (PInt z) s (z <? 0)%Z); assumption.
Qed.

(** The integers 28 and -28. *)
Lemma json_integer_is_read_back_witness :
  (Z.abs (-28) <= 2 ^ 53)%Z /\
  parse_int (PInt 28) = Ret (Some 28%Z) /\
  parse_int (PInt (-28)) = Ret (Some 28%Z).
Proof.
  assert (H : (Z.abs (-28) <= 2 ^ 53)%Z) by (vm_compute; discriminate).
  split; [exact H|]. split.
  - apply (json_integer_is_read_back 28). vm_compute. discriminate.
  - apply (json_integer_is_read_back (-28)). exact H.
Defined.

(** ** UpdateApplier, field by field *)

Section Fieldwise.
Variable updates : gmap string pyval.

(** A projection of the session after a pass: each block transforms it by
    its own function, and a pass that does not raise composes them. *)
Lemma run_steps_projection {X : Type} (g : ConversationState -> X) steps Fs :
  List.Forall2 (fun (f : step) (F : X -> X) => forall st, g (fst (f st)) = F (g st))
               steps Fs ->
  forall st,
    snd (run_steps steps st) = Ret tt ->
    g (fst (run_steps steps st)) = fold_left (fun x F => F x) Fs (g st).
Proof.
  induction 1 as [|f F steps Fs Hf _ IH]; intros st; cbn [run_steps fold_left];
    [reflexivity|].
  specialize (Hf st). destruct (f st) as [st1 [[]|e]]; cbn [fst snd] in *.
  - intros H. rewrite (IH st1 H), Hf. reflexivity.
  - discriminate.
Qed.

(** A projection no block touches is kept, also by a pass that raises. *)
Lemma run_steps_untouched {X : Type} (g : ConversationState -> X) steps :
  List.Forall (fun f : step => forall st, g (fst (f st)) = g st) steps ->
  forall st, g (fst (run_steps steps st)) = g st.
Proof.
  induction 1 as [|f steps Hf _ IH]; intros st; cbn [run_steps]; [reflexivity|].
  specialize (Hf st). destruct (f st) as [st1 [[]|e]]; cbn [fst] in *.
  - rewrite IH. exact Hf.
  - exact Hf.
Qed.

Ltac block_cases :=
  intros ?;
  unfold int_field, float_field, enum_field, smoking_field, sex_field, text_field,
         new_int, new_float, new_enum, new_diet, new_smoking, new_sex, new_text;
  cbv zeta;
  repeat match goal with
  | |- context [match ?x with _ => _ end] => destruct x
  end; reflexivity.

Ltac each_block :=
  unfold update_steps;
  repeat first [apply List.Forall2_nil | apply List.Forall2_cons
               |apply List.Forall_nil | apply List.Forall_cons];
  block_cases.

Lemma apply_updates_sleep_hours st :
  snd (apply_updates updates st) = Ret tt ->
  (fun st => sleep_hours (current_checkin st)) (fst (apply_updates updates st))
  = new_float updates "sleep_hours" 1 12 ((fun st => sleep_hours (current_checkin st)) st).
Proof.
  intros H. unfold apply_updates in *.
  rewrite (run_steps_projection (fun st => sleep_hours (current_checkin st)) (update_steps updates)
             [(new_float updates "sleep_hours" 1 12); (fun x => x); (fun x => x); (fun x => x); (fun x => x); (fun x => x);
              (fun x => x); (fun x => x); (fun x => x); (fun x => x); (fun x => x); (fun x => x);
              (fun x => x); (fun x => x); (fun x => x); (fun x => x); (fun x => x)]);
    [reflexivity|each_block|exact H].
Qed.

Lemma apply_updates_water_glasses st :
  snd (apply_updates updates st) = Ret tt ->
  (fun st => water_glasses (current_checkin st)) (fst (apply_updates updates st))
  = new_int updates "water_glasses" 0 20 ((fun st => water_glasses (current_checkin st)) st).
Proof.
  intros H. unfold apply_updates in *.
  rewrite (run_steps_projection (fun st => water_glasses (current_checkin st)) (update_steps updates)
             [(fun x => x); (new_int updates "water_glasses" 0 20); (fun x => x); (fun x => x); (fun x => x); (fun x => x);
              (fun x => x); (fun x => x); (fun x => x); (fun x => x); (fun x => x); (fun x => x);
              (fun x => x); (fun x => x); (fun x => x); (fun x => x); (fun x => x)]);
    [reflexivity|each_block|exact H].
Qed.

Lemma apply_updates_mood_score st :
  snd (apply_updates updates st) = Ret tt ->
  (fun st => mood_score (current_checkin st)) (fst (apply_updates updates st))
  = new_int updates "mood_score" 1 5 ((fun st => mood_score (current_checkin st)) st).
Proof.
  intros H. unfold apply_updates in *.
  rewrite (run_steps_projection (fun st => mood_score (current_checkin st)) (update_steps updates)
             [(fun x => x); (fun x => x); (new_int updates "mood_score" 1 5); (fun x => x); (fun x => x); (fun x => x);
              (fun x => x); (fun x => x); (fun x => x); (fun x => x); (fun x => x); (fun x => x);
              (fun x => x); (fun x => x); (fun x => x); (fun x => x); (fun x => x)]);
    [reflexivity|each_block|exact H].
Qed.

Lemma apply_updates_energy_score st :
  snd (apply_updates updates st) = Ret tt ->
  (fun st => energy_score (current_checkin st)) (fst (apply_updates updates st))
  = new_int updates "energy_score" 1 5 ((fun st => energy_score (current_checkin st)) st).
Proof.
  intros H. unfold apply_updates in *.
  rewrite (run_steps_projection (fun st => energy_score (current_checkin st)) (update_steps updates)
             [(fun x => x); (fun x => x); (fun x => x); (new_int updates "energy_score" 1 5); (fun x => x); (fun x => x);
              (fun x => x); (fun x => x); (fun x => x); (fun x => x); (fun x => x); (fun x => x);
              (fun x => x); (fun x => x); (fun x => x); (fun x => x); (fun x => x)]);
    [reflexivity|each_block|exact H].
Qed.

Lemma apply_updates_stress_score st :
  snd (apply_updates updates st) = Ret tt ->
  (fun st => stress_score (current_checkin st)) (fst (apply_updates updates st))
  = new_int updates "stress_score" 1 10 ((fun st => stress_score (current_checkin st)) st).
Proof.
  intros H. unfold apply_updates in *.
  rewrite (run_steps_projection (fun st => stress_score (current_checkin st)) (update_steps updates)
             [(fun x => x); (fun x => x); (fun x => x); (fun x => x); (new_int updates "stress_score" 1 10); (fun x => x);
              (fun x => x); (fun x => x); (fun x => x); (fun x => x); (fun x => x); (fun x => x);
              (fun x => x); (fun x => x); (fun x => x); (fun x => x); (fun x => x)]);
    [reflexivity|each_block|exact H].
Qed.

Lemma apply_updates_exercise_minutes st :
  snd (apply_updates updates st) = Ret tt ->
  (fun st => exercise_minutes (current_checkin st)) (fst (apply_updates updates st))
  = new_int updates "exercise_minutes" 0 300 ((fun st => exercise_minutes (current_checkin st)) st).
Proof.
  intros H. unfold apply_updates in *.
  rewrite (run_steps_projection (fun st => exercise_minutes (current_checkin st)) (update_steps updates)
             [(fun x => x); (fun x => x); (fun x => x); (fun x => x); (fun x => x); (new_int updates "exercise_minutes" 0 300);
              (fun x => x); (fun x => x); (fun x => x); (fun x => x); (fun x => x); (fun x => x);
              (fun x => x); (fun x => x); (fun x => x); (fun x => x); (fun x => x)]);
    [reflexivity|each_block|exact H].
Qed.

Lemma apply_updates_exercise_type st :
  snd (apply_updates updates st) = Ret tt ->
  (fun st => exercise_type (current_checkin st)) (fst (apply_updates updates st))
  = new_enum updates "exercise_type" ["cardio"; "strength"; "both"; "none"] ((fun st => exercise_type (current_checkin st)) st).
Proof.
  intros H. unfold apply_updates in *.
  rewrite (run_steps_projection (fun st => exercise_type (current_checkin st)) (update_steps updates)
             [(fun x => x); (fun x => x); (fun x => x); (fun x => x); (fun x => x); (fun x => x);
              (new_enum updates "exercise_type" ["cardio"; "strength"; "both"; "none"]); (fun x => x); (fun x => x); (fun x => x); (fun x => x); (fun x => x);
              (fun x => x); (fun x => x); (fun x => x); (fun x => x); (fun x => x)]);
    [reflexivity|each_block|exact H].
Qed.

Lemma apply_updates_social_hours st :
  snd (apply_updates updates st) = Ret tt ->
  (fun st => social_hours (current_checkin st)) (fst (apply_updates updates st))
  = new_float updates "social_hours" 0 24 ((fun st => social_hours (current_checkin st)) st).
Proof.
  intros H. unfold apply_updates in *.
  rewrite (run_steps_projection (fun st => social_hours (current_checkin st)) (update_steps updates)
             [(fun x => x); (fun x => x); (fun x => x); (fun x => x); (fun x => x); (fun x => x);
              (fun x => x); (new_float updates "social_hours" 0 24); (fun x => x); (fun x => x); (fun x => x); (fun x => x);
              (fun x => x); (fun x => x); (fun x => x); (fun x => x); (fun x => x)]);
    [reflexivity|each_block|exact H].
Qed.

Lemma apply_updates_alcohol_units st :
  snd (apply_updates updates st) = Ret tt ->
  (fun st => alcohol_units (current_checkin st)) (fst (apply_updates updates st))
  = new_int updates "alcohol_units" 0 20 ((fun st => alcohol_units (current_checkin st)) st).
Proof.
  intros H. unfold apply_updates in *.
  rewrite (run_steps_projection (fun st => alcohol_units (current_checkin st)) (update_steps updates)
             [(fun x => x); (fun x => x); (fun x => x); (fun x => x); (fun x => x); (fun x => x);
              (fun x => x); (fun x => x); (new_int updates "alcohol_units" 0 20); (fun x => x); (fun x => x); (fun x => x);
              (fun x => x); (fun x => x); (fun x => x); (fun x => x); (fun x => x)]);
    [reflexivity|each_block|exact H].
Qed.

Lemma apply_updates_smoking_today st :
  snd (apply_updates updates st) = Ret tt ->
  (fun st => smoking_today (current_checkin st)) (fst (apply_updates updates st))
  = new_smoking updates ((fun st => smoking_today (current_checkin st)) st).
Proof.
  intros H. unfold apply_updates in *.
  rewrite (run_steps_projection (fun st => smoking_today (current_checkin st)) (update_steps updates)
             [(fun x => x); (fun x => x); (fun x => x); (fun x => x); (fun x => x); (fun x => x);
              (fun x => x); (fun x => x); (fun x => x); (new_smoking updates); (fun x => x); (fun x => x);
              (fun x => x); (fun x => x); (fun x => x); (fun x => x); (fun x => x)]);
    [reflexivity|each_block|exact H].
Qed.

Lemma apply_updates_age st :
  snd (apply_updates updates st) = Ret tt ->
  (fun st => age (profile st)) (fst (apply_updates updates st))
  = new_int updates "age" 10 120 ((fun st => age (profile st)) st).
Proof.
  intros H. unfold apply_updates in *.
  rewrite (run_steps_projection (fun st => age (profile st)) (update_steps updates)
             [(fun x => x); (fun x => x); (fun x => x); (fun x => x); (fun x => x); (fun x => x);
              (fun x => x); (fun x => x); (fun x => x); (fun x => x); (new_int updates "age" 10 120); (fun x => x);
              (fun x => x); (fun x => x); (fun x => x); (fun x => x); (fun x => x)]);
    [reflexivity|each_block|exact H].
Qed.

Lemma apply_updates_sex st :
  snd (apply_updates updates st) = Ret tt ->
  (fun st => sex (profile st)) (fst (apply_updates updates st))
  = new_sex updates ((fun st => sex (profile st)) st).
Proof.
  intros H. unfold apply_updates in *.
  rewrite (run_steps_projection (fun st => sex (profile st)) (update_steps updates)
             [(fun x => x); (fun x => x); (fun x => x); (fun x => x); (fun x => x); (fun x => x);
              (fun x => x); (fun x => x); (fun x => x); (fun x => x); (fun x => x); (new_sex updates);
              (fun x => x); (fun x => x); (fun x => x); (fun x => x); (fun x => x)]);
    [reflexivity|each_block|exact H].
Qed.

Lemma apply_updates_height_cm st :
  snd (apply_updates updates st) = Ret tt ->
  (fun st => height_cm (profile st)) (fst (apply_updates updates st))
  = new_float updates "height_cm" 100 250 ((fun st => height_cm (profile st)) st).
Proof.
  intros H. unfold apply_updates in *.
  rewrite (run_steps_projection (fun st => height_cm (profile st)) (update_steps updates)
             [(fun x => x); (fun x => x); (fun x => x); (fun x => x); (fun x => x); (fun x => x);
              (fun x => x); (fun x => x); (fun x => x); (fun x => x); (fun x => x); (fun x => x);
              (new_float updates "height_cm" 100 250); (fun x => x); (fun x => x); (fun x => x); (fun x => x)]);
    [reflexivity|each_block|exact H].
Qed.

Lemma apply_updates_weight_kg st :
  snd (apply_updates updates st) = Ret tt ->
  (fun st => weight_kg (profile st)) (fst (apply_updates updates st))
  = new_float updates "weight_kg" 30 300 ((fun st => weight_kg (profile st)) st).
Proof.
  intros H. unfold apply_updates in *.
  rewrite (run_steps_projection (fun st => weight_kg (profile st)) (update_steps updates)
             [(fun x => x); (fun x => x); (fun x => x); (fun x => x); (fun x => x); (fun x => x);
              (fun x => x); (fun x => x); (fun x => x); (fun x => x); (fun x => x); (fun x => x);
              (fun x => x); (new_float updates "weight_kg" 30 300); (fun x => x); (fun x => x); (fun x => x)]);
    [reflexivity|each_block|exact H].
Qed.

Lemma apply_updates_origin st :
  snd (apply_updates updates st) = Ret tt ->
  (fun st => origin (profile st)) (fst (apply_updates updates st))
  = new_text updates "origin" ((fun st => origin (profile st)) st).
Proof.
  intros H. unfold apply_updates in *.
  rewrite (run_steps_projection (fun st => origin (profile st)) (update_steps updates)
             [(fun x => x); (fun x => x); (fun x => x); (fun x => x); (fun x => x); (fun x => x);
              (fun x => x); (fun x => x); (fun x => x); (fun x => x); (fun x => x); (fun x => x);
              (fun x => x); (fun x => x); (new_text updates "origin"); (fun x => x); (fun x => x)]);
    [reflexivity|each_block|exact H].
Qed.

Lemma apply_updates_religion st :
  snd (apply_updates updates st) = Ret tt ->
  (fun st => religion (profile st)) (fst (apply_updates updates st))
  = new_text updates "religion" ((fun st => religion (profile st)) st).
Proof.
  intros H. unfold apply_updates in *.
  rewrite (run_steps_projection (fun st => religion (profile st)) (update_steps updates)
             [(fun x => x); (fun x => x); (fun x => x); (fun x => x); (fun x => x); (fun x => x);
              (fun x => x); (fun x => x); (fun x => x); (fun x => x); (fun x => x); (fun x => x);
              (fun x => x); (fun x => x); (fun x => x); (new_text updates "religion"); (fun x => x)]);
    [reflexivity|each_block|exact H].
Qed.

Lemma apply_updates_dietary_preference st :
  snd (apply_updates updates st) = Ret tt ->
  (fun st => dietary_preference (profile st)) (fst (apply_updates updates st))
  = new_diet updates ((fun st => dietary_preference (profile st)) st).
Proof.
  intros H. unfold apply_updates in *.
  rewrite (run_steps_projection (fun st => dietary_preference (profile st)) (update_steps updates)
             [(fun x => x); (fun x => x); (fun x => x); (fun x => x); (fun x => x); (fun x => x);
              (fun x => x); (fun x => x); (fun x => x); (fun x => x); (fun x => x); (fun x => x);
              (fun x => x); (fun x => x); (fun x => x); (fun x => x); (new_diet updates)]);
    [reflexivity|each_block|exact H].
Qed.

Lemma apply_updates_keeps_history st :
  history (fst (apply_updates updates st)) = history st.
Proof. unfold apply_updates. apply (run_steps_untouched history). each_block. Qed.

Lemma apply_updates_keeps_phase st :
  phase (fst (apply_updates updates st)) = phase st.
Proof. unfold apply_updates. apply (run_steps_untouched phase). each_block. Qed.

Lemma apply_updates_keeps_journey_mode st :
  journey_mode (fst (apply_updates updates st)) = journey_mode st.
Proof. unfold apply_updates. apply (run_steps_untouched journey_mode). each_block. Qed.

Lemma apply_updates_keeps_name st :
  (fun st => name (profile st)) (fst (apply_updates updates st)) = (fun st => name (profile st)) st.
Proof. unfold apply_updates. apply (run_steps_untouched (fun st => name (profile st))). each_block. Qed.

Lemma apply_updates_keeps_primary_goal st :
  (fun st => primary_goal (profile st)) (fst (apply_updates updates st)) = (fun st => primary_goal (profile st)) st.
Proof. unfold apply_updates. apply (run_steps_untouched (fun st => primary_goal (profile st))). each_block. Qed.

Lemma apply_updates_keeps_target_weight_kg st :
  (fun st => target_weight_kg (profile st)) (fst (apply_updates updates st)) = (fun st => target_weight_kg (profile st)) st.
Proof. unfold apply_updates. apply (run_steps_untouched (fun st => target_weight_kg (profile st))). each_block. Qed.

Lemma apply_updates_keeps_conditions st :
  (fun st => conditions (profile st)) (fst (apply_updates updates st)) = (fun st => conditions (profile st)) st.
Proof. unfold apply_updates. apply (run_steps_untouched (fun st => conditions (profile st))). each_block. Qed.

Lemma apply_updates_keeps_food_restrictions st :
  (fun st => food_restrictions (profile st)) (fst (apply_updates updates st)) = (fun st => food_restrictions (profile st)) st.
Proof. unfold apply_updates. apply (run_steps_untouched (fun st => food_restrictions (profile st))). each_block. Qed.

Lemma apply_updates_keeps_symptoms st :
  (fun st => symptoms (current_checkin st)) (fst (apply_updates updates st)) = (fun st => symptoms (current_checkin st)) st.
Proof. unfold apply_updates. apply (run_steps_untouched (fun st => symptoms (current_checkin st))). each_block. Qed.

End Fieldwise.

Section FieldwiseResults.

Lemma session_ext (s1 s2 : ConversationState) :
  history s1 = history s2 -> profile s1 = profile s2 ->
  current_checkin s1 = current_checkin s2 -> phase s1 = phase s2 ->
  journey_mode s1 = journey_mode s2 -> s1 = s2.
Proof. destruct s1, s2. cbn. intros -> -> -> -> ->. reflexivity. Qed.

Lemma profile_ext (p1 p2 : UserProfile) :
  name p1 = name p2 -> age p1 = age p2 -> sex p1 = sex p2 ->
  height_cm p1 = height_cm p2 -> weight_kg p1 = weight_kg p2 ->
  primary_goal p1 = primary_goal p2 -> target_weight_kg p1 = target_weight_kg p2 ->
  conditions p1 = conditions p2 -> dietary_preference p1 = dietary_preference p2 ->
  food_restrictions p1 = food_restrictions p2 -> origin p1 = origin p2 ->
  religion p1 = religion p2 -> p1 = p2.
Proof. destruct p1, p2. cbn. intros -> -> -> -> -> -> -> -> -> -> -> ->. reflexivity. Qed.

Lemma checkin_ext (c1 c2 : DailyCheckIn) :
  sleep_hours c1 = sleep_hours c2 -> water_glasses c1 = water_glasses c2 ->
  exercise_minutes c1 = exercise_minutes c2 -> exercise_type c1 = exercise_type c2 ->
  mood_score c1 = mood_score c2 -> stress_score c1 = stress_score c2 ->
  energy_score c1 = energy_score c2 -> social_hours c1 = social_hours c2 ->
  alcohol_units c1 = alcohol_units c2 -> smoking_today c1 = smoking_today c2 ->
  symptoms c1 = symptoms c2 -> c1 = c2.
Proof. destruct c1, c2. cbn. intros -> -> -> -> -> -> -> -> -> -> ->. reflexivity. Qed.

(** Whether a pass raises, and what, depends on the payload only. *)
Lemma apply_updates_outcome updates st1 st2 :
  snd (apply_updates updates st1) = snd (apply_updates updates st2).
Proof.
  unfold apply_updates.
  assert (H : List.Forall (fun f : step => forall s1 s2, snd (f s1) = snd (f s2))
                          (update_steps updates)).
  { unfold update_steps.
    repeat first [apply List.Forall_nil | apply List.Forall_cons]; intros s1 s2;
      unfold int_field, float_field, enum_field, smoking_field, sex_field, text_field;
      repeat match goal with
      | |- context [match ?x with _ => _ end] => destruct x
      end; reflexivity. }
  revert st1 st2. induction H as [|f steps Hf _ IH]; intros st1 st2; cbn [run_steps];
    [reflexivity|].
  specialize (Hf st1 st2).
  destruct (f st1) as [a [[]|e1]], (f st2) as [b [[]|e2]]; cbn [snd] in *;
    try discriminate; [apply IH|exact Hf].
Qed.

Lemma updated_twice updates st : updated updates (updated updates st) = updated updates st.
Proof.
  unfold updated. cbn [history profile current_checkin phase journey_mode
    name age sex height_cm weight_kg primary_goal target_weight_kg conditions
    dietary_preference food_restrictions origin religion
    sleep_hours water_glasses exercise_minutes exercise_type mood_score stress_score
    energy_score social_hours alcohol_units smoking_today symptoms].
  f_equal; [apply profile_ext|apply checkin_ext];
    cbn [name age sex height_cm weight_kg primary_goal target_weight_kg conditions
         dietary_preference food_restrictions origin religion
         sleep_hours water_glasses exercise_minutes exercise_type mood_score stress_score
         energy_score social_hours alcohol_units smoking_today symptoms];
    try reflexivity;
    unfold new_int, new_float, new_enum, new_diet, new_smoking, new_sex, new_text;
    cbv zeta;
    repeat match goal with
    | |- context [match ?x with _ => _ end] => destruct x
    end; reflexivity.
Qed.

End FieldwiseResults.

Lemma apply_updates_updated (updates : gmap string pyval) (st : ConversationState) :
  snd (apply_updates updates st) = Ret tt ->
  fst (apply_updates updates st) = updated updates st.
Proof.
  intros H. apply session_ext; unfold updated;
    cbn [history profile current_checkin phase journey_mode];
    [apply apply_updates_keeps_history| | |
     apply apply_updates_keeps_phase|apply apply_updates_keeps_journey_mode].
  - apply profile_ext; cbn;
      first [apply apply_updates_keeps_name | apply apply_updates_keeps_primary_goal
            |apply apply_updates_keeps_target_weight_kg
            |apply apply_updates_keeps_conditions
            |apply apply_updates_keeps_food_restrictions
            |apply (apply_updates_age updates st H)
            |apply (apply_updates_sex updates st H)
            |apply (apply_updates_height_cm updates st H)
            |apply (apply_updates_weight_kg updates st H)
            |apply (apply_updates_dietary_preference updates st H)
            |apply (apply_updates_origin updates st H)
            |apply (apply_updates_religion updates st H)].
  - apply checkin_ext; cbn;
      first [apply apply_updates_keeps_symptoms
            |apply (apply_updates_sleep_hours updates st H)
            |apply (apply_updates_water_glasses updates st H)
            |apply (apply_updates_exercise_minutes updates st H)
            |apply (apply_updates_exercise_type updates st H)
            |apply (apply_updates_mood_score updates st H)
            |apply (apply_updates_stress_score updates st H)
            |apply (apply_updates_energy_score updates st H)
            |apply (apply_updates_social_hours updates st H)
            |apply (apply_updates_alcohol_units updates st H)
            |apply (apply_updates_smoking_today updates st H)].
Qed.

(** A pass of the update applier that does not raise is the field-wise
    update: every field holds the accepted value of its own key, or what
    it held before; the blocks do not interfere with one another. *)
Theorem apply_updates_is_fieldwise (updates : gmap string pyval) (st : ConversationState) :
  snd (apply_updates updates st) = Ret tt ->
  fst (apply_updates updates st) = updated updates st.
Proof. apply apply_updates_updated. Qed.

(** On the payload of two valid values and one that is out of range. *)
Lemma apply_updates_is_fieldwise_witness :
  let updates : gmap string pyval :=
    <["sleep_hours" := PStr "about 7"]>
      (<["stress_score" := PStr "8 out of 10"]> (<["mood_score" := PInt 9]> ∅)) in
  snd (apply_updates updates vegan_session) = Ret tt /\
  fst (apply_updates updates vegan_session) = updated updates vegan_session /\
  stress_score (current_checkin (updated updates vegan_session)) = Some 8%Z /\
  mood_score (current_checkin (updated updates vegan_session)) = None.
Proof.
  intros updates.
  assert (H : snd (apply_updates updates vegan_session) = Ret tt) by (vm_compute; reflexivity).
  split; [exact H|]. split; [exact (apply_updates_is_fieldwise updates vegan_session H)|].
  split; vm_compute; reflexivity.
Defined.

(** Applying the same payload a second time changes nothing. *)
Theorem apply_updates_idempotent (updates : gmap string pyval) (st : ConversationState) :
  snd (apply_updates updates st) = Ret tt ->
  apply_updates updates (fst (apply_updates updates st)) = apply_updates updates st.
Proof.
  intros H.
  pose proof (apply_updates_outcome updates (fst (apply_updates updates st)) st) as Hout.
  rewrite H in Hout.
  pose proof (apply_updates_updated updates _ Hout) as Hfst.
  rewrite (apply_updates_updated updates st H) in Hfst at 2.
  rewrite updated_twice in Hfst.
  rewrite <- (apply_updates_updated updates st H) in Hfst.
  destruct (apply_updates updates (fst (apply_updates updates st))) as [s2 o2].
  destruct (apply_updates updates st) as [s1 o1]. cbn [fst snd] in *. congruence.
Qed.

(** On a payload with a verbal range and an enumerated value. *)
Lemma apply_updates_idempotent_witness :
  let updates : gmap string pyval :=
    <["sleep_hours" := PStr "5-6"]> (<["sex" := PStr " F "]> ∅) in
  snd (apply_updates updates fresh_session) = Ret tt /\
  apply_updates updates (fst (apply_updates updates fresh_session))
  = apply_updates updates fresh_session.
Proof.
  intros updates.
  assert (H : snd (apply_updates updates fresh_session) = Ret tt) by (vm_compute; reflexivity).
  split; [exact H|exact (apply_updates_idempotent updates fresh_session H)].
Defined.

(** The update applier writes nowhere else: the history, the phase, the
    journey mode, the name, goal, target weight, conditions and food
    restrictions of the profile and the symptoms of the check-in are what
    they were, also when the pass raises. *)
Theorem apply_updates_frame (updates : gmap string pyval) (st : ConversationState) :
  let st' := fst (apply_updates updates st) in
  history st' = history st /\ phase st' = phase st /\
  journey_mode st' = journey_mode st /\
  name (profile st') = name (profile st) /\
  primary_goal (profile st') = primary_goal (profile st) /\
  target_weight_kg (profile st') = target_weight_kg (profile st) /\
  conditions (profile st') = conditions (profile st) /\
  food_restrictions (profile st') = food_restrictions (profile st) /\
  symptoms (current_checkin st') = symptoms (current_checkin st).
Proof.
  cbv zeta. repeat split;
    first [apply apply_updates_keeps_history | apply apply_updates_keeps_phase
          |apply apply_updates_keeps_journey_mode
          |apply (apply_updates_keeps_name updates st)
          |apply (apply_updates_keeps_primary_goal updates st)
          |apply (apply_updates_keeps_target_weight_kg updates st)
          |apply (apply_updates_keeps_conditions updates st)
          |apply (apply_updates_keeps_food_restrictions updates st)
          |apply (apply_updates_keeps_symptoms updates st)].
Qed.

Section KnownKeys.

Lemma run_steps_ext steps1 steps2 st :
  List.Forall2 (fun f g : step => forall s, f s = g s) steps1 steps2 ->
  run_steps steps1 st = run_steps steps2 st.
Proof.
  intros H. revert st. induction H as [|f g l1 l2 Hfg _ IH]; intros st; cbn [run_steps];
    [reflexivity|].
  rewrite Hfg. destruct (g st) as [st1 [[]|e]]; [apply IH|reflexivity].
Qed.

Lemma apply_updates_same_known u1 u2 st :
  (forall key, In key known_keys -> dict_get u1 key = dict_get u2 key) ->
  apply_updates u1 st = apply_updates u2 st.
Proof.
  intros H. unfold apply_updates. apply run_steps_ext. unfold update_steps.
  repeat first [apply List.Forall2_nil | apply List.Forall2_cons]; intros s;
    unfold int_field, float_field, enum_field, smoking_field, sex_field, text_field;
    match goal with
    | |- context [dict_get u1 ?k] => rewrite (H k) by (cbn; tauto)
    end; reflexivity.
Qed.

End KnownKeys.

(** The update applier reads the seventeen keys it knows and nothing else:
    payloads that agree on them (a null counting as a missing key) give the
    same pass, and a payload with none of them leaves the session as it is. *)
Theorem apply_updates_reads_known_keys
    (u1 u2 : gmap string pyval) (st : ConversationState) :
  (forall key, In key known_keys -> dict_get u1 key = dict_get u2 key) ->
  apply_updates u1 st = apply_updates u2 st /\
  ((forall key, In key known_keys -> dict_get u2 key = None) ->
   apply_updates u1 st = (st, Ret tt)).
Proof.
  intros H. split; [apply apply_updates_same_known, H|].
  intros Hnone. rewrite (apply_updates_same_known u1 ∅ st); [reflexivity|].
  intros key Hk. rewrite (H key Hk), (Hnone key Hk). reflexivity.
Qed.

(** A payload of an unknown key and a null against the empty payload. *)
Lemma apply_updates_reads_known_keys_witness :
  let u1 : gmap string pyval :=
    <["heart_rate" := PInt 60]> (<["sleep_hours" := PNone]> ∅) in
  apply_updates u1 twelve_facts_session = (twelve_facts_session, Ret tt).
Proof.
  intros u1.
  assert (H : forall key, In key known_keys -> dict_get u1 key = dict_get ∅ key).
  { intros key Hk. cbn in Hk.
    repeat (destruct Hk as [<-|Hk]; [vm_compute; reflexivity|]). contradiction. }
  destruct (apply_updates_reads_known_keys u1 ∅ twelve_facts_session H) as [_ Hid].
  apply Hid. intros key _. reflexivity.
Defined.

Section Vocabulary.
Variable updates : gmap string pyval.

Lemma mem_In x l : PyStr.mem x l = true -> In x l.
Proof.
  unfold PyStr.mem. intros H. apply existsb_exists in H as (y & Hy & Heq).
  apply String.eqb_eq in Heq. subst y. exact Hy.
Qed.

Lemma vocabulary_kept_refl st : vocabulary_kept st st.
Proof. unfold vocabulary_kept. auto. Qed.

Lemma vocabulary_kept_trans st1 st2 st3 :
  vocabulary_kept st1 st2 -> vocabulary_kept st2 st3 -> vocabulary_kept st1 st3.
Proof.
  unfold vocabulary_kept.
  intros (A1 & A2 & A3) (B1 & B2 & B3). repeat split.
  - destruct B1 as [->|B1]; auto.
  - destruct B2 as [->|B2]; auto.
  - destruct B3 as [->|B3]; auto.
Qed.

Lemma update_steps_keep_vocabulary :
  List.Forall (fun f : step => forall st, vocabulary_kept st (fst (f st)))
              (update_steps updates).
Proof.
  unfold update_steps.
  repeat first [apply List.Forall_nil | apply List.Forall_cons]; intros st;
    unfold int_field, float_field, enum_field, smoking_field, sex_field, text_field;
    cbv zeta;
    repeat match goal with
    | |- context [if PyStr.mem ?x ?l then _ else _] =>
        let Hm := fresh "Hm" in destruct (PyStr.mem x l) eqn:Hm
    | |- context [match ?x with _ => _ end] => destruct x
    end;
    cbn [fst]; try apply vocabulary_kept_refl;
    unfold vocabulary_kept; cbn -[In];
    repeat split; auto;
    right; first [eexists; split; [apply mem_In; eassumption|reflexivity]
                 |apply mem_In; assumption].
Qed.

End Vocabulary.

(** The enumerated fields are written from their vocabulary only: after
    any pass, also one that raises, the sex is what it was or "male" or
    "female", the exercise type is what it was or one of its four words,
    and the dietary preference is what it was or one of its four words. *)
Theorem apply_updates_keeps_vocabulary
    (updates : gmap string pyval) (st : ConversationState) :
  vocabulary_kept st (fst (apply_updates updates st)).
Proof.
  unfold apply_updates. apply run_steps_related;
    [apply vocabulary_kept_refl|apply vocabulary_kept_trans
    |apply update_steps_keep_vocabulary].
Qed.

(** ** FallbackResponder *)

Section Fallback.

Lemma missing_nil_iff_complete c : missing_fields c = [] <-> is_complete c = true.
Proof.
  unfold is_complete, missing_fields, when_none.
  destruct (sleep_hours c), (water_glasses c), (mood_score c), (energy_score c),
           (stress_score c), (exercise_minutes c); cbn;
    split; intros H; first [reflexivity | discriminate H].
Qed.

(** The three shapes of a fallback result. *)
Lemma fallback_cases rnd st :
  ((List.length (user_turns (history st)) <= 2)%nat /\
   fallback rnd st
   = result3 (RStr "CONTINUE") (RStr (choice rnd opening_replies)) (RDict ∅)) \/
  ((2 < List.length (user_turns (history st)))%nat /\
   is_complete (current_checkin st) = true /\
   fallback rnd st = result3 (RStr "COMPLETE") RNone (RDict ∅)) \/
  ((2 < List.length (user_turns (history st)))%nat /\
   is_complete (current_checkin st) = false /\
   fallback rnd st
   = result3 (RStr "CONTINUE") (RStr "How are things going?") (RDict ∅)).
Proof.
  destruct (Nat.leb_spec (List.length (user_turns (history st))) 2) as [Hle|Hlt].
  - left. split; [exact Hle|]. unfold fallback.
    apply Nat.leb_le in Hle. rewrite Hle. reflexivity.
  - right. destruct (is_complete (current_checkin st)) eqn:Hc.
    + left. split; [exact Hlt|]. split; [reflexivity|].
      apply missing_nil_iff_complete in Hc. unfold fallback.
      apply Nat.leb_gt in Hlt. rewrite Hlt, Hc. reflexivity.
    + right. split; [exact Hlt|]. split; [reflexivity|].
      apply fallback_late_turn; [exact Hlt|].
      intros Hnil. apply missing_nil_iff_complete in Hnil. congruence.
Qed.

Lemma question_values key q :
  questions !! key = Some q ->
  In q [ "How'd you sleep last night?"; "Have you been drinking enough water today?";
         "How are you feeling overall?"; "Energy levels holding up?";
         "Stress been manageable lately?"; "Get any movement in today?" ].
Proof.
  unfold questions. intros H. apply elem_of_list_to_map_2 in H.
  repeat (apply elem_of_cons in H as [[= _ <-]|H]; [cbn; tauto|]).
  apply elem_of_nil in H. contradiction.
Qed.

End Fallback.

(** The fallback always answers with the three keys [status], [reply] and
    [extracted_updates], the last one empty; it answers COMPLETE, with no
    reply, exactly when more than two user turns are recorded and the six
    mandatory check-in fields are set, and CONTINUE otherwise. *)
Theorem fallback_result_shape (rnd : nat) (st : ConversationState) :
  let r := fallback rnd st in
  dom r = {[ "status"; "reply"; "extracted_updates" ]} /\
  r !! "extracted_updates" = Some (RDict ∅) /\
  (r !! "status" = Some (RStr "COMPLETE") \/ r !! "status" = Some (RStr "CONTINUE")) /\
  (r !! "status" = Some (RStr "COMPLETE") <->
   (2 < List.length (user_turns (history st)))%nat /\
   is_complete (current_checkin st) = true) /\
  (r !! "status" = Some (RStr "COMPLETE") <-> r !! "reply" = Some RNone).
Proof.
  cbv zeta.
  assert (Hdom : forall a b c, dom (result3 a b c)
                               = ({[ "status"; "reply"; "extracted_updates" ]} : gset string)).
  { intros. unfold result3. rewrite !dom_insert_L, dom_empty_L. set_solver. }
  destruct (fallback_cases rnd st) as [(Ht & ->)|[(Ht & Hc & ->)|(Ht & Hc & ->)]];
    (split; [apply Hdom|]); (split; [reflexivity|]).
  - split; [right; reflexivity|]. split; split; try discriminate.
    intros [H _]. lia.
  - split; [left; reflexivity|]. split; split; auto.
  - split; [right; reflexivity|]. split; split; try discriminate.
    intros [_ H]. congruence.
Qed.

(** Three user turns on the session with twelve facts. *)
Lemma fallback_result_shape_witness :
  let st := add_user_message "c" (add_user_message "b"
              (add_user_message "a" twelve_facts_session)) in
  fallback 0 st !! "status" = Some (RStr "COMPLETE").
Proof.
  intros st.
  destruct (fallback_result_shape 0 st) as (_ & _ & _ & [_ H] & _).
  apply H. split; [vm_compute; lia|reflexivity].
Defined.

(** The reply of the fallback is one of the three opening questions, or
    "How are things going?", or absent; it is never one of the six
    questions of the [questions] table, whose keys are field names while
    the looked-up words are the labels of [missing_fields]. *)
Theorem fallback_never_asks_a_field_question (rnd : nat) (st : ConversationState) :
  let r := fallback rnd st in
  (r !! "reply" = Some RNone \/
   exists text, r !! "reply" = Some (RStr text) /\
                (In text opening_replies \/ text = "How are things going?")) /\
  (forall key q, questions !! key = Some q -> r !! "reply" <> Some (RStr q)).
Proof.
  cbv zeta.
  assert (Hfirst :
    fallback rnd st !! "reply" = Some RNone \/
    exists text, fallback rnd st !! "reply" = Some (RStr text) /\
                 (In text opening_replies \/ text = "How are things going?")).
  { destruct (fallback_cases rnd st) as [(Ht & ->)|[(Ht & Hc & ->)|(Ht & Hc & ->)]].
    - right. exists (choice rnd opening_replies). split; [reflexivity|].
      left. apply choice_in. discriminate.
    - left. reflexivity.
    - right. exists "How are things going?". split; [reflexivity|right; reflexivity]. }
  split; [exact Hfirst|].
  intros key q Hq Hr. apply question_values in Hq.
  destruct Hfirst as [Hn|(text & Ht & Hin)]; [congruence|].
  rewrite Ht in Hr. injection Hr as ->.
  cbn in Hq, Hin.
  repeat (destruct Hq as [<-|Hq]; [clear -Hin; intuition discriminate|]).
  contradiction.
Qed.

(** The question of the table for the sleep hours, on a new session. *)
Lemma fallback_never_asks_a_field_question_witness :
  exists q, questions !! "sleep_hours" = Some q /\
            fallback 0 fresh_session !! "reply" <> Some (RStr q).
Proof.
  destruct (questions !! "sleep_hours") as [q|] eqn:Hq; [|vm_compute in Hq; discriminate Hq].
  exists q. split; [reflexivity|].
  destruct (fallback_never_asks_a_field_question 0 fresh_session) as [_ H].
  exact (H "sleep_hours" q Hq).
Defined.

(** ** DialogueOrchestrator *)

Section Turn.

Lemma select_journey_set st m : journey_mode st = Some m -> select_journey st = st.
Proof. unfold select_journey. intros ->. reflexivity. Qed.

Lemma select_journey_phase st : phase (select_journey st) = phase st.
Proof.
  unfold select_journey.
  repeat match goal with
  | |- context [match ?x with _ => _ end] => destruct x
  end; reflexivity.
Qed.

(** The agent a turn leaves, when it has a model. *)
Lemma run_conversation_agent_cases service rnd a st :
  model a = true ->
  let a1 := classify_if_needed a (select_journey st) in
  fst (fst (run_conversation service rnd a st)) = a1 \/
  exists result, fst (fst (run_conversation service rnd a st))
                 = accept_service_issue result a1.
Proof.
  intros Hm. unfold run_conversation. rewrite Hm. cbn [negb].
  destruct service as [|result]; [left; reflexivity|].
  right. exists result.
  destruct (apply_updates _ _) as [st' [[]|e]]; [|reflexivity].
  destruct (_ || _); reflexivity.
Qed.

Lemma hit_is_keyword_category text ty :
  hit_categories text = [ty] -> In ty (map fst ISSUE_KEYWORDS).
Proof.
  unfold hit_categories. intros H.
  assert (Hin : In ty (map fst (List.filter
            (fun entry => existsb (fun kw => PyStr.contains kw text) (snd entry))
            ISSUE_KEYWORDS))) by (rewrite H; left; reflexivity).
  apply in_map_iff in Hin as (entry & <- & Hentry).
  apply filter_In in Hentry as [Hentry _]. apply in_map, Hentry.
Qed.

(** Keyword classification assigns a key of [ISSUE_METRICS] with its list. *)
Lemma classify_issue_in_table a st :
  exists ty L,
    issue_type (classify_issue a st) = Some ty /\
    relevant_metrics (classify_issue a st) = Some L /\
    ISSUE_METRICS !! ty = Some L.
Proof.
  rewrite classify_issue_cases.
  destruct (hit_categories (user_text (history st))) as [|ty [|ty2 rest]] eqn:Hh;
    try (exists "general_wellness", (metrics_of "general_wellness");
         repeat split; reflexivity).
  apply hit_is_keyword_category in Hh. cbn in Hh.
  exists ty, (metrics_of ty).
  repeat (destruct Hh as [<-|Hh]; [repeat split; reflexivity|]). contradiction.
Qed.

End Turn.

(** A turn never rewrites the conversation: the history and the phase of
    the session are what they were, and a journey mode that is set stays
    as it is (it is selected while it is unset only). *)
Theorem run_conversation_keeps_conversation
    (service : service_outcome) (rnd : nat) (a : IntakeAgent) (st : ConversationState) :
  let st' := snd (fst (run_conversation service rnd a st)) in
  history st' = history st /\ phase st' = phase st /\
  (forall m, journey_mode st = Some m -> journey_mode st' = Some m).
Proof.
  cbv zeta.
  destruct (select_journey_keeps st) as (Hh & _ & _).
  destruct (run_conversation_session service rnd a st) as [->|[->|[u ->]]].
  - auto.
  - split; [exact Hh|]. split; [apply select_journey_phase|].
    intros m Hm. rewrite (select_journey_set st m Hm). exact Hm.
  - rewrite apply_updates_keeps_history, apply_updates_keeps_phase,
      apply_updates_keeps_journey_mode.
    split; [exact Hh|]. split; [apply select_journey_phase|].
    intros m Hm. rewrite (select_journey_set st m Hm). exact Hm.
Qed.

(** The last part on a session in the full-plan journey whose user types
    the letter of another journey. *)
Lemma run_conversation_keeps_conversation_witness :
  let st := add_user_message "A" twelve_facts_session in
  journey_mode st = Some BUILD_PLAN /\
  journey_mode (snd (fst (run_conversation ServiceRaises 0 (new_agent true) st)))
  = Some BUILD_PLAN.
Proof.
  intros st. split; [reflexivity|].
  destruct (run_conversation_keeps_conversation ServiceRaises 0 (new_agent true) st)
    as (_ & _ & H).
  apply H. reflexivity.
Defined.

(** Choosing the full plan short-circuits classification: when the last
    message, trimmed and upper-cased, is one of "C", "BUILD PLAN", "PLAN",
    "BUILD", no journey is selected yet, the agent has a model and no issue
    type, and the history has two messages or more, the turn leaves the
    agent with [build_plan] and its seventeen identifiers, whatever the
    conversation says and whatever the service answers. *)
Theorem build_plan_short_circuit
    (service : service_outcome) (rnd : nat) (a : IntakeAgent) (st : ConversationState)
    (m : Message) :
  model a = true -> issue_type a = None ->
  journey_mode st = None -> last (history st) = Some m ->
  In (PyStr.upper (PyStr.strip (content m))) ["C"; "BUILD PLAN"; "PLAN"; "BUILD"] ->
  (2 <= List.length (history st))%nat ->
  let a' := fst (fst (run_conversation service rnd a st)) in
  let st' := snd (fst (run_conversation service rnd a st)) in
  issue_type a' = Some "build_plan" /\
  relevant_metrics a' = Some (metrics_of "build_plan") /\
  journey_mode st' = Some BUILD_PLAN.
Proof.
  intros Hm Hty Hj Hlast Hin Hlen. cbv zeta.
  assert (Hsel : select_journey st = with_journey_mode BUILD_PLAN st).
  { unfold select_journey. rewrite Hj, Hlast. cbv zeta. cbn in Hin.
    destruct Hin as [<-|[<-|[<-|[<-|[]]]]]; reflexivity. }
  assert (Hcl : classify_if_needed a (select_journey st)
                = set_issue "build_plan" (metrics_of "build_plan") a).
  { unfold classify_if_needed. rewrite Hty, Hsel. cbn [is_set negb andb history
      with_journey_mode journey_mode].
    apply Nat.leb_le in Hlen. rewrite Hlen. reflexivity. }
  split; [|split].
  - destruct (run_conversation_agent_cases service rnd a st Hm) as [->|[result ->]];
      rewrite Hcl; [reflexivity|].
    rewrite accept_service_issue_assigned; reflexivity.
  - destruct (run_conversation_agent_cases service rnd a st Hm) as [->|[result ->]];
      rewrite Hcl; [reflexivity|].
    rewrite accept_service_issue_assigned; reflexivity.
  - unfold run_conversation. rewrite Hm. cbn [negb]. rewrite Hsel.
    destruct service as [|result]; [reflexivity|].
    pose proof (apply_updates_keeps_journey_mode (default ∅ (x_extracted result))
                  (with_journey_mode BUILD_PLAN st)) as Hk.
    destruct (apply_updates _ _) as [st' [[]|e]]; cbn [fst] in Hk.
    + destruct (_ || _); exact Hk.
    + exact Hk.
Qed.

(** A user who complains of insomnia and then answers "build plan", with a
    service that proposes [sleep_issues]. *)
Lemma build_plan_short_circuit_witness :
  let st := add_user_message " build plan "
              (add_agent_message "Choose a path."
                 (add_user_message "insomnia, can't sleep" fresh_session)) in
  let service := ServiceReturns (mkExtraction (Some "sleep_issues") None None None) in
  issue_type (fst (fst (run_conversation service 0 (new_agent true) st)))
  = Some "build_plan".
Proof.
  intros st service.
  apply (build_plan_short_circuit service 0 (new_agent true) st
           (mkMessage "user" " build plan ")); try reflexivity.
  - vm_compute. tauto.
  - vm_compute. lia.
Defined.

(** From the second message on the agent is never left unclassified: a
    turn of an agent with a model, on a history of two messages or more,
    leaves it with an issue type; when it had none before, the type it gets
    from the journey or from the keywords is a key of [ISSUE_METRICS] and
    the active list is the list of that key. *)
Theorem turn_leaves_agent_classified
    (service : service_outcome) (rnd : nat) (a : IntakeAgent) (st : ConversationState) :
  model a = true -> (2 <= List.length (history st))%nat ->
  let a' := fst (fst (run_conversation service rnd a st)) in
  is_set (issue_type a') = true /\
  (issue_type a = None ->
   exists ty L, issue_type a' = Some ty /\ relevant_metrics a' = Some L /\
                ISSUE_METRICS !! ty = Some L).
Proof.
  intros Hm Hlen. cbv zeta.
  destruct (select_journey_keeps st) as (Hh & _ & _).
  assert (Hcl : issue_type a = None ->
                exists ty L,
                  issue_type (classify_if_needed a (select_journey st)) = Some ty /\
                  relevant_metrics (classify_if_needed a (select_journey st)) = Some L /\
                  ISSUE_METRICS !! ty = Some L).
  { intros Hty. unfold classify_if_needed. rewrite Hty, Hh.
    apply Nat.leb_le in Hlen. rewrite Hlen. cbn [is_set negb andb].
    destruct (journey_mode (select_journey st)) as [[]|];
      try apply classify_issue_in_table.
    exists "build_plan", (metrics_of "build_plan"). repeat split; reflexivity. }
  assert (Hboth : issue_type a = None ->
                  exists ty L,
                    issue_type (fst (fst (run_conversation service rnd a st))) = Some ty /\
                    relevant_metrics (fst (fst (run_conversation service rnd a st)))
                    = Some L /\ ISSUE_METRICS !! ty = Some L).
  { intros Hty. destruct (Hcl Hty) as (ty & L & H1 & H2 & H3).
    exists ty, L.
    destruct (run_conversation_agent_cases service rnd a st Hm) as [->|[result ->]];
      [auto|].
    rewrite accept_service_issue_assigned by (rewrite H1; reflexivity). auto. }
  split; [|exact Hboth].
  destruct (issue_type a) as [ty|] eqn:Hty.
  - rewrite run_conversation_agent by (rewrite Hty; reflexivity).
    rewrite Hty. reflexivity.
  - destruct (Hboth eq_refl) as (ty & L & -> & _). reflexivity.
Qed.

(** The second turn of a session that names no symptom. *)
Lemma turn_leaves_agent_classified_witness :
  let st := add_user_message "hello again"
              (add_agent_message "Tell me more." (add_user_message "hi" fresh_session)) in
  (2 <= List.length (history st))%nat /\
  is_set (issue_type (fst (fst (run_conversation ServiceRaises 0 (new_agent true) st))))
  = true.
Proof.
  intros st.
  assert (H : (2 <= List.length (history st))%nat) by (vm_compute; lia).
  split; [exact H|].
  destruct (turn_leaves_agent_classified ServiceRaises 0 (new_agent true) st eq_refl H)
    as [Hset _].
  exact Hset.
Defined.

(** ** The session loop *)

Section SessionLoop.

Lemma run_conversation_history service rnd a st :
  history (snd (fst (run_conversation service rnd a st))) = history st.
Proof.
  destruct (select_journey_keeps st) as (Hh & _ & _).
  destruct (run_conversation_session service rnd a st) as [->|[->|[u ->]]];
    [reflexivity|exact Hh|].
  rewrite apply_updates_keeps_history. exact Hh.
Qed.

Lemma user_turns_app h1 h2 :
  user_turns (h1 ++ h2) = (user_turns h1 ++ user_turns h2)%list.
Proof. unfold user_turns. apply List.filter_app. Qed.

(** One intake turn appends the user's message and at most the reply. *)
Lemma process_intake_history msg service rnd a st :
  exists replies,
    history (snd (process_intake (msg, service, rnd) (a, st)))
    = (history st ++ mkMessage "user" msg :: replies)%list /\
    user_turns replies = [].
Proof.
  unfold process_intake.
  pose proof (run_conversation_history service rnd a (add_user_message msg st)) as H.
  destruct (run_conversation _ _ _ _) as [[a' st'] reply]. cbn [fst snd] in H.
  cbn [history add_user_message] in H.
  repeat match goal with
  | |- context [match ?x with _ => _ end] => destruct x
  end;
  first
    [ exists []; cbn [snd]; rewrite H; split; reflexivity
    | eexists [mkMessage "model" _]; cbn [snd add_agent_message history];
      rewrite H, <- app_assoc; split; reflexivity ].
Qed.

Lemma run_turns_history turns a st :
  exists added,
    history (snd (run_turns turns (a, st))) = (history st ++ added)%list /\
    user_turns added = map (fun turn => mkMessage "user" (fst (fst turn))) turns.
Proof.
  revert a st. induction turns as [|[[msg service] rnd] rest IH]; intros a st.
  - exists []. cbn. rewrite app_nil_r. split; reflexivity.
  - unfold run_turns. cbn [fold_left].
    destruct (process_intake_history msg service rnd a st) as (replies & H1 & H2).
    destruct (process_intake (msg, service, rnd) (a, st)) as [a1 st1]. cbn [snd] in H1.
    destruct (IH a1 st1) as (added & H3 & H4). unfold run_turns in H3.
    exists (mkMessage "user" msg :: replies ++ added)%list.
    rewrite H3, H1. split.
    + rewrite <- app_assoc. reflexivity.
    + change (mkMessage "user" msg :: replies ++ added)%list
        with ([mkMessage "user" msg] ++ replies ++ added)%list.
      rewrite !user_turns_app, H2, H4. reflexivity.
Qed.

Lemma total_chars_from h acc :
  fold_left (fun acc m => (acc + Z.of_nat (String.length (content m)))%Z) h acc
  = (acc + total_chars h)%Z.
Proof.
  unfold total_chars. revert acc. induction h as [|m rest IH]; intros acc; cbn [fold_left].
  - lia.
  - rewrite IH, (IH (0 + _)%Z). lia.
Qed.

Lemma total_chars_app h added :
  (total_chars h <= total_chars (h ++ added))%Z.
Proof.
  unfold total_chars at 2. rewrite fold_left_app. fold (total_chars h).
  rewrite total_chars_from.
  assert (Hnn : forall l, (0 <= total_chars l)%Z).
  { induction l as [|m rest IH]; [unfold total_chars; cbn; lia|].
    unfold total_chars. cbn [fold_left]. rewrite total_chars_from. lia. }
  pose proof (Hnn added). lia.
Qed.

End SessionLoop.

(** The history of a session only grows over a run of intake turns: what
    was there stays in front, and the user's messages that are added are
    those of the turns, in their order. *)
Theorem run_turns_history_grows
    (turns : list (string * service_outcome * nat)) (a : IntakeAgent) (st : ConversationState) :
  let st' := snd (run_turns turns (a, st)) in
  take (List.length (history st)) (history st') = history st /\
  user_turns (history st')
  = (user_turns (history st)
     ++ map (fun turn => mkMessage "user" (fst (fst turn))) turns)%list.
Proof.
  cbv zeta. destruct (run_turns_history turns a st) as (added & -> & Hu). split.
  - rewrite take_app_length. reflexivity.
  - rewrite user_turns_app, Hu. reflexivity.
Qed.

(** [process] computes a compacted context and leaves the history as it
    is, so the trigger of compaction never goes off again: once
    [should_compact] holds of the history of a session, it holds after
    every further run of turns. *)
Theorem compaction_trigger_is_permanent
    (turns : list (string * service_outcome * nat)) (a : IntakeAgent) (st : ConversationState) :
  should_compact (history st) = true ->
  should_compact (history (snd (run_turns turns (a, st)))) = true.
Proof.
  destruct (run_turns_history turns a st) as (added & -> & _).
  unfold should_compact. intros H.
  apply orb_true_iff in H. apply orb_true_iff.
  destruct H as [H|H]; [left|right].
  - apply Z.ltb_lt in H. apply Z.ltb_lt.
    pose proof (total_chars_app (history st) added). lia.
  - apply Nat.ltb_lt in H. apply Nat.ltb_lt. rewrite length_app. lia.
Qed.

(** A session of thirteen one-letter messages, continued by two turns. *)
Lemma compaction_trigger_is_permanent_witness :
  let st := mkConversationState (repeat (mkMessage "user" "x") 13)
              default_profile default_checkin INTAKE None in
  should_compact (history (snd (run_turns stressed_turns (new_agent true, st)))) = true.
Proof.
  intros st. apply (compaction_trigger_is_permanent stressed_turns (new_agent true) st).
  vm_compute. reflexivity.
Defined.

(** ** The missing metrics of the prompt *)

Section MissingMetrics.

Lemma get_missing_from st metrics acc :
  fold_left (fun (missing : list string) metric =>
               if negb (is_collected st metric)
               then (missing ++ [friendly_name metric])%list
               else missing)
            metrics acc
  = (acc ++ map friendly_name
              (List.filter (fun metric => negb (is_collected st metric)) metrics))%list.
Proof.
  revert acc. induction metrics as [|m rest IH]; intros acc; cbn [fold_left List.filter].
  - cbn. rewrite app_nil_r. reflexivity.
  - rewrite IH. destruct (is_collected st m); cbn [negb map].
    + reflexivity.
    + rewrite <- app_assoc. reflexivity.
Qed.

Lemma missing_count st metrics :
  (Z.of_nat (List.length (List.filter (fun metric => negb (is_collected st metric)) metrics))
   + collected_count st metrics = Z.of_nat (List.length metrics))%Z.
Proof.
  unfold collected_count.
  induction metrics as [|m rest IH]; cbn [List.filter List.length]; [reflexivity|].
  destruct (is_collected st m); cbn [negb List.length]; lia.
Qed.

Lemma get_missing_length a st m rest :
  relevant_metrics a = Some (m :: rest) ->
  (Z.of_nat (List.length (get_missing_relevant a st)) + collected st (m :: rest)
   = Z.of_nat (List.length (m :: rest)))%Z.
Proof.
  intros Ha. unfold get_missing_relevant. rewrite Ha, get_missing_from.
  cbn [app]. rewrite length_map, collected_is_count. apply missing_count.
Qed.

End MissingMetrics.

(** The list of missing metrics that goes into the prompt and the counter
    of the completion check split the active list: the number of names in
    the one plus the value of the other is the length of the list. *)
Theorem missing_and_collected_split
    (a : IntakeAgent) (st : ConversationState) (m : string) (rest : list string) :
  relevant_metrics a = Some (m :: rest) ->
  (Z.of_nat (List.length (get_missing_relevant a st)) + collected st (m :: rest)
   = Z.of_nat (List.length (m :: rest)))%Z.
Proof. apply get_missing_length. Qed.

(** The full-plan list on the session with twelve of its facts. *)
Lemma missing_and_collected_split_witness :
  (Z.of_nat (List.length (get_missing_relevant full_plan_agent twelve_facts_session))
   + collected twelve_facts_session (metrics_of "build_plan") = 17)%Z.
Proof.
  apply (missing_and_collected_split full_plan_agent twelve_facts_session
           "age" (tail (metrics_of "build_plan"))).
  reflexivity.
Defined.

(** When nothing is missing the intake is complete, for an agent without
    a list and for an agent whose list has eight entries or more (as every
    list of [ISSUE_METRICS] has). *)
Theorem nothing_missing_completes (a : IntakeAgent) (st : ConversationState) :
  (forall L, relevant_metrics a = Some L -> L = [] \/ (8 <= List.length L)%nat) ->
  get_missing_relevant a st = [] -> has_enough_data a st = true.
Proof.
  intros Hlen Hmiss.
  destruct (relevant_metrics a) as [[|m rest]|] eqn:Ha.
  - unfold get_missing_relevant in Hmiss. unfold has_enough_data. rewrite Ha in *.
    apply missing_nil_iff_complete, Hmiss.
  - pose proof (get_missing_length a st m rest Ha) as Hsplit.
    rewrite Hmiss in Hsplit. cbn [List.length] in Hsplit.
    destruct (Hlen _ eq_refl) as [Hnil|Hlong]; [discriminate|].
    unfold has_enough_data. rewrite Ha. apply Z.leb_le.
    rewrite threshold_floor.
    assert (3 * Z.of_nat (List.length (m :: rest)) / 4
            <= Z.of_nat (List.length (m :: rest)))%Z
      by (apply Z.div_le_upper_bound; lia).
    cbn [List.length] in *. lia.
  - unfold get_missing_relevant in Hmiss. unfold has_enough_data. rewrite Ha in *.
    apply missing_nil_iff_complete, Hmiss.
Qed.

(** An agent without a list on a session whose six core facts are set. *)
Lemma nothing_missing_completes_witness :
  has_enough_data (new_agent true) twelve_facts_session = true.
Proof.
  apply nothing_missing_completes.
  - intros L HL. discriminate HL.
  - reflexivity.
Defined.

(** ** Stored sessions *)

Section Resume.

Lemma as_float_of_float x : as_float (of_float x) = Some x.
Proof. destruct x; reflexivity. Qed.

Lemma as_int_of_int x : as_int (of_int x) = Some x.
Proof. destruct x; reflexivity. Qed.

(** What [_restore_from_stored] rebuilds from what [_persist_session]
    stored. *)
Lemma restore_after_persist sys stored p :
  restored_profile (stored_profile stored) = Some p ->
  restore_from_stored (persist_session sys stored)
  = Some (mkNiravaSystem (sys_phase sys) (sys_issue_type sys)
            (mkConversationState (history (sys_session sys)) p
               (let c := current_checkin (sys_session sys) in
                mkDailyCheckIn (sleep_hours c) (water_glasses c) (exercise_minutes c) None
                               (mood_score c) (stress_score c) (energy_score c)
                               None None None [])
               INTAKE None)).
Proof.
  intros Hp. unfold restore_from_stored, persist_session.
  cbn [stored_profile stored_checkin stored_phase stored_issue_type stored_history
       session_id checkpoints].
  rewrite Hp.
  cbn [restored_checkin setattr_checkin String.eqb Ascii.eqb Bool.eqb].
  rewrite as_float_of_float. cbn [option_map].
  cbn [restored_checkin setattr_checkin String.eqb Ascii.eqb Bool.eqb].
  rewrite !as_int_of_int. reflexivity.
Qed.

Lemma created_profile sid :
  restored_profile (stored_profile (new_session sid)) = Some (set_age 30 default_profile).
Proof. reflexivity. Qed.

End Resume.

(** Persisting and resuming keeps the conversation and the six core facts
    of the day: for a stored session with the profile [create_session]
    gave it, [_restore_from_stored] after [_persist_session] returns a
    system with the same phase, issue type and history and the same six
    core fields, so that the core check-in is complete exactly when it
    was. *)
Theorem resume_keeps_history_and_core_facts (sys : NiravaSystem) (stored : Session) :
  stored_profile stored = stored_profile (new_session (session_id stored)) ->
  exists sys',
    restore_from_stored (persist_session sys stored) = Some sys' /\
    sys_phase sys' = sys_phase sys /\
    sys_issue_type sys' = sys_issue_type sys /\
    history (sys_session sys') = history (sys_session sys) /\
    (let c := current_checkin (sys_session sys) in
     let c' := current_checkin (sys_session sys') in
     sleep_hours c' = sleep_hours c /\ water_glasses c' = water_glasses c /\
     mood_score c' = mood_score c /\ energy_score c' = energy_score c /\
     stress_score c' = stress_score c /\ exercise_minutes c' = exercise_minutes c /\
     is_complete c' = is_complete c).
Proof.
  intros Hp. eexists. split.
  - apply restore_after_persist. rewrite Hp. apply created_profile.
  - cbn. repeat split.
Qed.

(** A system in its intake phase on the session with twelve facts. *)
Lemma resume_keeps_history_and_core_facts_witness :
  exists sys',
    restore_from_stored
      (persist_session (mkNiravaSystem "INTAKE" (Some "build_plan") twelve_facts_session)
                       (new_session "s1")) = Some sys' /\
    sleep_hours (current_checkin (sys_session sys')) = Some (PyNum.Fin 7).
Proof.
  destruct (resume_keeps_history_and_core_facts
              (mkNiravaSystem "INTAKE" (Some "build_plan") twelve_facts_session)
              (new_session "s1") eq_refl)
    as (sys' & Hr & _ & _ & _ & Hs & _).
  exists sys'. split; [exact Hr|exact Hs].
Defined.

(** Persisting and resuming forgets everything else: whatever the session
    held, the resumed one has the profile of a new user with age 30, no
    exercise type, social hours, alcohol units or smoking answer, and no
    journey mode; a metric can count as collected after the resume only if
    it is the age or one of the six core facts. *)
Theorem resume_forgets_other_facts (sys : NiravaSystem) (stored : Session) :
  stored_profile stored = stored_profile (new_session (session_id stored)) ->
  exists sys',
    restore_from_stored (persist_session sys stored) = Some sys' /\
    profile (sys_session sys') = set_age 30 default_profile /\
    exercise_type (current_checkin (sys_session sys')) = None /\
    social_hours (current_checkin (sys_session sys')) = None /\
    alcohol_units (current_checkin (sys_session sys')) = None /\
    smoking_today (current_checkin (sys_session sys')) = None /\
    journey_mode (sys_session sys') = None /\
    (forall metric,
       is_collected (sys_session sys') metric = true ->
       metric = "age" \/ In metric persisted_metrics).
Proof.
  intros Hp. eexists. split.
  - apply restore_after_persist. rewrite Hp. apply created_profile.
  - cbn [sys_session profile current_checkin exercise_type social_hours alcohol_units
         smoking_today journey_mode].
    repeat (split; [reflexivity|]).
    intros metric. unfold is_collected, persisted_metrics.
    cbn [profile current_checkin age sex height_cm weight_kg origin religion
         dietary_preference set_age default_profile exercise_type social_hours
         alcohol_units smoking_today sleep_hours water_glasses mood_score energy_score
         stress_score exercise_minutes is_set].
    repeat match goal with
    | |- context [String.eqb metric ?k] =>
        destruct (String.eqb_spec metric k) as [->|_];
        [first [discriminate | intros _; cbn; tauto]|]
    end.
    discriminate.
Qed.

(** The session with twelve facts, whose user is 30, female, 165 cm and
    60 kg: the height does not count as collected after the resume. *)
Lemma resume_forgets_other_facts_witness :
  is_collected twelve_facts_session "height_cm" = true /\
  exists sys',
    restore_from_stored
      (persist_session (mkNiravaSystem "INTAKE" (Some "build_plan") twelve_facts_session)
                       (new_session "s1")) = Some sys' /\
    is_collected (sys_session sys') "height_cm" = false.
Proof.
  split; [reflexivity|].
  destruct (resume_forgets_other_facts
              (mkNiravaSystem "INTAKE" (Some "build_plan") twelve_facts_session)
              (new_session "s1") eq_refl)
    as (sys' & Hr & Hprofile & _).
  exists sys'. split; [exact Hr|].
  unfold is_collected. rewrite Hprofile. reflexivity.
Defined.

(** ** Context compaction *)

(** [compact] splits the history in two: the recent messages are a
    suffix of it and the summary is made of the messages in front of them.
    The suffix has [max_recent] messages when the history is longer than
    that; with [max_recent = 0] the slice [history[-0:]] is the whole
    history, so nothing is summarised. *)
Theorem compact_splits_history (llm : option string) (n : nat) (h : list Message) :
  let r := compact llm n h in
  original_length r = List.length h /\
  compacted_length r = List.length (recent_messages r) /\
  (exists older,
     h = (older ++ recent_messages r)%list /\
     summary r = summarize_messages llm older) /\
  List.length (recent_messages r)
  = (if (n =? 0)%nat || (List.length h <=? n)%nat then List.length h else n).
Proof.
  cbv zeta. unfold compact.
  destruct (List.length h <=? n)%nat eqn:Hle;
    cbn [original_length compacted_length recent_messages summary].
  - rewrite orb_true_r. repeat split. exists []. split; reflexivity.
  - apply Nat.leb_gt in Hle. rewrite orb_false_r.
    destruct n as [|k]; cbn [slice_before_last slice_last Nat.eqb].
    + repeat split. exists []. split; reflexivity.
    + repeat split.
      * exists (take (List.length h - S k) h). split; [|reflexivity].
        symmetry. apply take_drop.
      * rewrite length_drop. lia.
Qed.

(** ** Checkpoints *)

Section Checkpoints.

Lemma items_get_set {V : Type} (d : list (string * V)) key v :
  items_get (items_set d key v) key = Some v.
Proof.
  induction d as [|[k x] rest IH]; cbn [items_set items_get].
  - rewrite String.eqb_refl. reflexivity.
  - destruct (k =? key) eqn:E; cbn [items_get]; rewrite E; [reflexivity|exact IH].
Qed.

Lemma items_set_twice {V : Type} (d : list (string * V)) key v v' :
  items_set (items_set d key v) key v' = items_set d key v'.
Proof.
  induction d as [|[k x] rest IH]; cbn [items_set].
  - rewrite String.eqb_refl. reflexivity.
  - destruct (k =? key) eqn:E; cbn [items_set]; rewrite E; [reflexivity|].
    rewrite IH. reflexivity.
Qed.

(** The session written last under a key is the parent the loop finds,
    when no other session lists the checkpoint. *)
Lemma find_parent_set cid items sid session :
  Forall (fun item => PyStr.mem cid (checkpoints (snd item)) = false) items ->
  PyStr.mem cid (checkpoints session) = true ->
  find_parent cid (items_set items sid session) = Some session.
Proof.
  intros Hfresh Hmem. induction Hfresh as [|[k x] rest Hx _ IH]; cbn [items_set find_parent].
  - rewrite Hmem. reflexivity.
  - destruct (k =? sid); cbn [find_parent].
    + rewrite Hmem. reflexivity.
    + cbn [snd] in Hx. rewrite Hx. exact IH.
Qed.

Lemma mem_last cid l : PyStr.mem cid (l ++ [cid]) = true.
Proof.
  unfold PyStr.mem. rewrite existsb_app. cbn [existsb].
  rewrite String.eqb_refl, orb_true_r. reflexivity.
Qed.

Lemma split_go_cons s : exists p ps, PyStr.split_go "_" 0 s = p :: ps.
Proof.
  induction s as [|c s (p & ps & IH)]; cbn [PyStr.split_go]; [eauto|].
  destruct (PyStr.startswith "_" (String c s)); [eauto|].
  rewrite IH. eauto.
Qed.

(** The parts of [s.split("_")] are one more than the underscores. *)
Lemma split_parts_app s t :
  List.length (PyStr.split "_" (s ++ t))
  = (List.length (PyStr.split "_" s) + List.length (PyStr.split "_" t) - 1)%nat.
Proof.
  unfold PyStr.split. induction s as [|c s IH].
  - rewrite append_nil. cbn [PyStr.split_go List.length]. lia.
  - rewrite append_cons. cbn [PyStr.split_go].
    assert (Hsame : PyStr.startswith "_" (String c (s ++ t))
                    = PyStr.startswith "_" (String c s)).
    { unfold PyStr.startswith. cbn [String.prefix].
      destruct (ascii_dec "_" c); [|reflexivity].
      destruct (s ++ t), s; reflexivity. }
    rewrite Hsame. destruct (PyStr.startswith "_" (String c s)).
    + cbn [String.length Nat.sub List.length]. rewrite IH.
      destruct (split_go_cons s) as (p & ps & ->). cbn [List.length]. lia.
    + destruct (split_go_cons (s ++ t)) as (p & ps & Hst).
      destruct (split_go_cons s) as (q & qs & Hs).
      rewrite Hst, Hs in *. cbn [List.length] in *. lia.
Qed.

Lemma checkpoint_name_parts sid now :
  (List.length (PyStr.split "_" (checkpoint_name sid now)) <? 3)%nat = false.
Proof.
  apply Nat.ltb_ge. unfold checkpoint_name. rewrite !split_parts_app.
  change (List.length (PyStr.split "_" "cp_")) with 2%nat.
  change (List.length (PyStr.split "_" "_")) with 2%nat.
  unfold PyStr.split.
  destruct (split_go_cons sid) as (p & ps & ->).
  destruct (split_go_cons now) as (q & qs & ->).
  cbn [List.length]. lia.
Qed.

(** [resume_from_checkpoint] on a checkpoint that [create_checkpoint]
    named, when the loop finds a parent. *)
Lemma resume_named svc sid now checkpoint parent :
  _checkpoints svc !! checkpoint_name sid now = Some checkpoint ->
  find_parent (checkpoint_name sid now) (_sessions svc) = Some parent ->
  resume_from_checkpoint (checkpoint_name sid now) svc
  = let session :=
      mkSession (session_id parent) (cp_phase checkpoint) (cp_issue_type checkpoint)
        (stored_profile parent) (collected_data checkpoint) (cp_history checkpoint)
        (checkpoints parent) in
    Resumed (update_session session svc) (Some session).
Proof.
  intros Hcp Hparent. unfold resume_from_checkpoint.
  rewrite Hcp, checkpoint_name_parts, Hparent. reflexivity.
Qed.

End Checkpoints.

(** A checkpoint brings back the stored session of the moment it was
    taken.  When the session is stored under its identifier and no session
    lists the new checkpoint yet, then after [create_checkpoint] and a
    later [update_session] of the same session with other contents,
    [resume_from_checkpoint] returns the session with the phase, issue
    type, check-in and history it had at the checkpoint, and stores it; the
    profile and the list of checkpoints are those of the later update. *)
Theorem checkpoint_round_trip
    (svc : InMemorySessionService) (s s' : Session) (now summary : string) :
  let sid := session_id s in
  let cid := checkpoint_name sid now in
  get_session svc sid = Some s ->
  unlisted cid svc ->
  session_id s' = sid ->
  checkpoints s' = (checkpoints s ++ [cid])%list ->
  let svc2 := update_session s' (fst (create_checkpoint sid now summary svc)) in
  exists svc3 r,
    resume_from_checkpoint cid svc2 = Resumed svc3 (Some r) /\
    get_session svc3 sid = Some r /\
    stored_phase r = stored_phase s /\
    stored_issue_type r = stored_issue_type s /\
    stored_checkin r = stored_checkin s /\
    stored_history r = stored_history s /\
    stored_profile r = stored_profile s' /\
    checkpoints r = checkpoints s'.
Proof.
  intros sid cid Hget Hfresh Hid Hcps svc2.
  assert (Hsessions : _sessions svc2 = items_set (_sessions svc) sid s').
  { subst svc2. unfold create_checkpoint. rewrite Hget.
    unfold update_session. cbn [fst _sessions session_id]. rewrite Hid.
    fold sid. apply items_set_twice. }
  assert (Hcp : _checkpoints svc2 !! cid
                = Some (mkSessionCheckpoint cid (stored_phase s) (stored_issue_type s)
                          (stored_checkin s) (stored_history s) summary)).
  { subst svc2. unfold create_checkpoint. rewrite Hget.
    unfold update_session. cbn [fst _checkpoints]. apply lookup_insert_eq. }
  assert (Hparent : find_parent cid (_sessions svc2) = Some s').
  { rewrite Hsessions. apply find_parent_set; [exact Hfresh|].
    rewrite Hcps. apply mem_last. }
  eexists. eexists. split; [apply (resume_named svc2 sid now _ _ Hcp Hparent)|].
  cbv zeta. split.
  - unfold get_session, update_session. cbn [_sessions session_id]. rewrite Hid.
    apply items_get_set.
  - cbn. repeat split.
Qed.

(** A session created as "s1", checkpointed at 10:15:00 and then
    persisted with the twelve facts. *)
Lemma checkpoint_round_trip_witness :
  let svc := fst (create_session "s1" (mkService [] ∅)) in
  let later :=
    persist_session (mkNiravaSystem "ANALYSIS" (Some "build_plan") twelve_facts_session)
      (mkSession "s1" "INTAKE" None [("name", SStr "Friend"); ("age", SInt 30)] [] []
                 ["cp_s1_101500"]) in
  exists svc3 r,
    resume_from_checkpoint "cp_s1_101500"
      (update_session later (fst (create_checkpoint "s1" "101500" "" svc)))
    = Resumed svc3 (Some r) /\
    stored_phase r = "INTAKE" /\ stored_checkin r = [].
Proof.
  intros svc later.
  destruct (checkpoint_round_trip svc (new_session "s1") later "101500" "")
    as (svc3 & r & Hr & _ & Hphase & _ & Hcheckin & _).
  - reflexivity.
  - repeat constructor.
  - reflexivity.
  - reflexivity.
  - exists svc3, r. split; [exact Hr|]. split; [exact Hphase|exact Hcheckin].
Defined.

(** The name of a checkpoint is made of the session and of the time of
    day, so two checkpoints of a session taken at the same time of day are
    one entry of the store: the second replaces the first, and resuming
    from the name the first call returned brings back the session of the
    second call. *)
Theorem checkpoint_same_time_replaces
    (svc : InMemorySessionService) (s s' : Session) (now summary summary' : string) :
  let sid := session_id s in
  get_session svc sid = Some s ->
  unlisted (checkpoint_name sid now) svc ->
  session_id s' = sid ->
  let first := create_checkpoint sid now summary svc in
  let second := create_checkpoint sid now summary' (update_session s' (fst first)) in
  exists cp1 cp2 svc' r,
    snd first = Some cp1 /\ snd second = Some cp2 /\
    checkpoint_id cp2 = checkpoint_id cp1 /\
    _checkpoints (fst second) !! checkpoint_id cp1 = Some cp2 /\
    resume_from_checkpoint (checkpoint_id cp1) (fst second) = Resumed svc' (Some r) /\
    stored_phase r = stored_phase s' /\
    stored_issue_type r = stored_issue_type s' /\
    stored_checkin r = stored_checkin s' /\
    stored_history r = stored_history s'.
Proof.
  intros sid Hget Hfresh Hid first second.
  pose (cid := checkpoint_name sid now).
  assert (Hfirst : first
                   = (update_session
                        (mkSession (session_id s) (stored_phase s) (stored_issue_type s)
                           (stored_profile s) (stored_checkin s) (stored_history s)
                           (checkpoints s ++ [cid]))
                        (mkService (_sessions svc)
                           (<[cid := mkSessionCheckpoint cid (stored_phase s)
                                       (stored_issue_type s) (stored_checkin s)
                                       (stored_history s) summary]> (_checkpoints svc))),
                      Some (mkSessionCheckpoint cid (stored_phase s) (stored_issue_type s)
                              (stored_checkin s) (stored_history s) summary))).
  { subst first. unfold create_checkpoint. rewrite Hget. reflexivity. }
  assert (Hget2 : get_session (update_session s' (fst first)) sid = Some s').
  { unfold get_session, update_session. cbn [_sessions]. rewrite Hid. apply items_get_set. }
  assert (Hsecond : second
                    = (update_session
                         (mkSession (session_id s') (stored_phase s') (stored_issue_type s')
                            (stored_profile s') (stored_checkin s') (stored_history s')
                            (checkpoints s' ++ [cid]))
                         (mkService (_sessions (update_session s' (fst first)))
                            (<[cid := mkSessionCheckpoint cid (stored_phase s')
                                        (stored_issue_type s') (stored_checkin s')
                                        (stored_history s') summary']>
                               (_checkpoints (update_session s' (fst first))))),
                       Some (mkSessionCheckpoint cid (stored_phase s') (stored_issue_type s')
                               (stored_checkin s') (stored_history s') summary'))).
  { subst second. unfold create_checkpoint. rewrite Hget2. reflexivity. }
  assert (Hcp : _checkpoints (fst second) !! cid
                = Some (mkSessionCheckpoint cid (stored_phase s') (stored_issue_type s')
                          (stored_checkin s') (stored_history s') summary')).
  { rewrite Hsecond. unfold update_session. cbn [fst _checkpoints].
    apply lookup_insert_eq. }
  assert (Hparent : find_parent cid (_sessions (fst second))
                    = Some (mkSession (session_id s') (stored_phase s') (stored_issue_type s')
                              (stored_profile s') (stored_checkin s') (stored_history s')
                              (checkpoints s' ++ [cid]))).
  { rewrite Hsecond, Hfirst. unfold update_session. cbn [fst _sessions session_id].
    rewrite Hid. fold sid. rewrite !items_set_twice.
    apply find_parent_set; [exact Hfresh|]. cbn [checkpoints]. apply mem_last. }
  eexists. eexists. eexists. eexists.
  split; [rewrite Hfirst; reflexivity|].
  split; [rewrite Hsecond; reflexivity|].
  split; [reflexivity|].
  cbn [checkpoint_id].
  split; [exact Hcp|].
  split; [apply (resume_named (fst second) sid now _ _ Hcp Hparent)|].
  cbn. repeat split.
Qed.

(** A session checkpointed at 10:15:00 while it is empty and again, at
    the same time of another day, when it holds the twelve facts. *)
Lemma checkpoint_same_time_replaces_witness :
  let svc := fst (create_session "s1" (mkService [] ∅)) in
  let later :=
    persist_session (mkNiravaSystem "ANALYSIS" (Some "build_plan") twelve_facts_session)
      (mkSession "s1" "INTAKE" None [("name", SStr "Friend"); ("age", SInt 30)] [] []
                 ["cp_s1_101500"]) in
  let first := create_checkpoint "s1" "101500" "" svc in
  let second := create_checkpoint "s1" "101500" "" (update_session later (fst first)) in
  exists cp1 svc' r,
    snd first = Some cp1 /\ cp_phase cp1 = "INTAKE" /\
    resume_from_checkpoint (checkpoint_id cp1) (fst second) = Resumed svc' (Some r) /\
    stored_phase r = "ANALYSIS".
Proof.
  intros svc later first second.
  destruct (checkpoint_same_time_replaces svc (new_session "s1") later "101500" "" "")
    as (cp1 & cp2 & svc' & r & H1 & _ & _ & _ & Hr & Hphase & _).
  - reflexivity.
  - repeat constructor.
  - reflexivity.
  - exists cp1, svc', r. split; [exact H1|]. split; [|split; [exact Hr|exact Hphase]].
    change (snd first) with
      (Some (mkSessionCheckpoint "cp_s1_101500" "INTAKE" None [] [] "")) in H1.
    injection H1 as <-. reflexivity.
Defined.

(** ** Instances of the statements on rounding and on raising *)

(** The tie 2.5 is rounded to the even integer 2. *)
Lemma round_half_even_nearest_witness :
  Z.even (PyNum.round_half_even (5 # 2)) = true.
Proof.
  destruct (round_half_even_nearest (5 # 2)) as (_ & _ & H).
  apply H. reflexivity.
Defined.

(** The payload with [10 ** 400] for the water glasses, on a new session. *)
Lemma apply_updates_raises_witness :
  printable_ints overflowing_updates /\
  snd (apply_updates overflowing_updates fresh_session) = Raise OverflowError /\
  exists key raw,
    In key int_keys /\ dict_get overflowing_updates key = Some raw /\
    parse_int raw = Raise OverflowError.
Proof.
  assert (Hp : printable_ints overflowing_updates).
  { intros key z Hz. unfold overflowing_updates in Hz.
    apply lookup_insert_Some in Hz as [[_ Hz]|[_ Hz]]; [discriminate Hz|].
    apply lookup_insert_Some in Hz as [[_ Hz]|[_ Hz]].
    - injection Hz as <-. vm_compute. reflexivity.
    - apply lookup_insert_Some in Hz as [[_ Hz]|[_ Hz]].
      + injection Hz as <-. vm_compute. reflexivity.
      + rewrite lookup_empty in Hz. discriminate Hz. }
  assert (H : snd (apply_updates overflowing_updates fresh_session) = Raise OverflowError)
    by (vm_compute; reflexivity).
  split; [exact Hp|]. split; [exact H|].
  destruct (apply_updates_raises overflowing_updates fresh_session OverflowError Hp H)
    as [_ Hkey].
  exact Hkey.
Defined.
